(** * EzeeML (torchlite / torchlight): training harness, callbacks, encoder

    A shallow embedding of the parts of the repository that carry the
    training-loop bookkeeping:

    - [torchlight/nn/tools.py]            : [AverageMeter]
    - [torchlite/learner/cores.py]        : [ClassifierCore]
    - [torchlight/nn/models/srgan.py]     : [SRGAN.forward]
    - [torchlight/nn/train_callbacks.py]  : [TrainCallbackList],
      [ReduceLROnPlateau], [ModelSaverCallback]
    - [torchlite/torch/train_callbacks.py]: [ReduceLROnPlateau],
      [ModelSaverCallback]
    - [torchlite/pandas/tabular_encoder.py]: [BaseEncoder.transform]

    Python objects are modelled by explicit state passing.  A call either
    returns or raises, and in both cases the mutated state survives, so
    the outcome of a call always carries the state it left behind.
    Python floats are modelled by exact rationals ([Q]); tensors, model
    parameters and the numerical framework (forward passes, autograd,
    optimizers, serialisation) are abstract and enter as section
    variables. *)

From Stdlib Require Import List String Ascii ZArith QArith Lia Bool Arith.
From Stdlib Require Import Setoid Morphisms DecimalString Qpower Qfield.
From stdpp Require Import base option gmap strings.
Import ListNotations.

Set Implicit Arguments.
Set Warnings "-register-all".
Local Open Scope string_scope.
Local Open Scope list_scope.

(** ** Python exceptions and the call monad *)

Module Py.

(** The exceptions the modelled code can raise, with their payload. *)
Inductive exn : Type :=
| ZeroDivisionError
| KeyError (key : string)
| ValueError (msg : string)
| AssertionError (msg : string)
| AttributeError (msg : string)
| RuntimeError (msg : string)
| FileNotFoundError (path : string)
| IsADirectoryError (path : string)
| NotADirectoryError (path : string)
| Exception (msg : string) (cols : list string).

(** How a call on state [S] ends. *)
Inductive outcome (S A : Type) : Type :=
| Returned (a : A) (s : S)
| Raised (e : exn) (s : S).
Arguments Returned {S A} a s.
Arguments Raised {S A} e s.

Definition M (S A : Type) : Type := S -> outcome S A.

Definition ret {S A} (a : A) : M S A := fun s => Returned a s.
Definition raise {S A} (e : exn) : M S A := fun s => Raised e s.
Definition bind {S A B} (m : M S A) (k : A -> M S B) : M S B :=
  fun s => match m s with
           | Returned a s' => k a s'
           | Raised e s' => Raised e s'
           end.
Definition get {S} : M S S := fun s => Returned s s.
Definition put {S} (s : S) : M S unit := fun _ => Returned tt s.
Definition modify {S} (f : S -> S) : M S unit := fun s => Returned tt (f s).

(** [for x in xs: body x] *)
Fixpoint for_each {S A} (xs : list A) (body : A -> M S unit) : M S unit :=
  match xs with
  | [] => ret tt
  | x :: rest => bind (body x) (fun _ => for_each rest body)
  end.

Definition final {S A} (o : outcome S A) : S :=
  match o with Returned _ s => s | Raised _ s => s end.

Definition returns {S A} (o : outcome S A) : bool :=
  match o with Returned _ _ => true | Raised _ _ => false end.

(** Pure fallible computations (no state). *)
Inductive result (A : Type) : Type :=
| Ok (a : A)
| Err (e : exn).
Arguments Ok {A} a.
Arguments Err {A} e.

Definition lift {S A} (r : result A) : M S A :=
  fun s => match r with Ok a => Returned a s | Err e => Raised e s end.

Definition and_then {A B} (r : result A) (k : A -> result B) : result B :=
  match r with Ok a => k a | Err e => Err e end.

End Py.

Import Py.

Declare Scope py_scope.
Delimit Scope py_scope with py.
Notation "x <- m ;; k" := (Py.bind m (fun x => k))
  (at level 100, m at next level, right associativity) : py_scope.
Notation "m ;;; k" := (Py.bind m (fun _ => k))
  (at level 100, right associativity) : py_scope.

Declare Scope result_scope.
Delimit Scope result_scope with res.
Notation "x <- m ;; k" := (Py.and_then m (fun x => k))
  (at level 100, m at next level, right associativity) : result_scope.
Notation "m ;;; k" := (Py.and_then m (fun _ => k))
  (at level 100, right associativity) : result_scope.

(** ** Python dictionaries

    Insertion-ordered, keys unique: iteration order ([items]) is
    observable in the callbacks, so a dictionary is an association list
    in insertion order. *)

Module Dict.

Definition t (V : Type) : Type := list (string * V).

Definition empty {V} : t V := [].

Fixpoint get {V} (d : t V) (k : string) : option V :=
  match d with
  | [] => None
  | (k', v) :: rest => if String.eqb k' k then Some v else get rest k
  end.

(** [d[k] = v]: overwrite in place when present, append otherwise. *)
Fixpoint set {V} (d : t V) (k : string) (v : V) : t V :=
  match d with
  | [] => [(k, v)]
  | (k', v') :: rest =>
      if String.eqb k' k then (k', v) :: rest else (k', v') :: set rest k v
  end.

(** [d.update(other)] *)
Definition update {V} (d other : t V) : t V :=
  fold_left (fun acc kv => set acc (fst kv) (snd kv)) other d.

Definition items {V} (d : t V) : list (string * V) := d.
Definition keys {V} (d : t V) : list string := map fst d.

(** [d[k]], raising [KeyError] *)
Definition lookup {V} (d : t V) (k : string) : result V :=
  match get d k with
  | Some v => Ok v
  | None => Err (KeyError k)
  end.

Definition is_empty {V} (d : t V) : bool :=
  match d with [] => true | _ => false end.

End Dict.

(** ** [torchlight/nn/tools.py]: [AverageMeter]

    Numbers are exact rationals.  On exact values (integers,
    [fractions.Fraction]) [val], [sum] and [avg] are computed by the
    code exactly as here; on doubles every operation of the code also
    rounds, which is not modelled, so an equation proved here holds for
    doubles up to rounding only.  [avg_mom] is the double literal
    [0.98], so [avg_loss_mom] is a double in the code whatever the
    values are: the field is carried for [update]'s sake and nothing is
    proved about it ([debias_loss], which only reads it, is left out). *)

Module Meter.

Local Open Scope Q_scope.

Record AverageMeter : Type := mk {
  val : Q;
  sum : Q;
  count : nat;
  avg_mom : Q;
  avg_loss_mom : Q
}.

(** [__init__] *)
Definition init : AverageMeter :=
  {| val := 0; sum := 0; count := 0; avg_mom := 98 # 100; avg_loss_mom := 0 |}.

Definition reset (_ : AverageMeter) : AverageMeter := init.

Definition of_count (n : nat) : Q := inject_Z (Z.of_nat n).

(** [update(val)] *)
Definition update (m : AverageMeter) (v : Q) : AverageMeter :=
  let count' := S (count m) in
  {| val := v;
     count := count';
     sum := sum m + v * of_count count';
     avg_mom := avg_mom m;
     avg_loss_mom := avg_loss_mom m * avg_mom m + v * (1 - avg_mom m) |}.


(** The meter after [update] has been called on each of [vs] in order. *)
Definition updates (m : AverageMeter) (vs : list Q) : AverageMeter :=
  fold_left update vs m.




End Meter.

(** ** [torchlite/learner/cores.py]: [ClassifierCore] *)

Module Cores.

(** The numerical framework a classifier core is built on: the model's
    forward pass, the criterion, autograd and the optimizer; and the
    meter class.  [cores.py] builds its meter from
    [torchlite.tools.tensor_tools.AverageMeter], a class that is not
    among the sources (the [AverageMeter] of [torchlight/nn/tools.py]
    above is another class, which [cores.py] does not import), so the
    constructor, [update] and [avg] of that class are taken as given,
    like the other calls into code that is not there. *)
Class Framework : Type := {
  params : Type;
  tensor : Type;
  gradient : Type;
  opt_state : Type;
  (** [self.model.forward( *inputs )] *)
  model_forward : params -> list tensor -> tensor;
  (** [self.crit(logits, targets).item()] *)
  crit_item : tensor -> option tensor -> Q;
  (** what [loss.backward()] adds to the [.grad] buffers *)
  crit_grad : params -> list tensor -> option tensor -> gradient;
  grad_zero : gradient;
  grad_add : gradient -> gradient -> gradient;
  (** [self.optim.step()] *)
  optim_step : opt_state -> params -> gradient -> opt_state * params;
  (** an instance of [tensor_tools.AverageMeter] *)
  meter : Type;
  (** [tensor_tools.AverageMeter()] *)
  meter_new : meter;
  (** [self.avg_meter.update(v)] *)
  meter_update : meter -> Q -> meter;
  (** [self.avg_meter.avg] *)
  meter_avg : meter -> Q
}.

(** Calls into the optimizer and autograd, in the order they are made. *)
Inductive call : Type :=
| ZeroGrad
| Backward
| Step.

Section ClassifierCore.

Context {F : Framework}.

Record ClassifierCore : Type := mkCore {
  optim : opt_state;
  model : params;
  grad : gradient;
  logs : Dict.t (Dict.t Q);
  avg_meter : meter;
  calls : list call
}.

(** [__init__] *)
Definition new (model0 : params) (optimizer : opt_state) : ClassifierCore :=
  {| optim := optimizer; model := model0; grad := grad_zero;
     logs := Dict.empty; avg_meter := meter_new; calls := [] |}.

Definition get_logs (c : ClassifierCore) : Dict.t (Dict.t Q) := logs c.

(** [on_new_epoch] *)
Definition on_new_epoch (c : ClassifierCore) : ClassifierCore :=
  {| optim := optim c; model := model c; grad := grad c;
     logs := Dict.empty; avg_meter := meter_new; calls := calls c |}.

Definition set_meter (m : meter) (c : ClassifierCore) : ClassifierCore :=
  {| optim := optim c; model := model c; grad := grad c;
     logs := logs c; avg_meter := m; calls := calls c |}.

(** [self.logs.update(d)] *)
Definition logs_update (d : Dict.t (Dict.t Q)) (c : ClassifierCore) : ClassifierCore :=
  {| optim := optim c; model := model c; grad := grad c;
     logs := Dict.update (logs c) d; avg_meter := avg_meter c; calls := calls c |}.

(** [self.optim.zero_grad()] *)
Definition zero_grad (c : ClassifierCore) : ClassifierCore :=
  {| optim := optim c; model := model c; grad := grad_zero;
     logs := logs c; avg_meter := avg_meter c; calls := calls c ++ [ZeroGrad] |}.

(** [loss.backward()] *)
Definition backward (g : gradient) (c : ClassifierCore) : ClassifierCore :=
  {| optim := optim c; model := model c; grad := grad_add (grad c) g;
     logs := logs c; avg_meter := avg_meter c; calls := calls c ++ [Backward] |}.

(** [self.optim.step()] *)
Definition step_optim (c : ClassifierCore) : ClassifierCore :=
  let (o, p) := optim_step (optim c) (model c) (grad c) in
  {| optim := o; model := p; grad := grad c;
     logs := logs c; avg_meter := avg_meter c; calls := calls c ++ [Step] |}.

(** [self.avg_meter.avg], read on the current state *)
Definition read_avg : M ClassifierCore Q :=
  fun c => Returned (meter_avg (avg_meter c)) c.

(** [on_forward_batch(step, inputs, targets=None)] *)
Definition on_forward_batch (step : string) (inputs : list tensor)
    (targets : option tensor) : M ClassifierCore tensor :=
  (c0 <- Py.get ;;
   let logits := model_forward (model c0) inputs in
   (if negb (String.eqb step "prediction") then
      let loss := crit_item logits targets in
      Py.modify (fun c => set_meter (meter_update (avg_meter c) loss) c) ;;;
      Py.modify (logs_update [("batch_logs", [("loss", loss)])]) ;;;
      if String.eqb step "training" then
        Py.modify zero_grad ;;;
        Py.modify (backward (crit_grad (model c0) inputs targets)) ;;;
        Py.modify step_optim ;;;
        a <- read_avg ;;
        Py.modify (logs_update [("epoch_logs", [("train loss", a)])])
      else
        a <- read_avg ;;
        Py.modify (logs_update [("epoch_logs", [("valid loss", a)])])
    else Py.ret tt) ;;;
   Py.ret logits)%py.

End ClassifierCore.

End Cores.

(** ** [torchlight/nn/models/srgan.py]: [SRGAN] *)

Module Srgan.

(** The two networks and their optimizers. *)
Inductive net : Type := NetG | NetD.

Inductive loss_name : Type := DLoss | GLoss.

(** Calls into autograd and the optimizers, in the order they are made. *)
Inductive call : Type :=
| ZeroGrad (n : net)
| Backward (l : loss_name) (value : Q) (retain_graph : bool)
| Step (n : net).

Local Open Scope Q_scope.

(** The numerical framework under the composite module. *)
Class Framework : Type := {
  params : Type;
  tensor : Type;
  gradient : Type;
  opt_state : Type;
  (** [self.netG(x)], [self.netD(x)] *)
  netG_forward : params -> tensor -> tensor;
  netD_forward : params -> tensor -> tensor;
  (** [t.mean()] *)
  mean : tensor -> Q;
  (** [GeneratorLoss()(d_fake_out, gen_img, target)] *)
  generator_loss : Q -> tensor -> tensor -> Q;
  (** the gradients a backward pass through a loss adds to the [.grad]
      buffers of the generator and of the discriminator *)
  loss_grad : loss_name -> params -> params -> tensor -> tensor -> gradient * gradient;
  grad_zero : gradient;
  grad_add : gradient -> gradient -> gradient;
  optim_step : opt_state -> params -> gradient -> opt_state * params
}.

Section SRGAN.

Context {F : Framework}.

Record SRGAN : Type := mkSRGAN {
  netG_optim : opt_state;
  netD_optim : opt_state;
  netD : params;
  netG : params;
  gradG : gradient;
  gradD : gradient;
  (** whether the autograd graph of the current batch still holds its
      buffers; a backward pass without [retain_graph] frees them *)
  graph_alive : bool;
  calls : list call
}.

(** A loss tensor: its value and what its backward pass yields. *)
Record loss : Type := mkLoss {
  name : loss_name;
  item : Q;
  grads : gradient * gradient
}.

Definition log_call (k : call) (s : SRGAN) : SRGAN :=
  {| netG_optim := netG_optim s; netD_optim := netD_optim s;
     netD := netD s; netG := netG s; gradG := gradG s; gradD := gradD s;
     graph_alive := graph_alive s; calls := calls s ++ [k] |}.

(** [model.zero_grad()] *)
Definition zero_grad (n : net) (s : SRGAN) : SRGAN :=
  log_call (ZeroGrad n)
    {| netG_optim := netG_optim s; netD_optim := netD_optim s;
       netD := netD s; netG := netG s;
       gradG := match n with NetG => grad_zero | NetD => gradG s end;
       gradD := match n with NetD => grad_zero | NetG => gradD s end;
       graph_alive := graph_alive s; calls := calls s |}.

(** [loss.backward(retain_graph=retain_graph)]: a second pass through a
    graph whose buffers were freed is a [RuntimeError]. *)
Definition backward (l : loss) (retain_graph : bool) : M SRGAN unit :=
  fun s =>
    let s1 := log_call (Backward (name l) (item l) retain_graph) s in
    if graph_alive s then
      Returned tt
        {| netG_optim := netG_optim s1; netD_optim := netD_optim s1;
           netD := netD s1; netG := netG s1;
           gradG := grad_add (gradG s1) (fst (grads l));
           gradD := grad_add (gradD s1) (snd (grads l));
           graph_alive := retain_graph; calls := calls s1 |}
    else
      Raised (RuntimeError "Trying to backward through the graph a second time") s1.

(** [optim.step()] *)
Definition step (n : net) (s : SRGAN) : SRGAN :=
  log_call (Step n)
    match n with
    | NetD =>
        let (o, p) := optim_step (netD_optim s) (netD s) (gradD s) in
        {| netG_optim := netG_optim s; netD_optim := o;
           netD := p; netG := netG s; gradG := gradG s; gradD := gradD s;
           graph_alive := graph_alive s; calls := calls s |}
    | NetG =>
        let (o, p) := optim_step (netG_optim s) (netG s) (gradG s) in
        {| netG_optim := o; netD_optim := netD_optim s;
           netD := netD s; netG := p; gradG := gradG s; gradD := gradD s;
           graph_alive := graph_alive s; calls := calls s |}
    end.

(** [_optimize(model, optim, loss, retain_graph=False)]; both call sites
    pass a network together with its own optimizer. *)
Definition _optimize (n : net) (l : loss) (retain_graph : bool) : M SRGAN unit :=
  (Py.modify (zero_grad n) ;;;
   backward l retain_graph ;;;
   Py.modify (step n))%py.

(** A forward pass builds a fresh graph. *)
Definition fresh_graph (s : SRGAN) : SRGAN :=
  {| netG_optim := netG_optim s; netD_optim := netD_optim s;
     netD := netD s; netG := netG s; gradG := gradG s; gradD := gradD s;
     graph_alive := true; calls := calls s |}.

(** [forward(data, target)] *)
Definition forward (data target : tensor) : M SRGAN (tensor * Q * Q) :=
  (Py.modify fresh_graph ;;;
   s0 <- Py.get ;;
   let gen_img := netG_forward (netG s0) data in
   let d_real_out := mean (netD_forward (netD s0) target) in
   let d_fake_out := mean (netD_forward (netD s0) gen_img) in
   let d_loss := 1 - d_real_out + d_fake_out in
   _optimize NetD
     (mkLoss DLoss d_loss (loss_grad DLoss (netG s0) (netD s0) data target))
     true ;;;
   let g_loss := generator_loss d_fake_out gen_img target in
   _optimize NetG
     (mkLoss GLoss g_loss (loss_grad GLoss (netG s0) (netD s0) data target))
     false ;;;
   Py.ret (gen_img, d_real_out, d_fake_out))%py.

End SRGAN.

End Srgan.

(** ** Strings, paths and the file system *)

Module Os.

Definition nl : string := String "010"%char EmptyString.

(** [str(n)] / ["{}".format(n)] for an integer *)
Definition str_of_int (z : Z) : string :=
  DecimalString.NilZero.string_of_int (Z.to_int z).

Fixpoint endswith_sep (s : string) : bool :=
  match s with
  | EmptyString => false
  | String c EmptyString => Ascii.eqb c "/"%char
  | String _ rest => endswith_sep rest
  end.

(** [os.path.join(a, b)] (posixpath) *)
Definition join (a b : string) : string :=
  if String.prefix "/" b then b
  else if String.eqb a "" || endswith_sep a then a +:+ b
  else a +:+ "/" +:+ b.

(** [s == '/' * len(s)] *)
Fixpoint all_sep (s : string) : bool :=
  match s with
  | EmptyString => true
  | String c rest => Ascii.eqb c "/"%char && all_sep rest
  end.

(** [s.rstrip('/')] *)
Fixpoint rstrip_sep (s : string) : string :=
  match s with
  | EmptyString => EmptyString
  | String c rest =>
      if Ascii.eqb c "/"%char && all_sep rest then EmptyString
      else String c (rstrip_sep rest)
  end.

(** [p[:p.rfind('/') + 1]] *)
Fixpoint upto_last_sep (p : string) : string :=
  match p with
  | EmptyString => EmptyString
  | String c rest =>
      match upto_last_sep rest with
      | EmptyString =>
          if Ascii.eqb c "/"%char then String c EmptyString else EmptyString
      | head => String c head
      end
  end.

(** [os.path.dirname(p)] (posixpath) *)
Definition dirname (p : string) : string :=
  let head := upto_last_sep p in
  if all_sep head then head else rstrip_sep head.

End Os.

(** ** [train_callbacks.py]: the callbacks of both packages *)

Module Callbacks.

(** What the callbacks need from the framework's modules. *)
Class Torch : Type := {
  (** an [nn.Module] instance *)
  module : Type;
  (** what [state_dict()] returns and [torch.save] serialises *)
  state_dict : Type;
  (** [m.__class__.__name__] *)
  class_name : module -> string;
  get_state_dict : module -> state_dict;
  (** [m.load_state_dict(sd)]: the module afterwards, or the error *)
  load_state_dict : module -> state_dict -> result module
}.

Section WithTorch.

Context {T : Torch}.

(** Values found in the [logs] mappings handed to callbacks. *)
Inductive pyval : Type :=
| PNone
| PBool (b : bool)
| PInt (z : Z)
| PFloat (q : Q)
| PStr (s : string)
| PDict (d : list (string * pyval))
| PModule (m : module).

(** Truth value of an object ([not v] is its negation). *)
Definition truthy (v : pyval) : bool :=
  match v with
  | PNone => false
  | PBool b => b
  | PInt z => negb (Z.eqb z 0)
  | PFloat q => negb (Qeq_bool q 0)
  | PStr s => negb (String.eqb s "")
  | PDict d => negb (Dict.is_empty d)
  | PModule _ => true
  end.

(** [v == s] for a string literal [s] *)
Definition eq_str (v : pyval) (s : string) : bool :=
  match v with
  | PStr s' => String.eqb s' s
  | _ => false
  end.

(** *** File system and console

    The disk maps the path strings the program uses to what stands
    there; paths are taken as written (no normalisation of [.], [..] or
    doubled separators, no links), and access rights and disk space are
    not modelled. *)

Inductive node : Type :=
| File (content : state_dict)
| Dir.

Record world : Type := mkWorld {
  fs : gmap string node;
  (** what [print] wrote, one entry per call *)
  stdout : list string;
  (** the calls made to [torch.save]: path and serialised object *)
  saved : list (string * state_dict)
}.

(** [os.path.isfile(p)] *)
Definition isfile (w : world) (p : string) : bool :=
  match fs w !! p with
  | Some (File _) => true
  | _ => false
  end.

(** What stands at the directory part of [p].  A relative path without
    directory part lies in the current directory, which exists, as the
    root does. *)
Definition parent (w : world) (p : string) : option node :=
  let d := Os.dirname p in
  if Os.all_sep d then Some Dir else fs w !! d.

(** [torch.load(p)]: it opens [p] for reading *)
Definition torch_load (p : string) : M world state_dict :=
  fun w => match fs w !! p with
           | Some (File c) => Returned c w
           | Some Dir => Raised (IsADirectoryError p) w
           | None =>
               match parent w p with
               | Some (File _) => Raised (NotADirectoryError p) w
               | _ => Raised (FileNotFoundError p) w
               end
           end.

(** [torch.save(obj, p)]: it opens [p] for writing, which creates or
    truncates the file but no directory *)
Definition torch_save (obj : state_dict) (p : string) : M world unit :=
  fun w => match fs w !! p with
           | Some Dir => Raised (IsADirectoryError p) w
           | _ =>
               match parent w p with
               | Some Dir =>
                   Returned tt {| fs := <[p := File obj]> (fs w);
                                  stdout := stdout w;
                                  saved := saved w ++ [(p, obj)] |}
               | Some (File _) => Raised (NotADirectoryError p) w
               | None => Raised (FileNotFoundError p) w
               end
           end.

(** A path [torch.save] can write: no directory stands there, and the
    directory it lies in exists. *)
Definition writable (w : world) (p : string) : Prop :=
  fs w !! p <> Some Dir /\ parent w p = Some Dir.

(** [print(s, end=e)] *)
Definition print (s e : string) : M world unit :=
  Py.modify (fun w => {| fs := fs w; stdout := stdout w ++ [s +:+ e];
                         saved := saved w |}).

(** *** [ReduceLROnPlateau] (the same code in both packages) *)

Record ReduceLROnPlateau : Type := mkRLROP {
  loss_step : string;
  (** the calls [self.lr_sch.step(v, epoch)] received so far *)
  lr_sch : list (pyval * Z)
}.

Definition lr_sch_step (v : pyval) (epoch : Z) : M ReduceLROnPlateau unit :=
  Py.modify (fun self => {| loss_step := loss_step self;
                            lr_sch := lr_sch self ++ [(v, epoch)] |}).

Definition no_val_loss : string :=
  "ReduceLROnPlateau: No validation loss has been found".

(** [on_epoch_end(epoch, logs)] *)
Definition ReduceLROnPlateau_on_epoch_end (epoch : Z) (logs : Dict.t pyval)
    : M ReduceLROnPlateau unit :=
  (step <- Py.lift (Dict.lookup logs "step") ;;
   if eq_str step "training" then
     self <- Py.get ;;
     Py.for_each (Dict.items logs) (fun kv =>
       let (k, v) := kv in
       if String.eqb (loss_step self) "valid" then
         if String.eqb k "val_loss" then
           if negb (truthy v) then Py.raise (ValueError no_val_loss)
           else lr_sch_step v epoch
         else Py.ret tt
       else
         if String.eqb k "train_loss" then lr_sch_step v epoch
         else Py.ret tt)
   else Py.ret tt)%py.

(** *** [ModelSaverCallback] *)

Record ModelSaverCallback : Type := mkSaver {
  to_dir : string;
  epochs : Z;
  every_n_epoch : Z
}.

Definition not_all_restored : string :=
  "Not all models were restored. Please check that your passed models and files match".

(** [x % n == 0], with Python's division by zero *)
Definition divides (n x : Z) : result bool :=
  if Z.eqb n 0 then Err ZeroDivisionError else Ok (Z.eqb (x mod n) 0).

(** [logs['models'].items()] *)
Definition models_items (logs : Dict.t pyval) : result (list (string * pyval)) :=
  match Dict.lookup logs "models" with
  | Ok (PDict d) => Ok (Dict.items d)
  | Ok _ => Err (AttributeError "object has no attribute 'items'")
  | Err e => Err e
  end.

(** [m.state_dict()] on a value of the [models] mapping *)
Definition state_dict_of (v : pyval) : result state_dict :=
  match v with
  | PModule m => Ok (get_state_dict m)
  | _ => Err (AttributeError "object has no attribute 'state_dict'")
  end.

(** [torchlight]: [on_epoch_end(epoch, logs)] *)
Definition torchlight_on_epoch_end (self : ModelSaverCallback) (epoch : Z)
    (logs : Dict.t pyval) : M world unit :=
  (step <- Py.lift (Dict.lookup logs "step") ;;
   if eq_str step "training" then
     due <- Py.lift (divides (every_n_epoch self) epoch) ;;
     if due || Z.eqb epoch (epochs self) then
       items <- Py.lift (models_items logs) ;;
       Py.for_each items (fun km =>
         let (k, m) := km in
         sd <- Py.lift (state_dict_of m) ;;
         torch_save sd (Os.join (to_dir self) (k +:+ ".pth"))) ;;;
       print (Os.nl +:+ "--- Model(s) saved in " +:+ to_dir self +:+ " ---")
             (Os.nl +:+ Os.nl)
     else Py.ret tt
   else Py.ret tt)%py.

(** [torchlite]: [on_epoch_end(epoch, logs)] *)
Definition torchlite_on_epoch_end (self : ModelSaverCallback) (epoch : Z)
    (logs : Dict.t pyval) : M world unit :=
  (step <- Py.lift (Dict.lookup logs "step") ;;
   if eq_str step "training" then
     due <- Py.lift (divides (every_n_epoch self) epoch) ;;
     if due || Z.eqb epoch (epochs self) then
       items <- Py.lift (models_items logs) ;;
       Py.for_each items (fun km =>
         let (k, m) := km in
         sd <- Py.lift (state_dict_of m) ;;
         torch_save sd
           (Os.join (to_dir self)
              (k +:+ "_epoch-" +:+ Os.str_of_int epoch +:+ ".pth")) ;;;
         (* Erase the last default model *)
         sd' <- Py.lift (state_dict_of m) ;;
         torch_save sd' (Os.join (to_dir self) (k +:+ ".pth"))) ;;;
       print (Os.nl +:+ "--- Model(s) saved in " +:+ to_dir self +:+ " ---")
             (Os.nl +:+ Os.nl)
     else Py.ret tt
   else Py.ret tt)%py.

(** [torchlite]: the loop of [restore_models]; [i] counts the modules
    whose file was found.  [load_with_cpu] only selects the device the
    loaded tensors are mapped to. *)
Fixpoint restore_models_loop (from_dir : string) (load_with_cpu : bool)
    (models : list module) (i : nat) : M world (nat * list module) :=
  match models with
  | [] => Py.ret (i, [])
  | model :: rest =>
      let file := Os.join from_dir (class_name model +:+ ".pth") in
      (w <- Py.get ;;
       if isfile w file then
         sd <- torch_load file ;;
         model' <- Py.lift (load_state_dict model sd) ;;
         r <- restore_models_loop from_dir load_with_cpu rest (S i) ;;
         Py.ret (fst r, model' :: snd r)
       else
         r <- restore_models_loop from_dir load_with_cpu rest i ;;
         Py.ret (fst r, model :: snd r))%py
  end.

(** [torchlite]: [restore_models(models, from_dir, load_with_cpu=False)] *)
Definition restore_models (models : list module) (from_dir : string)
    (load_with_cpu : bool) : M world (list module) :=
  (r <- restore_models_loop from_dir load_with_cpu models 0 ;;
   if Nat.eqb (fst r) (length models) then
     print (Os.nl +:+ "--- Model(s) restored from " +:+ from_dir +:+ " ---")
           (Os.nl +:+ Os.nl) ;;;
     Py.ret (snd r)
   else Py.raise (AssertionError not_all_restored))%py.

(** [torchlight]: the loop of [restore_model]; it hands [from_dir]
    itself to [torch.load]. *)
Fixpoint restore_model_loop (from_dir : string) (models : list module)
    (i : nat) : M world (nat * list module) :=
  match models with
  | [] => Py.ret (i, [])
  | model :: rest =>
      let file := Os.join from_dir (class_name model +:+ ".pth") in
      (w <- Py.get ;;
       if isfile w file then
         sd <- torch_load from_dir ;;
         model' <- Py.lift (load_state_dict model sd) ;;
         r <- restore_model_loop from_dir rest (S i) ;;
         Py.ret (fst r, model' :: snd r)
       else
         r <- restore_model_loop from_dir rest i ;;
         Py.ret (fst r, model :: snd r))%py
  end.

(** [torchlight]: [restore_model(models, from_dir)]; returns nothing. *)
Definition restore_model (models : list module) (from_dir : string)
    : M world unit :=
  (r <- restore_model_loop from_dir models 0 ;;
   if Nat.eqb (fst r + 1) (length models) then
     print (Os.nl +:+ "--- Model(s) restored from " +:+ from_dir +:+ " ---")
           (Os.nl +:+ Os.nl)
   else Py.raise (AssertionError not_all_restored))%py.

(** [ClassifierCore.get_models]: the core's model under its class name,
    as it reaches the callbacks in [logs['models']]. *)
Definition get_models (model : module) : list (string * module) :=
  [(class_name model, model)].

(** The file [restore_models] and [restore_model] look for. *)
Definition file_of (from_dir : string) (model : module) : string :=
  Os.join from_dir (class_name model +:+ ".pth").

(** The models whose file is on disk. *)
Definition found (w : world) (from_dir : string) (models : list module)
    : list module :=
  List.filter (fun model => isfile w (file_of from_dir model)) models.

(** The files an epoch end writes for the modules [ms] of
    [logs['models']], in the order they are written: path and content. *)
Definition torchlight_files (self : ModelSaverCallback)
    (ms : list (string * module)) : list (string * state_dict) :=
  map (fun km => (Os.join (to_dir self) (fst km +:+ ".pth"),
                  get_state_dict (snd km))) ms.

Definition torchlite_files (self : ModelSaverCallback) (epoch : Z)
    (ms : list (string * module)) : list (string * state_dict) :=
  flat_map (fun km =>
    [(Os.join (to_dir self)
        (fst km +:+ "_epoch-" +:+ Os.str_of_int epoch +:+ ".pth"),
      get_state_dict (snd km));
     (Os.join (to_dir self) (fst km +:+ ".pth"), get_state_dict (snd km))]) ms.

(** The file system after [files] have been written in order. *)
Definition write_all (files : list (string * state_dict))
    (f : gmap string node) : gmap string node :=
  fold_left (fun f p => <[fst p := File (snd p)]> f) files f.

(** [logs['models']] holding the named modules [ms] *)
Definition models_entry (ms : list (string * module)) : pyval :=
  PDict (map (fun km => (fst km, PModule (snd km))) ms).


End WithTorch.

End Callbacks.

(** ** [torchlight/nn/train_callbacks.py]: [TrainCallback], [TrainCallbackList]

    The [logs] dictionary handed to the callbacks is one shared mutable
    object: dictionaries live in a heap and are passed by location.  [U]
    is the private state of the registered callbacks. *)

Module TrainCallbackList.

Import Callbacks.

Section WithTorch.

Context {T : Torch}.

Definition loc : Type := nat.

Record store (U : Type) : Type := mkStore {
  heap : list (Dict.t pyval);
  user : U
}.

(** The callback interface: six hooks, each returning some object. *)
Record TrainCallback (U : Type) : Type := mkCallback {
  cb_on_epoch_begin : Z -> loc -> M (store U) pyval;
  cb_on_epoch_end : Z -> loc -> M (store U) pyval;
  cb_on_batch_begin : Z -> loc -> M (store U) pyval;
  cb_on_batch_end : Z -> loc -> M (store U) pyval;
  cb_on_train_begin : loc -> M (store U) pyval;
  cb_on_train_end : loc -> M (store U) pyval
}.


Record TrainCallbackList (U : Type) : Type := mkList {
  callbacks : list (TrainCallback U);
  queue_length : Z
}.

(** [__init__(callbacks=None, queue_length=10)] *)
Definition new {U} (cbs : option (list (TrainCallback U))) (queue_length : Z)
    : TrainCallbackList U :=
  {| callbacks := match cbs with Some l => l | None => [] end;
     queue_length := queue_length |}.


(** The dictionary at a location. *)
Definition deref {U} (st : store U) (l : loc) : Dict.t pyval :=
  match heap st !! l with
  | Some d => d
  | None => Dict.empty
  end.

(** [logs = logs or {}]: [None] and the empty dictionary are replaced by
    a freshly allocated empty dictionary. *)
Definition logs_or_empty {U} (logs : option loc) : M (store U) loc :=
  fun st =>
    let fresh := Returned (length (heap st))
                   {| heap := heap st ++ [Dict.empty]; user := user st |} in
    match logs with
    | None => fresh
    | Some l => if Dict.is_empty (deref st l) then fresh else Returned l st
    end.

Definition on_epoch_begin {U} (self : TrainCallbackList U) (epoch : Z)
    (logs : option loc) : M (store U) unit :=
  (logs <- logs_or_empty logs ;;
   Py.for_each (callbacks self) (fun callback =>
     cb_on_epoch_begin callback epoch logs ;;; Py.ret tt))%py.

Definition on_epoch_end {U} (self : TrainCallbackList U) (epoch : Z)
    (logs : option loc) : M (store U) unit :=
  (logs <- logs_or_empty logs ;;
   Py.for_each (callbacks self) (fun callback =>
     cb_on_epoch_end callback epoch logs ;;; Py.ret tt))%py.


Definition on_batch_end {U} (self : TrainCallbackList U) (batch : Z)
    (logs : option loc) : M (store U) unit :=
  (logs <- logs_or_empty logs ;;
   Py.for_each (callbacks self) (fun callback =>
     cb_on_batch_end callback batch logs ;;; Py.ret tt))%py.



(** *** Registered callbacks of this file *)



(** *** Call-order instrumentation

    To observe which callbacks a hook reaches, every registered callback
    is wrapped so that it first records its own invocation (position in
    the list, hook, index and [logs] location it was handed) and then
    runs unchanged. *)
















End WithTorch.

End TrainCallbackList.

(** ** [torchlite/pandas/tabular_encoder.py]: [BaseEncoder], [TreeEncoder] *)

Module TabularEncoder.

(** *** Data frames *)

Inductive dtype : Type :=
| Int64 | Float64 | Boolean | Object | Category | Datetime.

(** [pandas.api.types.is_numeric_dtype] *)
Definition is_numeric_dtype (d : dtype) : bool :=
  match d with
  | Int64 | Float64 | Boolean => true
  | Object | Category | Datetime => false
  end.

Inductive cell : Type :=
| NaN
| Num (q : Q)
| Str (s : string).

Definition cell_eqb (a b : cell) : bool :=
  match a, b with
  | Num p, Num q => Qeq_bool p q
  | Str s, Str t => String.eqb s t
  | _, _ => false
  end.

Definition isnull (c : cell) : bool :=
  match c with NaN => true | _ => false end.

Record column : Type := mkColumn {
  label : string;
  col_dtype : dtype;
  cells : list cell
}.

(** A frame: its columns in order (labels may repeat, as in pandas)
    and the length of its index, which a frame has even without
    columns. *)
Record DataFrame : Type := mkFrame {
  (** [len(df)] *)
  nrows : nat;
  series : list column
}.

(** The columns of a frame share its index: each has [len(df)] cells. *)
Definition well_formed (df : DataFrame) : Prop :=
  Forall (fun c => length (cells c) = nrows df) (series df).

(** [df.columns] *)
Definition columns (df : DataFrame) : list string := map label (series df).

Definition mem (x : string) (l : list string) : bool :=
  existsb (String.eqb x) l.

(** [df[labels]]: the columns carrying each label, in the order of
    [labels] *)
Definition select (df : DataFrame) (labels : list string) : DataFrame :=
  {| nrows := nrows df;
     series := flat_map (fun l =>
                 List.filter (fun c => String.eqb (label c) l) (series df)) labels |}.

(** The columns that carry a label. *)
Definition carriers (df : DataFrame) (l : string) : list column :=
  List.filter (fun c => String.eqb (label c) l) (series df).

(** What [df[l]] is: a [Series] when one column carries the label, a
    [DataFrame] of the columns that carry it when several do. *)
Inductive item : Type :=
| Series (c : column)
| Frame (cs : list column).

(** [df[l]] *)
Definition getitem (df : DataFrame) (l : string) : result item :=
  match carriers df l with
  | [] => Err (KeyError l)
  | [c] => Ok (Series c)
  | cs => Ok (Frame cs)
  end.

(** [is_numeric_dtype(df[l])]: a [DataFrame] has no dtype and is not
    numeric. *)
Definition is_numeric (x : result item) : bool :=
  match x with
  | Ok (Series c) => is_numeric_dtype (col_dtype c)
  | _ => false
  end.

(** [df[label c] = c] for a [Series]: every column that carries the
    label is replaced in place; a new label is appended. *)
Definition setitem (df : DataFrame) (c : column) : DataFrame :=
  {| nrows := nrows df;
     series :=
       if mem (label c) (columns df) then
         map (fun c' => if String.eqb (label c') (label c) then c else c')
           (series df)
       else series df ++ [c] |}.

(** *** The fitted state [tfs_list] *)

Record tfs : Type := mkTfs {
  (** [tfs_list["missing"]]: column and the median that fills it; the
      median of a column without any value is NaN, here [None] *)
  missing : option (Dict.t (option Q));
  (** [tfs_list["categ_cols"]]: column and its categories *)
  categ_cols : option (Dict.t (list cell));
  num_cols : option (list string);
  cols : option (list string)
}.

(** [tfs_list[k]] *)
Definition tfs_get {A} (field : option A) (k : string) : result A :=
  match field with
  | Some a => Ok a
  | None => Err (KeyError k)
  end.

(** What a concrete encoder and its scaler provide; [BaseEncoder] leaves
    the two transformation steps to its subclasses.  Each step rewrites
    the frame or raises. *)
Class Encoder : Type := {
  scaler : Type;
  _perform_na_transform : tfs -> DataFrame -> result DataFrame;
  _perform_categ_transform : tfs -> DataFrame -> result DataFrame;
  (** [df[num_cols] = scaler.transform(df[num_cols].astype(np.float32).values)] *)
  scale : scaler -> list string -> DataFrame -> result DataFrame
}.

Section BaseEncoder.

Context {E : Encoder}.

Record BaseEncoder : Type := mkEncoder {
  categorical_vars : list string;
  numeric_vars : list string;
  tfs_list : tfs;
  numeric_scaler : option scaler;
  fix_missing : bool
}.

(** [_get_all_non_numeric(df)]: the loop runs over the labels and tests
    [df[col]] *)
Definition _get_all_non_numeric (df : DataFrame) : list string :=
  List.filter (fun col => negb (is_numeric (getitem df col))) (columns df).

(** [list(set(a) ^ set(b))], in a fixed order *)
Definition sym_diff (a b : list string) : list string :=
  @List.nodup string string_dec
    (List.filter (fun x => negb (mem x b)) a ++ List.filter (fun x => negb (mem x a)) b).

Definition list_eqb (a b : list string) : bool :=
  bool_decide (a = b).

(** [_check_integrity(df)] *)
Definition _check_integrity (self : BaseEncoder) (df : DataFrame) : result bool :=
  (fitted <- tfs_get (cols (tfs_list self)) "cols" ;;
   let diff := sym_diff fitted (columns df) in
   if (0 <? length diff)%nat then
     Err (Exception "Columns in fitted and transformed DataFrame do not match: {}" diff)
   else if list_eqb fitted (columns df) then Ok true
   else Err (Exception
          "Columns in EncoderBlueprint and DataFrame do not have the same order" []))%res.

(** [df.isnull().sum()] for one column *)
Definition null_count (c : column) : nat :=
  length (List.filter isnull (cells c)).

(** [nan_ratio.all()]: a ratio is falsy only when it is an exact zero;
    the ratios of a frame without rows are all NaN, which [all] skips. *)
Definition nan_ratio_all (df : DataFrame) : bool :=
  forallb (fun c => (nrows df =? 0)%nat || (0 <? null_count c)%nat) (series df).

(** [transform(X)] (the progress messages are not modelled, except that
    the first one reads [tfs_list["missing"]]) *)
Definition transform (self : BaseEncoder) (X : DataFrame) : result DataFrame :=
  (let all_feat := categorical_vars self ++ numeric_vars self in
   let df := select X (List.filter (fun feat => mem feat (columns X)) all_feat) in
   df <- (if fix_missing self then
            _ <- tfs_get (missing (tfs_list self)) "missing" ;;
            _perform_na_transform (tfs_list self) df
          else Ok df) ;;
   df <- _perform_categ_transform (tfs_list self) df ;;
   df <- match numeric_scaler self with
         | Some sc =>
             num_cols <- tfs_get (num_cols (tfs_list self)) "num_cols" ;;
             scale sc num_cols df
         | None => Ok df
         end ;;
   let non_num_cols := _get_all_non_numeric df in
   if (0 <? length non_num_cols)%nat then
     Err (Exception "Not all columns are numeric: {}." non_num_cols)
   else if fix_missing self && nan_ratio_all df then
     Err (Exception "NaN has been found!" [])
   else
     _ <- _check_integrity self df ;;
     Ok df)%res.

(** The frame the numeric check of [transform] looks at: the outcome of
    the three encoding steps. *)
Definition encoded (self : BaseEncoder) (X : DataFrame) : result DataFrame :=
  (let all_feat := categorical_vars self ++ numeric_vars self in
   let df := select X (List.filter (fun feat => mem feat (columns X)) all_feat) in
   df <- (if fix_missing self then
            _ <- tfs_get (missing (tfs_list self)) "missing" ;;
            _perform_na_transform (tfs_list self) df
          else Ok df) ;;
   df <- _perform_categ_transform (tfs_list self) df ;;
   match numeric_scaler self with
   | Some sc =>
       num_cols <- tfs_get (num_cols (tfs_list self)) "num_cols" ;;
       scale sc num_cols df
   | None => Ok df
   end)%res.

(** The checks [transform] runs on the encoded frame. *)
Definition checked (self : BaseEncoder) (df : DataFrame) : result DataFrame :=
  (let non_num_cols := _get_all_non_numeric df in
   if (0 <? length non_num_cols)%nat then
     Err (Exception "Not all columns are numeric: {}." non_num_cols)
   else if fix_missing self && nan_ratio_all df then
     Err (Exception "NaN has been found!" [])
   else
     _ <- _check_integrity self df ;;
     Ok df)%res.

End BaseEncoder.

(** *** [TreeEncoder] *)

Fixpoint index_of (v : cell) (vals : list cell) : option nat :=
  match vals with
  | [] => None
  | v' :: rest =>
      if cell_eqb v' v then Some O else option_map S (index_of v rest)
  end.

(** [.astype(CategoricalDtype(categories=vals)).cat.codes + 1] on a cell *)
Definition categ_code (vals : list cell) (v : cell) : cell :=
  match index_of v vals with
  | Some i => Num (inject_Z (Z.of_nat (S i)))
  | None => Num 0
  end.

(** [CategoricalDtype(categories=vals)]: the categories must not hold a
    missing value nor repeat. *)
Fixpoint unique_cells (vals : list cell) : bool :=
  match vals with
  | [] => true
  | v :: rest => negb (existsb (cell_eqb v) rest) && unique_cells rest
  end.

Definition categorical_dtype (vals : list cell) : result unit :=
  if existsb isnull vals then
    Err (ValueError "Categorial categories cannot be null")
  else if unique_cells vals then Ok tt
  else Err (ValueError "Categorical categories must be unique").

(** [s.fillna(median)] on a cell *)
Definition fillna (median : option Q) (v : cell) : cell :=
  if isnull v then match median with Some q => Num q | None => NaN end else v.

(** [s.isnull()] on a cell *)
Definition isnull_flag (v : cell) : cell :=
  if isnull v then Num 1 else Num 0.

(** [TreeEncoder._perform_na_transform(df)].  Under a label that
    several columns carry, [df[col].isnull()] is a [DataFrame], which
    cannot be assigned to the single column [col + '_na']. *)
Fixpoint tree_na_transform (missing : list (string * option Q)) (df : DataFrame)
    : result DataFrame :=
  match missing with
  | [] => Ok df
  | (col, median) :: rest =>
      (x <- getitem df col ;;
       match x with
       | Series c =>
           let df := setitem df
             {| label := col +:+ "_na"; col_dtype := Boolean;
                cells := map isnull_flag (cells c) |} in
           let df := setitem df
             {| label := col; col_dtype := col_dtype c;
                cells := map (fillna median) (cells c) |} in
           tree_na_transform rest df
       | Frame _ => Err (ValueError "Wrong number of items passed")
       end)%res
  end.

(** [TreeEncoder._perform_categ_transform(df)].  Under a label that
    several columns carry, [df[col].astype(...)] is a [DataFrame], which
    has no [cat] accessor. *)
Fixpoint tree_categ_transform (categ_cols : list (string * list cell))
    (df : DataFrame) : result DataFrame :=
  match categ_cols with
  | [] => Ok df
  | (col, vals) :: rest =>
      (x <- getitem df col ;;
       _ <- categorical_dtype vals ;;
       match x with
       | Series c =>
           let df := setitem df
             {| label := col; col_dtype := Int64;
                cells := map (categ_code vals) (cells c) |} in
           tree_categ_transform rest df
       | Frame _ =>
           Err (AttributeError "'DataFrame' object has no attribute 'cat'")
       end)%res
  end.

(** [TreeEncoder] with a scaler type [S]. *)
Definition TreeEncoder (S : Type)
    (scale : S -> list string -> DataFrame -> result DataFrame) : Encoder :=
  {| scaler := S;
     _perform_na_transform := fun t df =>
       (m <- tfs_get (missing t) "missing" ;; tree_na_transform (Dict.items m) df)%res;
     _perform_categ_transform := fun t df =>
       (cc <- tfs_get (categ_cols t) "categ_cols" ;;
        tree_categ_transform (Dict.items cc) df)%res;
     scale := scale |}.

End TabularEncoder.

(** ** Small concrete frameworks, used to run the definitions *)

Module Toy.

Local Open Scope Q_scope.

(** A one-weight linear model with squared error and plain gradient
    descent at rate 1/2; its meter keeps the sum and the number of the
    values it received, and [avg] is their plain mean. *)
Definition classifier : Cores.Framework :=
  {| Cores.params := Q;
     Cores.tensor := Q;
     Cores.gradient := Q;
     Cores.opt_state := unit;
     Cores.model_forward := fun w xs => w * fold_right Qplus 0 xs;
     Cores.crit_item := fun y t =>
       match t with Some t => (y - t) * (y - t) | None => y * y end;
     Cores.crit_grad := fun w xs t =>
       let x := fold_right Qplus 0 xs in
       match t with Some t => 2 * (w * x - t) * x | None => 2 * w * x * x end;
     Cores.grad_zero := 0;
     Cores.grad_add := Qplus;
     Cores.optim_step := fun o w g => (o, w - (1 # 2) * g);
     Cores.meter := Q * nat;
     Cores.meter_new := (0, O);
     Cores.meter_update := fun m v => (fst m + v, S (snd m));
     Cores.meter_avg := fun m => fst m / inject_Z (Z.of_nat (snd m)) |}.

(** One-weight generator and discriminator on scalar images. *)
Definition gan : Srgan.Framework :=
  {| Srgan.params := Q;
     Srgan.tensor := Q;
     Srgan.gradient := Q;
     Srgan.opt_state := unit;
     Srgan.netG_forward := fun g x => g * x;
     Srgan.netD_forward := fun d x => d * x;
     Srgan.mean := fun t => t;
     Srgan.generator_loss := fun d_fake gen target =>
       (1 - d_fake) + (gen - target) * (gen - target);
     Srgan.loss_grad := fun l g d data target =>
       match l with
       | Srgan.DLoss => (d * data, g * data - target)
       | Srgan.GLoss => (2 * (g * data - target) * data - d * data, - (g * data))
       end;
     Srgan.grad_zero := 0;
     Srgan.grad_add := Qplus;
     Srgan.optim_step := fun o w g => (o, w - (1 # 2) * g) |}.

(** Modules identified by class name, with one integer of state. *)
Definition torch : Callbacks.Torch :=
  {| Callbacks.module := string * Z;
     Callbacks.state_dict := Z;
     Callbacks.class_name := fst;
     Callbacks.get_state_dict := snd;
     Callbacks.load_state_dict := fun m sd => Ok (fst m, sd) |}.

Definition net (name : string) (weights : Z) : @Callbacks.module torch :=
  (name, weights).

(** An empty disk and a silent console. *)
Definition empty_world : @Callbacks.world torch :=
  {| Callbacks.fs := ∅; Callbacks.stdout := []; Callbacks.saved := [] |}.

(** A disk holding the empty output directory [out]. *)
Definition out_world : @Callbacks.world torch :=
  {| Callbacks.fs := <["out" := @Callbacks.Dir torch]> ∅;
     Callbacks.stdout := []; Callbacks.saved := [] |}.

(** A checkpoint directory holding the generator's file. *)
Definition generator_on_disk : @Callbacks.world torch :=
  {| Callbacks.fs :=
       <["checkpoint" := @Callbacks.Dir torch]>
         (<["checkpoint/Generator.pth" := @Callbacks.File torch 7%Z]> ∅);
     Callbacks.stdout := []; Callbacks.saved := [] |}.

(** A tree encoder without scaler. *)
Definition tree : TabularEncoder.Encoder :=
  TabularEncoder.TreeEncoder (S := Empty_set) (fun s _ _ => match s with end).

(** An encoder fitted on the numeric columns [a] and [b]. *)
Definition fitted_ab : @TabularEncoder.BaseEncoder tree :=
  {| TabularEncoder.categorical_vars := [];
     TabularEncoder.numeric_vars := ["a"; "b"];
     TabularEncoder.tfs_list :=
       {| TabularEncoder.missing := None;
          TabularEncoder.categ_cols := Some [];
          TabularEncoder.num_cols := Some ["a"; "b"];
          TabularEncoder.cols := Some ["a"; "b"] |};
     TabularEncoder.numeric_scaler := None;
     TabularEncoder.fix_missing := false |}.

Definition float_column (l : string) (v : Q) : TabularEncoder.column :=
  {| TabularEncoder.label := l; TabularEncoder.col_dtype := TabularEncoder.Float64;
     TabularEncoder.cells := [TabularEncoder.Num v] |}.

Definition object_column (l : string) (v : string) : TabularEncoder.column :=
  {| TabularEncoder.label := l; TabularEncoder.col_dtype := TabularEncoder.Object;
     TabularEncoder.cells := [TabularEncoder.Str v] |}.

End Toy.

(** ** More of [train_callbacks.py] *)

Module CallbacksMore.

Import Callbacks.

Section WithTorch.

Context {T : Torch}.

(** The loop [for k, v in logs.items()] of
    [ReduceLROnPlateau.on_epoch_end], for a callback whose [loss_step]
    is [mode]. *)
Definition plateau_loop (mode : string) (epoch : Z)
    (items : list (string * pyval)) : M ReduceLROnPlateau unit :=
  Py.for_each items (fun kv =>
    let (k, v) := kv in
    if String.eqb mode "valid" then
      if String.eqb k "val_loss" then
        if negb (truthy v) then Py.raise (ValueError no_val_loss)
        else lr_sch_step v epoch
      else Py.ret tt
    else
      if String.eqb k "train_loss" then lr_sch_step v epoch
      else Py.ret tt).

(** The key a callback monitors. *)
Definition monitored (self : ReduceLROnPlateau) : string :=
  if String.eqb (loss_step self) "valid" then "val_loss" else "train_loss".

(** The callback after one more [lr_sch.step(v, epoch)]. *)
Definition stepped (self : ReduceLROnPlateau) (v : pyval) (epoch : Z)
    : ReduceLROnPlateau :=
  {| loss_step := loss_step self; lr_sch := lr_sch self ++ [(v, epoch)] |}.


(** The line a successful [restore_models] prints. *)
Definition restored_message (from_dir : string) : string :=
  (Os.nl +:+ "--- Model(s) restored from " +:+ from_dir +:+ " ---")
  +:+ (Os.nl +:+ Os.nl).

End WithTorch.

End CallbacksMore.

(** ** [torchlight/nn/train_callbacks.py]: [TQDM]

    A progress bar is modelled by its constructor arguments and the
    method calls it has received; what the bar draws is the library's
    business.  [on_train_begin] takes the lengths of the data loaders
    and is not modelled: the three lengths are fields set beforehand. *)

Module Tqdm.

Import Callbacks.

Inductive bar_call : Type :=
| SetDescription (desc : string)
| SetPostfix (postfix : list (string * string))
| Update (n : Z)
| Close.

(** [tqdm(total=..., desc=...)] and the calls made on it since. *)
Record bar : Type := mkBar {
  total : option Z;
  desc : string;
  received : list bar_call
}.

Record TQDM : Type := mkTQDM {
  train_pbar : option bar;
  val_pbar : option bar;
  total_epochs : Z;
  train_loader_len : Z;
  val_loader_len : option Z;
  (** what [print] wrote, one entry per call *)
  console : list string
}.

(** [__init__] *)
Definition init : TQDM :=
  {| train_pbar := None; val_pbar := None; total_epochs := 0;
     train_loader_len := 0; val_loader_len := Some 0%Z; console := [] |}.

Definition call_bar (k : bar_call) (b : bar) : bar :=
  {| total := total b; desc := desc b; received := received b ++ [k] |}.

Definition no_bar : exn :=
  AttributeError "'NoneType' object has no attribute".

(** [self.train_pbar.<method>(...)] *)
Definition on_train_pbar (k : bar_call) : M TQDM unit :=
  fun self =>
    match train_pbar self with
    | None => Raised no_bar self
    | Some b =>
        Returned tt
          {| train_pbar := Some (call_bar k b); val_pbar := val_pbar self;
             total_epochs := total_epochs self;
             train_loader_len := train_loader_len self;
             val_loader_len := val_loader_len self; console := console self |}
    end.

(** [self.val_pbar.<method>(...)] *)
Definition on_val_pbar (k : bar_call) : M TQDM unit :=
  fun self =>
    match val_pbar self with
    | None => Raised no_bar self
    | Some b =>
        Returned tt
          {| train_pbar := train_pbar self; val_pbar := Some (call_bar k b);
             total_epochs := total_epochs self;
             train_loader_len := train_loader_len self;
             val_loader_len := val_loader_len self; console := console self |}
    end.

Definition set_train_pbar (b : bar) : M TQDM unit :=
  Py.modify (fun self =>
    {| train_pbar := Some b; val_pbar := val_pbar self;
       total_epochs := total_epochs self;
       train_loader_len := train_loader_len self;
       val_loader_len := val_loader_len self; console := console self |}).

Definition set_val_pbar (b : bar) : M TQDM unit :=
  Py.modify (fun self =>
    {| train_pbar := train_pbar self; val_pbar := Some b;
       total_epochs := total_epochs self;
       train_loader_len := train_loader_len self;
       val_loader_len := val_loader_len self; console := console self |}).

(** [print(text, end=e)] *)
Definition print (text e : string) : M TQDM unit :=
  Py.modify (fun self =>
    {| train_pbar := train_pbar self; val_pbar := val_pbar self;
       total_epochs := total_epochs self;
       train_loader_len := train_loader_len self;
       val_loader_len := val_loader_len self;
       console := console self ++ [text +:+ e] |}).

Section WithTorch.

Context {T : Torch}.

(** Python's float format codes on an object: the text, or the error
    the object's [__format__] raises. *)
Class Formatter : Type := {
  (** ['{:03f}'.format(v)] *)
  format_03f : pyval -> result string;
  (** ['{0:1.5f}'.format(v)] *)
  format_15f : pyval -> result string
}.

Context {Fmt : Formatter}.

(** [d.items()] on a value *)
Definition items_of (v : pyval) : result (list (string * pyval)) :=
  match v with
  | PDict d => Ok (Dict.items d)
  | _ => Err (AttributeError "object has no attribute 'items'")
  end.

(** [["{}={:03f}".format(k, v) for k, v in d.items()]] *)
Fixpoint metric_fields (d : list (string * pyval)) : result (list string) :=
  match d with
  | [] => Ok []
  | (k, v) :: rest =>
      (x <- format_03f v ;;
       fields <- metric_fields rest ;;
       Ok ((k +:+ "=" +:+ x) :: fields))%res
  end.

(** [print( *fields, end=e)] *)
Definition print_fields (v : pyval) (e : string) : M TQDM unit :=
  (d <- Py.lift (items_of v) ;;
   fields <- Py.lift (metric_fields d) ;;
   print (String.concat " " fields) e)%py.

(** [for name, value in batch_logs.items(): postfix[name] = ...] *)
Fixpoint fill_postfix (d : list (string * pyval)) (postfix : Dict.t string)
    : result (Dict.t string) :=
  match d with
  | [] => Ok postfix
  | (name, value) :: rest =>
      (x <- format_15f value ;;
       fill_postfix rest (Dict.set postfix name x))%res
  end.

(** [on_epoch_begin(epoch, logs)] *)
Definition on_epoch_begin (epoch : Z) (logs : Dict.t pyval) : M TQDM unit :=
  (step <- Py.lift (Dict.lookup logs "step") ;;
   self <- Py.get ;;
   if eq_str step "training" then
     set_train_pbar
       {| total := Some (train_loader_len self);
          desc := "Epochs " +:+ Os.str_of_int epoch +:+ "/"
                  +:+ Os.str_of_int (total_epochs self);
          received := [] |}
   else if eq_str step "validation" then
     set_val_pbar
       {| total := val_loader_len self; desc := "Validating"; received := [] |}
   else Py.ret tt)%py.

(** [on_epoch_end(epoch, logs)] *)
Definition on_epoch_end (epoch : Z) (logs : Dict.t pyval) : M TQDM unit :=
  (step <- Py.lift (Dict.lookup logs "step") ;;
   if eq_str step "training" then
     on_train_pbar Close ;;;
     train_logs <- Py.lift (Dict.lookup logs "epoch_logs") ;;
     train_metrics <- Py.lift (Dict.lookup logs "metrics_logs") ;;
     print_fields train_logs " " ;;;
     print "| Train metrics:" " " ;;;
     print_fields train_metrics Os.nl
   else if eq_str step "validation" then
     on_val_pbar Close ;;;
     (match Dict.get logs "epoch_logs" with
      | Some val_logs =>
          if truthy val_logs then print_fields val_logs " " else Py.ret tt
      | None => Py.ret tt
      end) ;;;
     match Dict.get logs "metrics_logs" with
     | Some val_metrics =>
         if truthy val_metrics then
           print "| Val metrics:" " " ;;;
           print_fields val_metrics Os.nl
         else Py.ret tt
     | None => Py.ret tt
     end
   else Py.ret tt)%py.

(** The [postfix] of [on_batch_end]: empty, then filled from
    [batch_logs] when that is there and true. *)
Definition batch_postfix (batch_logs : option pyval) : result (Dict.t string) :=
  match batch_logs with
  | Some v =>
      if truthy v then (d <- items_of v ;; fill_postfix d Dict.empty)%res
      else Ok Dict.empty
  | None => Ok Dict.empty
  end.

(** [on_batch_end(batch, logs)] *)
Definition on_batch_end (batch : Z) (logs : Dict.t pyval) : M TQDM unit :=
  (step <- Py.lift (Dict.lookup logs "step") ;;
   let batch_logs := Dict.get logs "batch_logs" in
   (if eq_str step "validation" then on_train_pbar (SetDescription "validation")
    else Py.ret tt) ;;;
   postfix <- Py.lift (batch_postfix batch_logs) ;;
   on_train_pbar (SetPostfix postfix) ;;;
   on_train_pbar (Update 1))%py.

End WithTorch.

End Tqdm.

(** ** More small instances *)

Module ToyMore.

(** A formatter that renders every number as [#] and rejects the rest. *)
Definition fmt : @Tqdm.Formatter Toy.torch :=
  let render (v : @Callbacks.pyval Toy.torch) : result string :=
    match v with
    | Callbacks.PBool _ | Callbacks.PInt _ | Callbacks.PFloat _ => Ok "#"
    | _ => Err (ValueError "Unknown format code 'f'")
    end in
  {| Tqdm.format_03f := render; Tqdm.format_15f := render |}.

(** A progress callback in the middle of a training epoch. *)
Definition running : Tqdm.TQDM :=
  {| Tqdm.train_pbar := Some (Tqdm.mkBar (Some 8%Z) "Epochs 1/2" []);
     Tqdm.val_pbar := Some (Tqdm.mkBar (Some 2%Z) "Validating" []);
     Tqdm.total_epochs := 2; Tqdm.train_loader_len := 8;
     Tqdm.val_loader_len := Some 2%Z; Tqdm.console := [] |}.

End ToyMore.

(** ** More of the tabular encoder *)

Module TabularEncoderMore.

Import TabularEncoder.

(** *** [BaseEncoder.fit]

    The two fitting steps are left to the subclasses, like the two
    transformation steps; each returns the fitted state it leaves in
    [tfs_list] and the frame as it leaves it.  Fitting the scaler
    returns the fitted scaler. *)
Class EncoderFit {E : Encoder} : Type := {
  _perform_na_fit :
    BaseEncoder -> DataFrame -> option string -> result (tfs * DataFrame);
  _perform_categ_fit :
    BaseEncoder -> DataFrame -> option string -> result (tfs * DataFrame);
  (** [scaler.fit(df[num_cols].astype(np.float32).values)] *)
  scaler_fit : scaler -> list string -> DataFrame -> result scaler
}.

Section Fit.

Context {E : Encoder} {EF : EncoderFit}.

Definition with_tfs (self : BaseEncoder) (t : tfs) : BaseEncoder :=
  {| categorical_vars := categorical_vars self;
     numeric_vars := numeric_vars self;
     tfs_list := t;
     numeric_scaler := numeric_scaler self;
     fix_missing := fix_missing self |}.

Definition set_num_cols (t : tfs) (ls : list string) : tfs :=
  {| missing := missing t; categ_cols := categ_cols t;
     num_cols := Some ls; cols := cols t |}.

Definition set_cols (t : tfs) (ls : list string) : tfs :=
  {| missing := missing t; categ_cols := categ_cols t;
     num_cols := num_cols t; cols := Some ls |}.

(** [fit(X, y=None)]: the fitted encoder, and the target column kept
    in [tfs_list["y"]] when [y] is given. *)
Definition fit (self : BaseEncoder) (X : DataFrame) (y : option string)
    : result (BaseEncoder * option item) :=
  (let all_feat := categorical_vars self ++ numeric_vars self in
   let df := select X (List.filter (fun feat => mem feat (columns X)) all_feat) in
   target <- match y with
             | Some name => c <- getitem X name ;; Ok (Some c)
             | None => Ok None
             end ;;
   fitted <- (if fix_missing self then
                p <- _perform_na_fit self df y ;;
                df <- _perform_na_transform (fst p) (snd p) ;;
                Ok (fst p, df)
              else Ok (tfs_list self, df)) ;;
   p <- _perform_categ_fit (with_tfs self (fst fitted)) (snd fitted) y ;;
   df <- _perform_categ_transform (fst p) (snd p) ;;
   let num_cols :=
     List.filter (fun n => is_numeric (getitem df n) && mem n (numeric_vars self))
       (columns df) in
   let t := set_num_cols (fst p) num_cols in
   sc <- match numeric_scaler self with
         | Some sc => sc' <- scaler_fit sc num_cols df ;; Ok (Some sc')
         | None => Ok None
         end ;;
   Ok ({| categorical_vars := categorical_vars self;
          numeric_vars := numeric_vars self;
          tfs_list := set_cols t (columns df);
          numeric_scaler := sc;
          fix_missing := fix_missing self |}, target))%res.

End Fit.

(** *** [TreeEncoder]: fitting the categories *)

(** [pd.factorize(values)[1]]: the distinct values in order of first
    appearance, missing values left out. *)
Fixpoint uniques_into (seen : list cell) (values : list cell) : list cell :=
  match values with
  | [] => seen
  | v :: rest =>
      if isnull v || existsb (fun x => cell_eqb x v) seen
      then uniques_into seen rest
      else uniques_into (seen ++ [v]) rest
  end.

Definition uniques (values : list cell) : list cell := uniques_into [] values.

(** The loop of [TreeEncoder._perform_categ_fit].  [pd.factorize]
    takes one-dimensional values: under a label that several columns
    carry, [df[col]] is a [DataFrame] and it raises. *)
Fixpoint tree_categ_fit (categorical_vars : list string) (df : DataFrame)
    (categ_cols : Dict.t (list cell)) : result (Dict.t (list cell)) :=
  match categorical_vars with
  | [] => Ok categ_cols
  | col :: rest =>
      if mem col (columns df) then
        (x <- getitem df col ;;
         match x with
         | Series c =>
             tree_categ_fit rest df (Dict.set categ_cols col (uniques (cells c)))
         | Frame _ =>
             Err (ValueError "Buffer has wrong number of dimensions")
         end)%res
      else tree_categ_fit rest df categ_cols
  end.

(** Fitted categories for a frame: recorded once per column, for
    columns of the frame, and accepted as categories. *)
Definition fitted_for (df : DataFrame) (cc : Dict.t (list cell)) : Prop :=
  List.NoDup (map fst cc) /\
  forall k vals, In (k, vals) cc ->
    categorical_dtype vals = Ok tt /\ In k (columns df).

(** [TreeEncoder]'s fitting steps; the step that records the medians of
    the columns with missing values, and the scaler, are taken as
    given. *)
Definition TreeEncoderFit (S : Type)
    (scale : S -> list string -> DataFrame -> result DataFrame)
    (na_fit : @BaseEncoder (TreeEncoder scale) -> DataFrame -> option string
              -> result (tfs * DataFrame))
    (scaler_fit : S -> list string -> DataFrame -> result S)
    : @EncoderFit (TreeEncoder scale) :=
  {| _perform_na_fit := na_fit;
     _perform_categ_fit := fun self df y =>
       (cc <- tree_categ_fit (categorical_vars self) df Dict.empty ;;
        Ok ({| missing := missing (tfs_list self); categ_cols := Some cc;
               num_cols := num_cols (tfs_list self);
               cols := cols (tfs_list self) |}, df))%res;
     scaler_fit :=
       (scaler_fit : @scaler (TreeEncoder scale) -> list string -> DataFrame
                     -> result (@scaler (TreeEncoder scale))) |}.

End TabularEncoderMore.

(** * Properties *)

(** ** The call monad and dictionaries *)

Lemma for_each_app {S A} (xs ys : list A) (body : A -> M S unit) (s : S) :
  Py.for_each (xs ++ ys) body s =
  Py.bind (Py.for_each xs body) (fun _ => Py.for_each ys body) s.
Proof.
  revert s. induction xs as [|x xs IH]; intros s; simpl.
  - reflexivity.
  - unfold Py.bind. destruct (body x s) as [[] s'|e s'].
    + rewrite IH. reflexivity.
    + reflexivity.
Qed.

Lemma bind_returned {S A B} (m : M S A) (k : A -> M S B) s a s' :
  m s = Returned a s' -> Py.bind m k s = k a s'.
Proof. intros H. unfold Py.bind. now rewrite H. Qed.


Lemma dict_get_set_same {V} (d : Dict.t V) k v :
  Dict.get (Dict.set d k v) k = Some v.
Proof.
  induction d as [|[k' v'] d IH]; simpl.
  - now rewrite String.eqb_refl.
  - destruct (String.eqb k' k) eqn:E; simpl; rewrite E; auto.
Qed.

Lemma dict_get_set_other {V} (d : Dict.t V) k k' v :
  k <> k' -> Dict.get (Dict.set d k v) k' = Dict.get d k'.
Proof.
  intros Hne. induction d as [|[k0 v0] d IH]; simpl.
  - destruct (String.eqb k k') eqn:E; auto.
    apply String.eqb_eq in E. contradiction.
  - destruct (String.eqb k0 k) eqn:E; simpl.
    + apply String.eqb_eq in E. subst k0.
      destruct (String.eqb k k') eqn:E'; auto.
      apply String.eqb_eq in E'. contradiction.
    + destruct (String.eqb k0 k'); auto.
Qed.

(** ** [AverageMeter] *)

Section MeterFacts.

Import Meter.
Local Open Scope Q_scope.



Lemma updates_snoc m vs v : updates m (vs ++ [v]) = update (updates m vs) v.
Proof. unfold updates. now rewrite fold_left_app. Qed.




End MeterFacts.

(** ** [ClassifierCore] *)

Section CoreFacts.

Import Meter Cores.
Context {F : Cores.Framework}.

Lemma eqb_neq_false (s t : string) : s <> t -> String.eqb s t = false.
Proof. intros H. now apply String.eqb_neq. Qed.

Lemma step_optim_meter (c : ClassifierCore) : avg_meter (step_optim c) = avg_meter c.
Proof. unfold step_optim. now destruct (optim_step _ _ _). Qed.

Lemma step_optim_logs (c : ClassifierCore) : logs (step_optim c) = logs c.
Proof. unfold step_optim. now destruct (optim_step _ _ _). Qed.

Lemma step_optim_calls (c : ClassifierCore) : calls (step_optim c) = calls c ++ [Step].
Proof. unfold step_optim. now destruct (optim_step _ _ _). Qed.

Lemma step_optim_model (c : ClassifierCore) :
  model (step_optim c) = snd (optim_step (optim c) (model c) (grad c)).
Proof. unfold step_optim. now destruct (optim_step _ _ _). Qed.

(** What a batch that is not a prediction does, step by step. *)
Lemma on_forward_batch_not_prediction (c : ClassifierCore) step inputs targets :
  step <> "prediction" ->
  let logits := model_forward (model c) inputs in
  let loss := crit_item logits targets in
  let m := meter_update (avg_meter c) loss in
  let c1 := logs_update [("batch_logs", [("loss", loss)])] (set_meter m c) in
  on_forward_batch step inputs targets c =
  Returned logits
    (if String.eqb step "training"
     then logs_update [("epoch_logs", [("train loss", meter_avg m)])]
            (step_optim (backward (crit_grad (model c) inputs targets)
                           (zero_grad c1)))
     else logs_update [("epoch_logs", [("valid loss", meter_avg m)])] c1).
Proof.
  intros Hstep. cbv zeta.
  unfold on_forward_batch, Py.bind, Py.get, Py.modify, Py.ret, read_avg.
  rewrite (eqb_neq_false Hstep). cbn [negb].
  destruct (String.eqb step "training").
  - rewrite step_optim_meter. reflexivity.
  - reflexivity.
Qed.


(** A batch whose step is not ["training"] leaves the parameters, the
    optimizer and the gradient buffers alone and makes no optimizer or
    autograd call. *)
Lemma on_forward_batch_frame (c : ClassifierCore) step inputs targets :
  step <> "training" ->
  let c' := Py.final (on_forward_batch step inputs targets c) in
  model c' = model c /\ optim c' = optim c /\ grad c' = grad c /\
  calls c' = calls c.
Proof.
  intros Hstep. cbv zeta.
  destruct (String.eqb step "prediction") eqn:Hp.
  - unfold on_forward_batch, Py.bind, Py.get, Py.ret. rewrite Hp. cbn. auto.
  - apply String.eqb_neq in Hp.
    rewrite (on_forward_batch_not_prediction c inputs targets Hp). cbv zeta.
    rewrite (eqb_neq_false Hstep). cbn; auto.
Qed.

(** A ["training"] batch steps the optimizer exactly once, after one
    [zero_grad] and one backward pass. *)
Lemma on_forward_batch_training (c : ClassifierCore) inputs targets :
  let c' := Py.final (on_forward_batch "training" inputs targets c) in
  calls c' = calls c ++ [ZeroGrad; Backward; Step] /\
  model c' = snd (optim_step (optim c) (model c)
                    (grad_add grad_zero (crit_grad (model c) inputs targets))).
Proof.
  cbv zeta.
  rewrite (on_forward_batch_not_prediction c inputs targets) by discriminate.
  cbv zeta.
  change (String.eqb "training" "training") with true. cbv iota.
  cbn [Py.final calls model logs_update].
  rewrite step_optim_calls, step_optim_model. cbn.
  rewrite <- !app_assoc. split; reflexivity.
Qed.

End CoreFacts.

(** C10: a ["prediction"] batch, with or without targets, returns the
    model's forward output and leaves the whole core as it was: logs,
    average meter, parameters, optimizer, and no optimizer or autograd
    call is made. *)
Theorem prediction_batch_only_forwards
    (F : Cores.Framework) (c : Cores.ClassifierCore)
    (inputs : list Cores.tensor) (targets : option Cores.tensor) :
  Cores.on_forward_batch "prediction" inputs targets c =
    Returned (Cores.model_forward (Cores.model c) inputs) c
  /\ Cores.on_forward_batch "prediction" inputs None c =
    Returned (Cores.model_forward (Cores.model c) inputs) c.
Proof.
  split; reflexivity.
Qed.




(** ** [SRGAN.forward] *)

Section SrganFacts.

Import Srgan.
Context {F : Srgan.Framework}.
Local Open Scope Q_scope.

(** A backward pass that does not retain the graph leaves nothing for a
    second pass. *)
Lemma backward_without_retain_frees (l l' : loss) (r : bool) (s : SRGAN) :
  graph_alive s = true ->
  exists s1, backward l false s = Returned tt s1 /\
             Py.returns (backward l' r s1) = false.
Proof.
  intros Halive. unfold backward. rewrite Halive.
  eexists. split; [reflexivity|]. cbn. reflexivity.
Qed.

(** With [retain_graph=True] the graph survives the pass. *)
Lemma backward_retain_keeps (l : loss) (s : SRGAN) :
  graph_alive s = true ->
  exists s1, backward l true s = Returned tt s1 /\ graph_alive s1 = true.
Proof.
  intros Halive. unfold backward. rewrite Halive.
  eexists. split; reflexivity.
Qed.

Lemma step_calls n (s : SRGAN) : calls (step n s) = calls s ++ [Step n].
Proof.
  unfold step. destruct n; destruct (optim_step _ _ _); reflexivity.
Qed.

Lemma step_graph n (s : SRGAN) : graph_alive (step n s) = graph_alive s.
Proof.
  unfold step. destruct n; destruct (optim_step _ _ _); reflexivity.
Qed.

(** One [_optimize] on a live graph: three calls, in this order. *)
Lemma optimize_calls n (l : loss) r (s : SRGAN) :
  graph_alive s = true ->
  exists s',
    _optimize n l r s = Returned tt s' /\
    calls s' = calls s ++ [ZeroGrad n; Backward (name l) (item l) r; Step n] /\
    graph_alive s' = r.
Proof.
  intros Halive.
  unfold _optimize, Py.bind, Py.modify, backward.
  cbn [zero_grad log_call graph_alive]. rewrite Halive.
  eexists. split; [reflexivity|].
  rewrite step_calls, step_graph. cbn. rewrite <- !app_assoc. split; reflexivity.
Qed.

(** The complete call sequence of one batch. *)
Lemma forward_calls (s : SRGAN) (data target : tensor) :
  let gen_img := netG_forward (netG s) data in
  let d_real_out := mean (netD_forward (netD s) target) in
  let d_fake_out := mean (netD_forward (netD s) gen_img) in
  exists s',
    forward data target s = Returned (gen_img, d_real_out, d_fake_out) s' /\
    calls s' = calls s ++
      [ZeroGrad NetD; Backward DLoss (1 - d_real_out + d_fake_out) true; Step NetD;
       ZeroGrad NetG;
       Backward GLoss (generator_loss d_fake_out gen_img target) false; Step NetG].
Proof.
  cbv zeta. unfold forward.
  unfold Py.bind at 1. unfold Py.modify at 1.
  unfold Py.bind at 1. unfold Py.get at 1.
  cbn [fresh_graph netG netD].
  unfold Py.bind at 1.
  match goal with
  | |- context [_optimize NetD ?l true ?s0] =>
      destruct (optimize_calls NetD l true s0 eq_refl) as [s1 [E1 [C1 G1]]]
  end.
  rewrite E1. unfold Py.bind at 1.
  match goal with
  | |- context [_optimize NetG ?l false s1] =>
      destruct (optimize_calls NetG l false s1 G1) as [s2 [E2 [C2 G2]]]
  end.
  rewrite E2. unfold Py.ret.
  exists s2. split; [reflexivity|].
  rewrite C2, C1. cbn. rewrite <- !app_assoc. reflexivity.
Qed.

End SrganFacts.


(** C4: the discriminator loss that is back-propagated, before the
    discriminator optimizer steps, is 1 minus the mean real score plus
    the mean fake score, both scores taken with the parameters the batch
    started with. *)
Theorem discriminator_loss_is_one_minus_real_plus_fake
    (F : Srgan.Framework) (s : Srgan.SRGAN) (data target : Srgan.tensor) :
  let real_score := Srgan.mean (Srgan.netD_forward (Srgan.netD s) target) in
  let fake_score :=
    Srgan.mean (Srgan.netD_forward (Srgan.netD s)
                  (Srgan.netG_forward (Srgan.netG s) data)) in
  exists post s',
    Py.final (Srgan.forward data target s) = s' /\
    Srgan.calls s' = Srgan.calls s ++
      [Srgan.ZeroGrad Srgan.NetD;
       Srgan.Backward Srgan.DLoss (1 - real_score + fake_score)%Q true;
       Srgan.Step Srgan.NetD] ++ post.
Proof.
  cbv zeta. destruct (forward_calls s data target) as [s' [E C]].
  eexists. exists s'. rewrite E. split; [reflexivity|]. exact C.
Qed.

(** C5 (the adversarial module): [SRGAN.forward] takes no step and
    optimizes on every pass; here one batch on a one-weight generator
    and discriminator, as the learner would run it during validation:
    both optimizers step and both parameter sets change. *)
Theorem srgan_forward_optimizes_on_every_pass :
  let s0 := @Srgan.mkSRGAN Toy.gan tt tt 1%Q 1%Q 0%Q 0%Q false [] in
  exists out s',
    Srgan.forward (F := Toy.gan) 1%Q 2%Q s0 = Returned out s' /\
    In (Srgan.Step Srgan.NetD) (Srgan.calls s') /\
    In (Srgan.Step Srgan.NetG) (Srgan.calls s') /\
    ~ (Srgan.netD s' == Srgan.netD s0)%Q /\
    ~ (Srgan.netG s' == Srgan.netG s0)%Q.
Proof.
  cbv zeta. do 2 eexists. split; [vm_compute; reflexivity|].
  cbn. repeat split; auto 10; intros H; vm_compute in H; discriminate.
Qed.

(** ** [ReduceLROnPlateau] *)

Section ReduceLRFacts.

Import Callbacks.
Context {T : Torch}.

(** In ["valid"] mode, entries other than [val_loss] are passed over. *)
Lemma valid_loop_without_key (self0 : ReduceLROnPlateau) epoch
    (items : list (string * pyval)) (self : ReduceLROnPlateau) :
  loss_step self0 = "valid" ->
  Dict.get items "val_loss" = None ->
  Py.for_each items (fun kv =>
    let (k, v) := kv in
    if String.eqb (loss_step self0) "valid" then
      if String.eqb k "val_loss" then
        if negb (truthy v) then Py.raise (ValueError no_val_loss)
        else lr_sch_step v epoch
      else Py.ret tt
    else
      if String.eqb k "train_loss" then lr_sch_step v epoch
      else Py.ret tt) self = Returned tt self.
Proof.
  intros Hmode. rewrite Hmode. cbn [String.eqb Ascii.eqb Bool.eqb].
  induction items as [|[k v] items IH]; intros Hget.
  - reflexivity.
  - cbn in Hget. cbn [Py.for_each]. unfold Py.bind.
    destruct (String.eqb k "val_loss"); [discriminate|].
    cbn. apply IH, Hget.
Qed.

(** Without a [val_loss] key the callback in ["valid"] mode returns
    normally, whatever else the logs hold, and the scheduler is never
    stepped. *)
Lemma valid_mode_without_val_loss_returns (self : ReduceLROnPlateau) epoch
    (logs : Dict.t pyval) step :
  loss_step self = "valid" ->
  Dict.get logs "step" = Some step ->
  Dict.get logs "val_loss" = None ->
  ReduceLROnPlateau_on_epoch_end epoch logs self = Returned tt self.
Proof.
  intros Hmode Hstep Hval.
  unfold ReduceLROnPlateau_on_epoch_end, Py.bind, Py.lift, Dict.lookup.
  rewrite Hstep. destruct (eq_str step "training"); [|reflexivity].
  unfold Py.get. apply valid_loop_without_key; assumption.
Qed.

End ReduceLRFacts.

(** C2 (what the code does): a callback built with [loss_step="valid"]
    receives, at the end of a training epoch, logs that hold no
    [val_loss] key; it returns normally and never steps the scheduler. *)
Theorem reduce_lr_on_plateau_skips_without_val_loss :
  let self := @Callbacks.mkRLROP Toy.torch "valid" [] in
  let logs : Dict.t (@Callbacks.pyval Toy.torch) :=
    [("step", Callbacks.PStr "training");
     ("epoch_logs", Callbacks.PDict [("train loss", Callbacks.PFloat (1 # 2))])] in
  Callbacks.ReduceLROnPlateau_on_epoch_end 1 logs self = Returned tt self
  /\ Callbacks.lr_sch self = [].
Proof.
  split; reflexivity.
Qed.

(** ** [ModelSaverCallback]: restore *)

Section RestoreFacts.

Import Callbacks.
Context {T : Torch}.

Lemma torch_load_world p (w w' : world) sd :
  torch_load p w = Returned sd w' -> w' = w.
Proof.
  unfold torch_load. destruct (fs w !! p) as [[c|]|]; try congruence.
  destruct (parent w p) as [[c|]|]; congruence.
Qed.

(** The loop of [restore_models] leaves the world alone and counts the
    models whose file is on disk. *)
Lemma restore_models_loop_counts from_dir b models : forall i w j ms w',
  restore_models_loop from_dir b models i w = Returned (j, ms) w' ->
  w' = w /\ j = (i + length (found w from_dir models))%nat /\
  length ms = length models.
Proof.
  induction models as [|m models IH]; intros i w j ms w' H.
  - cbn in H. unfold Py.ret in H. inversion H; subst. cbn. auto with arith.
  - cbn [restore_models_loop] in H. unfold Py.bind, Py.get, Py.lift, Py.ret in H.
    unfold found. cbn [List.filter]. fold (file_of from_dir m) in H.
    destruct (isfile w (file_of from_dir m)) eqn:Hf.
    + destruct (torch_load (file_of from_dir m) w) as [sd w1|e w1] eqn:Hl;
        [|discriminate].
      apply torch_load_world in Hl. subst w1.
      destruct (load_state_dict m sd) as [m'|e]; [|discriminate].
      destruct (restore_models_loop from_dir b models (S i) w)
        as [[j1 ms1] w1|e w1] eqn:Hr; [|discriminate].
      apply IH in Hr. destruct Hr as [-> [-> Hlen]].
      inversion H; subst. cbn [length].
      fold (found w' from_dir models). repeat split; auto with arith; lia.
    + destruct (restore_models_loop from_dir b models i w)
        as [[j1 ms1] w1|e w1] eqn:Hr; [|discriminate].
      apply IH in Hr. destruct Hr as [-> [-> Hlen]].
      inversion H; subst. cbn [length].
      fold (found w' from_dir models). repeat split; auto with arith.
Qed.

Lemma found_length_le (w : world) from_dir models :
  (length (found w from_dir models) <= length models)%nat.
Proof. unfold found. apply List.filter_length_le. Qed.



(** [torchlight]: with a single model whose file is missing,
    [restore_model] returns and reports success. *)
Lemma restore_model_single_missing (model : module) from_dir (w : world) :
  isfile w (file_of from_dir model) = false ->
  exists w', restore_model [model] from_dir w = Returned tt w' /\
             fs w' = fs w /\ length (stdout w') = S (length (stdout w)).
Proof.
  intros Hf. unfold restore_model, Py.bind. cbn [restore_model_loop].
  unfold Py.bind, Py.get. fold (file_of from_dir model). rewrite Hf.
  cbn. eexists. split; [reflexivity|]. cbn. rewrite length_app. cbn. split; [reflexivity|lia].
Qed.

End RestoreFacts.

(** [torchlight]: whoever returns from [restore_model] had exactly one
    model without its file. *)
Section RestoreModelFacts.

Import Callbacks.
Context {T : Torch}.

Lemma restore_model_loop_counts from_dir models : forall i w j ms w',
  restore_model_loop from_dir models i w = Returned (j, ms) w' ->
  w' = w /\ j = (i + length (found w from_dir models))%nat.
Proof.
  induction models as [|m models IH]; intros i w j ms w' H.
  - cbn in H. unfold Py.ret in H. inversion H; subst. cbn. auto with arith.
  - cbn [restore_model_loop] in H. unfold Py.bind, Py.get, Py.lift, Py.ret in H.
    unfold found. cbn [List.filter]. fold (file_of from_dir m) in H.
    destruct (isfile w (file_of from_dir m)) eqn:Hf.
    + destruct (torch_load from_dir w) as [sd w1|e w1] eqn:Hl; [|discriminate].
      apply torch_load_world in Hl. subst w1.
      destruct (load_state_dict m sd) as [m'|e]; [|discriminate].
      destruct (restore_model_loop from_dir models (S i) w)
        as [[j1 ms1] w1|e w1] eqn:Hr; [|discriminate].
      apply IH in Hr. destruct Hr as [-> ->].
      inversion H; subst. cbn [length].
      fold (found w' from_dir models). split; auto; lia.
    + destruct (restore_model_loop from_dir models i w)
        as [[j1 ms1] w1|e w1] eqn:Hr; [|discriminate].
      apply IH in Hr. destruct Hr as [-> ->].
      inversion H; subst. fold (found w' from_dir models). split; auto.
Qed.

Lemma restore_model_off_by_one models from_dir (w : world) :
  Py.returns (restore_model models from_dir w) = true ->
  (length (found w from_dir models) + 1 = length models)%nat.
Proof.
  unfold restore_model, Py.bind.
  destruct (restore_model_loop from_dir models 0 w)
    as [[j ms] w1|e w1] eqn:Hr; [|discriminate].
  apply restore_model_loop_counts in Hr. destruct Hr as [-> ->].
  cbn [fst snd plus]. destruct (Nat.eqb _ _) eqn:E; [|discriminate].
  intros _. now apply Nat.eqb_eq in E.
Qed.

End RestoreModelFacts.

(** C1 (what the code does): [torchlight]'s [restore_model] is asked to
    restore one model from a directory that holds no file at all; none
    of the requested models found its file, yet the call returns and
    prints the success message. *)
Theorem restore_model_succeeds_without_any_file :
  let models := [Toy.net "Generator" 7] in
  (length (Callbacks.found Toy.empty_world "checkpoint" models) < length models)%nat /\
  Callbacks.restore_model models "checkpoint" Toy.empty_world =
    Returned tt
      {| Callbacks.fs := ∅;
         Callbacks.stdout :=
           [Os.nl +:+ "--- Model(s) restored from checkpoint ---" +:+ Os.nl +:+ Os.nl];
         Callbacks.saved := [] |}.
Proof.
  cbv zeta. split.
  - vm_compute. lia.
  - vm_compute. reflexivity.
Qed.

(** ** [ModelSaverCallback]: save *)

Section SaveFacts.

Import Callbacks.
Context {T : Torch}.



Lemma insert_file_keeps_dirs (f : gmap string node) p sd q :
  <[p := File sd]> f !! q = Some Dir -> f !! q = Some Dir.
Proof.
  destruct (decide (p = q)) as [->|Hne].
  - rewrite lookup_insert_eq. discriminate.
  - now rewrite lookup_insert_ne.
Qed.

Lemma insert_file_over_no_dir (f : gmap string node) p sd q :
  f !! p <> Some Dir -> f !! q = Some Dir -> <[p := File sd]> f !! q = Some Dir.
Proof.
  intros Hp Hq. rewrite lookup_insert_ne; [exact Hq|]. intros ->. contradiction.
Qed.

(** A write that replaces no directory leaves the directory of every
    other path standing. *)
Lemma parent_after_write (w : world) p sd out saved' q :
  fs w !! p <> Some Dir ->
  parent w q = Some Dir ->
  parent {| fs := <[p := File sd]> (fs w); stdout := out; saved := saved' |} q
    = Some Dir.
Proof.
  unfold parent. cbn [fs]. intros Hp.
  destruct (Os.all_sep (Os.dirname q)); [auto|].
  now apply insert_file_over_no_dir.
Qed.

Lemma torch_save_writable (w : world) p sd :
  writable w p ->
  torch_save sd p w =
    Returned tt {| fs := <[p := File sd]> (fs w); stdout := stdout w;
                   saved := saved w ++ [(p, sd)] |}.
Proof.
  intros [Hp Hd]. unfold torch_save. rewrite Hd.
  destruct (fs w !! p) as [[c|]|]; try reflexivity. contradiction.
Qed.

(** [torch.save] returns on the writable paths only. *)
Lemma torch_save_returns (w w' : world) p sd :
  torch_save sd p w = Returned tt w' -> writable w p.
Proof.
  unfold torch_save, writable.
  destruct (fs w !! p) as [[c|]|]; try discriminate;
    destruct (parent w p) as [[c'|]|]; try discriminate; intros _;
    split; congruence.
Qed.

(** Writing a list of files to writable paths. *)
Lemma save_all (files : list (string * state_dict)) : forall w : world,
  Forall (fun p => writable w (fst p)) files ->
  Py.for_each files (fun p => torch_save (snd p) (fst p)) w =
  Returned tt {| fs := write_all files (fs w); stdout := stdout w;
                 saved := saved w ++ files |}.
Proof.
  induction files as [|[p sd] files IH]; intros w Hok.
  - cbn. rewrite app_nil_r. now destruct w.
  - inversion Hok as [|? ? Hp Hrest]; subst. cbn [fst snd] in *.
    cbn [Py.for_each]. unfold Py.bind.
    cbn [fst snd]. rewrite (torch_save_writable sd Hp). rewrite IH.
    + cbn. rewrite <- app_assoc. reflexivity.
    + eapply Forall_impl; [exact Hrest|].
      intros q [Hq Hd]. destruct Hp as [Hp _]. split.
      * cbn [fs]. intros Hdir. apply Hq. eapply insert_file_keeps_dirs, Hdir.
      * now apply parent_after_write.
Qed.

(** The loop of [torchlight]'s [on_epoch_end] writes [torchlight_files]. *)
Lemma torchlight_loop (self : ModelSaverCallback) ms (w : world) :
  Py.for_each (map (fun km => (fst km, PModule (snd km))) ms) (fun km =>
    let (k, m) := km in
    (sd <- Py.lift (state_dict_of m) ;;
     torch_save sd (Os.join (to_dir self) (k +:+ ".pth")))%py) w =
  Py.for_each (torchlight_files self ms) (fun p => torch_save (snd p) (fst p)) w.
Proof.
  revert w. induction ms as [|[k m] ms IH]; intros w; [reflexivity|].
  cbn [map Py.for_each torchlight_files fst snd].
  unfold Py.bind, Py.lift in *. cbn [state_dict_of] in *.
  destruct (torch_save _ _ w) as [[] w1|e w1]; [|reflexivity].
  apply IH.
Qed.

(** The loop of [torchlite]'s [on_epoch_end] writes [torchlite_files]. *)
Lemma torchlite_loop (self : ModelSaverCallback) epoch ms (w : world) :
  Py.for_each (map (fun km => (fst km, PModule (snd km))) ms) (fun km =>
    let (k, m) := km in
    (sd <- Py.lift (state_dict_of m) ;;
     torch_save sd
       (Os.join (to_dir self)
          (k +:+ "_epoch-" +:+ Os.str_of_int epoch +:+ ".pth")) ;;;
     sd' <- Py.lift (state_dict_of m) ;;
     torch_save sd' (Os.join (to_dir self) (k +:+ ".pth")))%py) w =
  Py.for_each (torchlite_files self epoch ms)
    (fun p => torch_save (snd p) (fst p)) w.
Proof.
  revert w. induction ms as [|[k m] ms IH]; intros w; [reflexivity|].
  cbn [map Py.for_each torchlite_files flat_map app fst snd].
  unfold Py.bind, Py.lift in *. cbn [state_dict_of] in *.
  destruct (torch_save _ _ w) as [[] w1|e w1]; [|reflexivity].
  destruct (torch_save _ _ w1) as [[] w2|e w2]; [|reflexivity].
  apply IH.
Qed.

Lemma models_items_entry (logs : Dict.t pyval) ms :
  Dict.get logs "models" = Some (models_entry ms) ->
  models_items logs = Ok (map (fun km => (fst km, PModule (snd km))) ms).
Proof.
  intros H. unfold models_items, Dict.lookup. now rewrite H.
Qed.

End SaveFacts.

Section CheckpointFacts.

Import Callbacks.
Context {T : Torch}.

(** When an epoch end saves, both packages reach the loop over
    [logs['models']]. *)
Lemma save_is_due (self : ModelSaverCallback) epoch (logs : Dict.t pyval) :
  Dict.get logs "step" = Some (PStr "training") ->
  every_n_epoch self <> 0%Z ->
  (epoch mod every_n_epoch self = 0 \/ epoch = epochs self)%Z ->
  Dict.lookup logs "step" = Ok (PStr "training") /\
  exists due, divides (every_n_epoch self) epoch = Ok due /\
              due || Z.eqb epoch (epochs self) = true.
Proof.
  intros Hstep Hn Hdue. split.
  - unfold Dict.lookup. now rewrite Hstep.
  - unfold divides. destruct (Z.eqb_spec (every_n_epoch self) 0); [contradiction|].
    eexists. split; [reflexivity|].
    destruct Hdue as [H|H].
    + rewrite H. reflexivity.
    + rewrite H, Z.eqb_refl. apply orb_true_r.
Qed.


Lemma torchlite_on_epoch_end_saves (self : ModelSaverCallback) epoch
    (logs : Dict.t pyval) ms (w : world) :
  Dict.get logs "step" = Some (PStr "training") ->
  every_n_epoch self <> 0%Z ->
  (epoch mod every_n_epoch self = 0 \/ epoch = epochs self)%Z ->
  Dict.get logs "models" = Some (models_entry ms) ->
  Forall (fun p => writable w (fst p)) (torchlite_files self epoch ms) ->
  exists w',
    torchlite_on_epoch_end self epoch logs w = Returned tt w' /\
    saved w' = saved w ++ torchlite_files self epoch ms /\
    fs w' = write_all (torchlite_files self epoch ms) (fs w).
Proof.
  intros Hstep Hn Hdue Hm Hok.
  destruct (@save_is_due self epoch logs Hstep Hn Hdue) as [Hl [due [Hd Hor]]].
  unfold torchlite_on_epoch_end.
  unfold Py.bind at 1. rewrite Hl. cbn [Py.lift eq_str].
  change (String.eqb "training" "training") with true. cbv iota.
  unfold Py.bind at 1. rewrite Hd. cbn [Py.lift]. rewrite Hor.
  unfold Py.bind at 1. rewrite (@models_items_entry _ logs ms Hm). cbn [Py.lift].
  unfold Py.bind at 1. rewrite torchlite_loop, (@save_all _ _ w Hok).
  unfold print, Py.modify. eexists. split; [reflexivity|]. cbn. auto.
Qed.



End CheckpointFacts.






(** ** [TrainCallbackList] *)

Section CallbackListFacts.

Import Callbacks TrainCallbackList.
Context {T : Torch}.












End CallbackListFacts.

Section HookFacts.

Import Callbacks TrainCallbackList.
Context {T : Torch}.



End HookFacts.




(** ** Data frames: labels and their columns *)

Section FrameBasics.

Import TabularEncoder.

Lemma mem_In (x : string) (l : list string) : mem x l = true <-> In x l.
Proof.
  unfold mem. rewrite existsb_exists. split.
  - intros [y [Hin Heq]]. apply String.eqb_eq in Heq. now subst.
  - intros Hin. exists x. split; [assumption|apply String.eqb_refl].
Qed.

Lemma mem_false (x : string) (l : list string) : mem x l = false <-> ~ In x l.
Proof.
  rewrite <- mem_In. destruct (mem x l); split; intros H; congruence.
Qed.

Lemma carriers_In (df : DataFrame) (l : string) (c : column) :
  In c (carriers df l) <-> In c (series df) /\ label c = l.
Proof.
  unfold carriers. rewrite List.filter_In, String.eqb_eq. reflexivity.
Qed.

Lemma carriers_nil (df : DataFrame) (l : string) :
  carriers df l = [] <-> ~ In l (columns df).
Proof.
  unfold columns. rewrite in_map_iff. split.
  - intros Hnil [c [Hl Hin]].
    assert (H : In c (carriers df l)) by (now apply carriers_In).
    rewrite Hnil in H. contradiction.
  - intros Hn. destruct (carriers df l) as [|c cs] eqn:Hc; [reflexivity|].
    exfalso. apply Hn. exists c.
    assert (H : In c (carriers df l)) by (rewrite Hc; now left).
    apply carriers_In in H. tauto.
Qed.

Lemma getitem_missing (df : DataFrame) (l : string) :
  ~ In l (columns df) -> getitem df l = Err (KeyError l).
Proof.
  intros Hn. unfold getitem. now rewrite (proj2 (carriers_nil df l) Hn).
Qed.

(** [df[l]] raises only [KeyError], and only for a label that is not in
    the frame. *)
Lemma getitem_err (df : DataFrame) (l : string) (e : exn) :
  getitem df l = Err e -> e = KeyError l /\ ~ In l (columns df).
Proof.
  unfold getitem. destruct (carriers df l) as [|c [|c' cs]] eqn:Hc; try discriminate.
  intros H. inversion H. split; [reflexivity|]. now apply carriers_nil.
Qed.

Lemma getitem_series (df : DataFrame) (l : string) (c : column) :
  getitem df l = Ok (Series c) <-> carriers df l = [c].
Proof.
  unfold getitem. destruct (carriers df l) as [|c0 [|c1 cs]]; split; intros H;
    try discriminate; congruence.
Qed.

Lemma getitem_series_In (df : DataFrame) (l : string) (c : column) :
  getitem df l = Ok (Series c) ->
  In c (series df) /\ label c = l /\ In l (columns df).
Proof.
  intros H. apply getitem_series in H.
  assert (Hin : In c (carriers df l)) by (rewrite H; now left).
  apply carriers_In in Hin. destruct Hin as [Hin Hl].
  repeat split; auto. unfold columns. rewrite <- Hl. now apply in_map.
Qed.

Lemma filter_label_none (cs : list column) (l : string) :
  ~ In l (map label cs) -> List.filter (fun c => String.eqb (label c) l) cs = [].
Proof.
  induction cs as [|c cs IH]; intros Hn; [reflexivity|]. cbn [List.filter].
  destruct (String.eqb_spec (label c) l) as [E|E].
  - exfalso. apply Hn. now left.
  - apply IH. intros H. apply Hn. now right.
Qed.

Lemma filter_label_unique (cs : list column) (l : string) :
  List.NoDup (map label cs) -> In l (map label cs) ->
  exists c, List.filter (fun c => String.eqb (label c) l) cs = [c].
Proof.
  induction cs as [|c cs IH]; intros Hnd Hin; [contradiction|].
  inversion Hnd as [|? ? Hnotin Hnd']; subst. cbn [List.filter].
  destruct (String.eqb_spec (label c) l) as [Heq|Hne].
  - exists c. rewrite filter_label_none; [reflexivity|]. now rewrite <- Heq.
  - apply IH; [assumption|]. destruct Hin as [H|H]; [contradiction|assumption].
Qed.

(** In a frame with distinct labels every label is carried by one
    column, so that [df[l]] is a [Series]. *)
Lemma carriers_unique (df : DataFrame) (l : string) :
  List.NoDup (columns df) -> In l (columns df) -> exists c, carriers df l = [c].
Proof. apply filter_label_unique. Qed.





End FrameBasics.

(** ** [BaseEncoder.transform] *)

Section EncoderFacts.

Import TabularEncoder.
Context {E : Encoder}.

(** [transform] is the three encoding steps followed by the checks. *)
Lemma transform_encoded_checked (self : BaseEncoder) (X : DataFrame) :
  transform self X = Py.and_then (encoded self X) (checked self).
Proof.
  unfold transform, encoded, checked, Py.and_then.
  destruct (fix_missing self).
  - destruct (tfs_get (missing (tfs_list self)) "missing"); [|reflexivity].
    destruct (_perform_na_transform _ _); [|reflexivity].
    destruct (_perform_categ_transform _ _); [|reflexivity].
    destruct (numeric_scaler self); [|reflexivity].
    destruct (tfs_get (num_cols (tfs_list self)) "num_cols"); [|reflexivity].
    destruct (scale _ _ _); reflexivity.
  - destruct (_perform_categ_transform _ _); [|reflexivity].
    destruct (numeric_scaler self); [|reflexivity].
    destruct (tfs_get (num_cols (tfs_list self)) "num_cols"); [|reflexivity].
    destruct (scale _ _ _); reflexivity.
Qed.




End EncoderFacts.




(** The guard of [ReduceLROnPlateau] does fire, but only on a [val_loss]
    key that is present with a false value. *)
Example reduce_lr_on_plateau_raises_on_none :
  let self := @Callbacks.mkRLROP Toy.torch "valid" [] in
  Callbacks.ReduceLROnPlateau_on_epoch_end 1
    [("step", Callbacks.PStr "training"); ("val_loss", Callbacks.PNone)] self
  = Raised (ValueError Callbacks.no_val_loss) self.
Proof. reflexivity. Qed.

(** [torchlight]'s [restore_model] with every file in place: the load
    from the directory itself fails. *)
Example restore_model_fails_with_every_file :
  let w := Toy.generator_on_disk in
  Callbacks.restore_model [Toy.net "Generator" 0] "checkpoint" w =
    Raised (IsADirectoryError "checkpoint") w.
Proof. vm_compute. reflexivity. Qed.

(** [torchlite]'s [restore_models] on the same disk restores the model,
    and on an empty disk it raises. *)
Example restore_models_restores :
  let w := Toy.generator_on_disk in
  (exists w', Callbacks.restore_models [Toy.net "Generator" 0] "checkpoint" false w
              = Returned [Toy.net "Generator" 7] w') /\
  Callbacks.restore_models [Toy.net "Generator" 0] "checkpoint" false Toy.empty_world
    = Raised (AssertionError Callbacks.not_all_restored) Toy.empty_world.
Proof.
  cbv zeta. split.
  - eexists. vm_compute. reflexivity.
  - vm_compute. reflexivity.
Qed.

(** ** Save and restore meet on the file name *)

Section SaveRestoreFacts.

Import Callbacks.
Context {T : Torch}.

(** For the mapping a classifier core publishes, the default file an
    epoch end writes is the file a restore from the same directory
    looks for. *)
Lemma saved_file_is_restore_file (self : ModelSaverCallback) (model : module) :
  torchlight_files self (get_models model) =
    [(file_of (to_dir self) model, get_state_dict model)] /\
  In (file_of (to_dir self) model, get_state_dict model)
     (torchlite_files self 1 (get_models model)).
Proof.
  split; [reflexivity|]. cbn. right. left. reflexivity.
Qed.

(** After such a save the file is on disk with the model's state. *)
Lemma saved_file_isfile (f : gmap string node) p (sd : state_dict) :
  <[p := File sd]> f !! p = Some (File sd).
Proof. apply lookup_insert_eq. Qed.

End SaveRestoreFacts.

(** A new epoch starts from a new meter and empty logs. *)
Lemma on_new_epoch_resets_meter (F : Cores.Framework) (c : Cores.ClassifierCore) :
  Cores.avg_meter (Cores.on_new_epoch c) = Cores.meter_new /\
  Cores.get_logs (Cores.on_new_epoch c) = Dict.empty.
Proof. repeat split. Qed.

(** * Further properties of the code *)

(** ** [AverageMeter]: constant losses *)

Section MeterMoreFacts.

Import Meter.
Local Open Scope Q_scope.


End MeterMoreFacts.



(** ** [ClassifierCore]: what each kind of batch touches *)

(** X3: a ["training"] batch returns the logits, makes exactly the calls
    [zero_grad], [backward], [step] in that order, and steps the
    optimizer with the gradient of this batch alone: whatever the
    gradient buffers held before is cleared first. *)
Theorem training_batch_uses_a_fresh_gradient
    (F : Cores.Framework) (c : Cores.ClassifierCore)
    (inputs : list Cores.tensor) (targets : option Cores.tensor) :
  let g := Cores.grad_add Cores.grad_zero
             (Cores.crit_grad (Cores.model c) inputs targets) in
  exists c',
    Cores.on_forward_batch "training" inputs targets c =
      Returned (Cores.model_forward (Cores.model c) inputs) c' /\
    Cores.calls c' = Cores.calls c ++ [Cores.ZeroGrad; Cores.Backward; Cores.Step] /\
    Cores.grad c' = g /\
    (Cores.optim c', Cores.model c') =
      Cores.optim_step (Cores.optim c) (Cores.model c) g /\
    Dict.get (Cores.get_logs c') "batch_logs" =
      Some [("loss", Cores.crit_item (Cores.model_forward (Cores.model c) inputs) targets)].
Proof.
  cbv zeta.
  rewrite (@on_forward_batch_not_prediction F c "training" inputs targets)
    by discriminate.
  cbv zeta.
  change (String.eqb "training" "training") with true. cbv iota.
  eexists. split; [reflexivity|].
  cbn [Cores.calls Cores.model Cores.grad Cores.optim Cores.logs_update
       Cores.get_logs Cores.logs].
  rewrite step_optim_calls, step_optim_logs.
  unfold Cores.step_optim.
  cbn [Cores.backward Cores.zero_grad Cores.logs_update Cores.set_meter
       Cores.calls Cores.model Cores.grad Cores.optim Cores.logs].
  destruct (Cores.optim_step _ _ _) as [o p] eqn:Eo.
  cbn [Cores.grad Cores.optim Cores.model].
  rewrite <- !app_assoc. repeat split.
  unfold Dict.update. cbn [fold_left fst snd].
  rewrite dict_get_set_other by discriminate.
  apply dict_get_set_same.
Qed.

(** X4: any step other than ["training"] leaves the parameters, the
    optimizer state and the gradient buffers as they were and makes no
    optimizer or autograd call; unless it is ["prediction"], the core's
    meter is updated once, with the loss of the batch, [batch_logs]
    holds that loss and [epoch_logs] is [{"valid loss": avg}], the
    [avg] of the updated meter. *)
Theorem non_training_batch_touches_no_parameter
    (F : Cores.Framework) (c : Cores.ClassifierCore) (step : string)
    (inputs : list Cores.tensor) (targets : option Cores.tensor) :
  step <> "training" ->
  let logits := Cores.model_forward (Cores.model c) inputs in
  let loss := Cores.crit_item logits targets in
  exists c',
    Cores.on_forward_batch step inputs targets c = Returned logits c' /\
    Cores.model c' = Cores.model c /\ Cores.optim c' = Cores.optim c /\
    Cores.grad c' = Cores.grad c /\ Cores.calls c' = Cores.calls c /\
    (step <> "prediction" ->
     Cores.avg_meter c' = Cores.meter_update (Cores.avg_meter c) loss /\
     Dict.get (Cores.get_logs c') "batch_logs" = Some [("loss", loss)] /\
     Dict.get (Cores.get_logs c') "epoch_logs" =
       Some [("valid loss", Cores.meter_avg (Cores.avg_meter c'))]).
Proof.
  intros Hstep. cbv zeta.
  destruct (String.eqb step "prediction") eqn:Hp.
  - apply String.eqb_eq in Hp. subst step.
    exists c. do 5 (split; [reflexivity|]).
    intros Hne. contradiction.
  - apply String.eqb_neq in Hp.
    rewrite (@on_forward_batch_not_prediction F c step inputs targets Hp).
    cbv zeta. rewrite (eqb_neq_false Hstep).
    eexists. do 5 (split; [reflexivity|]).
    intros _.
    cbn [Cores.get_logs Cores.logs Cores.logs_update Cores.avg_meter
         Cores.set_meter].
    unfold Dict.update. cbn [fold_left fst snd]. split; [reflexivity|]. split.
    + rewrite dict_get_set_other by discriminate. apply dict_get_set_same.
    + apply dict_get_set_same.
Qed.

Lemma non_training_batch_touches_no_parameter_witness :
  exists c',
    Cores.on_forward_batch (F := Toy.classifier) "validation" [1%Q] (Some 3%Q)
      (Cores.new (F := Toy.classifier) 2%Q tt) = Returned 2%Q c' /\
    Cores.model c' = 2%Q /\ Cores.calls c' = [] /\
    Dict.get (Cores.get_logs c') "epoch_logs" = Some [("valid loss", 1%Q)].
Proof.
  destruct (@non_training_batch_touches_no_parameter Toy.classifier
              (Cores.new (F := Toy.classifier) 2%Q tt) "validation"
              [1%Q] (Some 3%Q)) as [c' [H1 [H2 [_ [_ [H3 H4]]]]]].
  - discriminate.
  - exists c'. split; [exact H1|]. split; [exact H2|]. split; [exact H3|].
    destruct H4 as [Hm [_ He]]; [discriminate|].
    rewrite He, Hm. vm_compute. reflexivity.
Defined.

(** ** [SRGAN.forward]: what the updates depend on *)

Section SrganMoreFacts.

Import Srgan.
Context {F : Srgan.Framework}.

(** One [_optimize] on the discriminator. *)
Lemma optimize_netD (l : loss) r (s : SRGAN) :
  graph_alive s = true ->
  exists s',
    _optimize NetD l r s = Returned tt s' /\
    (netD_optim s', netD s') =
      optim_step (netD_optim s) (netD s) (grad_add grad_zero (snd (grads l))) /\
    netG s' = netG s /\ netG_optim s' = netG_optim s /\ graph_alive s' = r.
Proof.
  intros Halive.
  unfold _optimize, Py.bind, Py.modify, backward.
  cbn [zero_grad log_call graph_alive]. rewrite Halive.
  unfold step. cbn.
  destruct (optim_step (netD_optim s) (netD s) _) as [o p].
  eexists. split; [reflexivity|]. cbn. repeat split.
Qed.

(** One [_optimize] on the generator. *)
Lemma optimize_netG (l : loss) r (s : SRGAN) :
  graph_alive s = true ->
  exists s',
    _optimize NetG l r s = Returned tt s' /\
    (netG_optim s', netG s') =
      optim_step (netG_optim s) (netG s) (grad_add grad_zero (fst (grads l))) /\
    netD s' = netD s /\ netD_optim s' = netD_optim s.
Proof.
  intros Halive.
  unfold _optimize, Py.bind, Py.modify, backward.
  cbn [zero_grad log_call graph_alive]. rewrite Halive.
  unfold step. cbn.
  destruct (optim_step (netG_optim s) (netG s) _) as [o p].
  eexists. split; [reflexivity|]. cbn. repeat split.
Qed.

(** The parameters and optimizer states one batch leaves behind. *)
Lemma forward_updates (s : SRGAN) (data target : tensor) :
  let dg := loss_grad DLoss (netG s) (netD s) data target in
  let gg := loss_grad GLoss (netG s) (netD s) data target in
  let gen_img := netG_forward (netG s) data in
  let d_real_out := mean (netD_forward (netD s) target) in
  let d_fake_out := mean (netD_forward (netD s) gen_img) in
  exists s',
    forward data target s = Returned (gen_img, d_real_out, d_fake_out) s' /\
    (netD_optim s', netD s') =
      optim_step (netD_optim s) (netD s) (grad_add grad_zero (snd dg)) /\
    (netG_optim s', netG s') =
      optim_step (netG_optim s) (netG s) (grad_add grad_zero (fst gg)).
Proof.
  cbv zeta. unfold forward.
  unfold Py.bind at 1. unfold Py.modify at 1.
  unfold Py.bind at 1. unfold Py.get at 1.
  cbn [fresh_graph netG netD].
  match goal with
  | |- context [Py.bind (_optimize NetD ?l true) ?k ?s0] =>
      destruct (@optimize_netD l true s0 eq_refl) as [s1 [E1 [D1 [G1 [Go1 A1]]]]];
      rewrite (@bind_returned _ _ _ _ k _ _ _ E1)
  end.
  match goal with
  | |- context [Py.bind (_optimize NetG ?l false) ?k s1] =>
      destruct (@optimize_netG l false s1 A1) as [s2 [E2 [G2 [D2 Do2]]]];
      rewrite (@bind_returned _ _ _ _ k _ _ _ E2)
  end.
  unfold Py.ret. exists s2. split; [reflexivity|].
  cbn [grads fst snd netG netD netG_optim netD_optim] in *.
  rewrite D2, Do2, G2, G1, Go1. split; [exact D1|reflexivity].
Qed.

End SrganMoreFacts.

(** X5: what one adversarial batch returns and how it updates both
    networks depends only on the parameters and optimizer states at
    entry: gradients left in the buffers by earlier batches, the state
    of the old graph and the call history have no influence. *)
Theorem adversarial_batch_ignores_stale_gradients
    (F : Srgan.Framework) (s1 s2 : Srgan.SRGAN) (data target : Srgan.tensor) :
  Srgan.netG s1 = Srgan.netG s2 -> Srgan.netD s1 = Srgan.netD s2 ->
  Srgan.netG_optim s1 = Srgan.netG_optim s2 ->
  Srgan.netD_optim s1 = Srgan.netD_optim s2 ->
  let r1 := Srgan.forward data target s1 in
  let r2 := Srgan.forward data target s2 in
  (exists out t1 t2, r1 = Returned out t1 /\ r2 = Returned out t2) /\
  Srgan.netG (Py.final r1) = Srgan.netG (Py.final r2) /\
  Srgan.netD (Py.final r1) = Srgan.netD (Py.final r2) /\
  Srgan.netG_optim (Py.final r1) = Srgan.netG_optim (Py.final r2) /\
  Srgan.netD_optim (Py.final r1) = Srgan.netD_optim (Py.final r2).
Proof.
  intros HG HD HGo HDo. cbv zeta.
  destruct (forward_updates s1 data target) as [t1 [E1 [D1 G1]]].
  destruct (forward_updates s2 data target) as [t2 [E2 [D2 G2]]].
  rewrite E1, E2. cbn [Py.final].
  rewrite HG, HD, HGo, HDo in *.
  rewrite <- D2 in D1. rewrite <- G2 in G1.
  injection D1 as D1o D1p. injection G1 as G1o G1p.
  split; [|repeat split; assumption].
  eexists. exists t1, t2. split; reflexivity.
Qed.

Lemma adversarial_batch_ignores_stale_gradients_witness :
  let s1 := @Srgan.mkSRGAN Toy.gan tt tt 1%Q 1%Q 0%Q 0%Q false [] in
  let s2 := @Srgan.mkSRGAN Toy.gan tt tt 1%Q 1%Q 5%Q 9%Q true [Srgan.Step Srgan.NetG] in
  Srgan.netG (Py.final (Srgan.forward (F := Toy.gan) 1%Q 2%Q s1)) =
  Srgan.netG (Py.final (Srgan.forward (F := Toy.gan) 1%Q 2%Q s2)).
Proof.
  cbv zeta.
  apply (@adversarial_batch_ignores_stale_gradients Toy.gan
           (@Srgan.mkSRGAN Toy.gan tt tt 1%Q 1%Q 0%Q 0%Q false [])
           (@Srgan.mkSRGAN Toy.gan tt tt 1%Q 1%Q 5%Q 9%Q true [Srgan.Step Srgan.NetG])
           1%Q 2%Q eq_refl eq_refl eq_refl eq_refl).
Defined.

(** ** [ReduceLROnPlateau]: when the scheduler is stepped *)

Section ReduceLRMoreFacts.

Import Callbacks CallbacksMore.
Context {T : Torch}.

Lemma on_epoch_end_training (self : ReduceLROnPlateau) epoch (logs : Dict.t pyval) :
  Dict.get logs "step" = Some (PStr "training") ->
  ReduceLROnPlateau_on_epoch_end epoch logs self =
  plateau_loop (loss_step self) epoch logs self.
Proof.
  intros Hstep.
  unfold ReduceLROnPlateau_on_epoch_end, Py.bind, Py.lift, Dict.lookup, Py.get.
  rewrite Hstep. reflexivity.
Qed.

Lemma dict_get_absent {V} (d : Dict.t V) k :
  ~ In k (map fst d) -> Dict.get d k = None.
Proof.
  induction d as [|[k' v] d IH]; intros Hn; [reflexivity|].
  cbn in *. destruct (String.eqb_spec k' k) as [->|Hne].
  - exfalso. apply Hn. now left.
  - apply IH. intros H. apply Hn. now right.
Qed.

(** Entries under other keys leave the callback alone. *)
Lemma plateau_loop_skips mode epoch (items : list (string * pyval))
    (self : ReduceLROnPlateau) :
  Dict.get items (if String.eqb mode "valid" then "val_loss" else "train_loss")
    = None ->
  plateau_loop mode epoch items self = Returned tt self.
Proof.
  unfold plateau_loop.
  induction items as [|[k v] items IH]; intros Hget; [reflexivity|].
  cbn [Py.for_each]. cbn [Dict.get] in Hget.
  destruct (String.eqb mode "valid").
  - destruct (String.eqb k "val_loss"); [discriminate|].
    unfold Py.bind, Py.ret. apply IH, Hget.
  - destruct (String.eqb k "train_loss"); [discriminate|].
    unfold Py.bind, Py.ret. apply IH, Hget.
Qed.

(** A false value under [val_loss] stops the loop in ["valid"] mode. *)
Lemma plateau_loop_raises epoch (items : list (string * pyval)) v
    (self : ReduceLROnPlateau) :
  Dict.get items "val_loss" = Some v -> truthy v = false ->
  plateau_loop "valid" epoch items self = Raised (ValueError no_val_loss) self.
Proof.
  unfold plateau_loop. change (String.eqb "valid" "valid") with true. cbv iota.
  induction items as [|[k v0] items IH]; intros Hget Hv; [discriminate|].
  cbn [Py.for_each]. cbn [Dict.get] in Hget.
  destruct (String.eqb k "val_loss").
  - inversion Hget; subst. rewrite Hv. reflexivity.
  - unfold Py.bind, Py.ret. now apply IH.
Qed.

(** The monitored entry of a dictionary steps the scheduler once. *)
Lemma plateau_loop_steps mode epoch (items : list (string * pyval)) v
    (self : ReduceLROnPlateau) :
  List.NoDup (map fst items) ->
  Dict.get items (if String.eqb mode "valid" then "val_loss" else "train_loss")
    = Some v ->
  (String.eqb mode "valid" = true -> truthy v = true) ->
  plateau_loop mode epoch items self = Returned tt (stepped self v epoch).
Proof.
  induction items as [|[k v0] items IH]; intros Hnd Hget Hv; [discriminate|].
  inversion Hnd as [|? ? Hnotin Hnd']; subst.
  unfold plateau_loop. cbn [Py.for_each]. fold (plateau_loop mode epoch items).
  cbn [Dict.get] in Hget.
  destruct (String.eqb mode "valid") eqn:Hmode.
  - destruct (String.eqb_spec k "val_loss") as [->|Hne].
    + inversion Hget; subst. rewrite (Hv eq_refl). cbn [negb].
      unfold Py.bind, lr_sch_step, Py.modify.
      rewrite plateau_loop_skips; [reflexivity|].
      rewrite Hmode. now apply dict_get_absent.
    + unfold Py.bind, Py.ret. apply IH; assumption.
  - destruct (String.eqb_spec k "train_loss") as [->|Hne].
    + inversion Hget; subst.
      unfold Py.bind, lr_sch_step, Py.modify.
      rewrite plateau_loop_skips; [reflexivity|].
      rewrite Hmode. now apply dict_get_absent.
    + unfold Py.bind, Py.ret. apply IH; assumption.
Qed.

End ReduceLRMoreFacts.

(** X6: in ["valid"] mode, a [val_loss] entry whose value is false in
    Python's sense (a loss of exactly 0, or [None]) makes the end of a
    training epoch raise "No validation loss has been found", and the
    scheduler is not stepped. *)
Theorem zero_validation_loss_is_reported_missing
    (T : Callbacks.Torch) (self : Callbacks.ReduceLROnPlateau) (epoch : Z)
    (logs : Dict.t Callbacks.pyval) (v : Callbacks.pyval) :
  Callbacks.loss_step self = "valid" ->
  Dict.get logs "step" = Some (Callbacks.PStr "training") ->
  Dict.get logs "val_loss" = Some v ->
  Callbacks.truthy v = false ->
  Callbacks.ReduceLROnPlateau_on_epoch_end epoch logs self =
    Raised (ValueError Callbacks.no_val_loss) self.
Proof.
  intros Hmode Hstep Hget Hv.
  rewrite (on_epoch_end_training self epoch logs Hstep), Hmode.
  eapply plateau_loop_raises; eassumption.
Qed.

Lemma zero_validation_loss_is_reported_missing_witness :
  let self := @Callbacks.mkRLROP Toy.torch "valid" [] in
  Callbacks.ReduceLROnPlateau_on_epoch_end 3
    [("step", Callbacks.PStr "training"); ("val_loss", Callbacks.PFloat 0)] self =
    Raised (ValueError Callbacks.no_val_loss) self.
Proof.
  cbv zeta.
  apply (@zero_validation_loss_is_reported_missing Toy.torch
           (@Callbacks.mkRLROP Toy.torch "valid" []) 3
           [("step", Callbacks.PStr "training"); ("val_loss", Callbacks.PFloat 0)]
           (Callbacks.PFloat 0)); reflexivity.
Defined.

(** X7: at the end of a training epoch whose logs (keys unique) hold the
    monitored key ([val_loss] in ["valid"] mode, [train_loss] in any
    other mode), the scheduler is stepped exactly once, with that value
    and the epoch; in ["valid"] mode the value must be true in Python's
    sense, in the other modes any value is passed on. *)
Theorem scheduler_steps_once_on_the_monitored_loss
    (T : Callbacks.Torch) (self : Callbacks.ReduceLROnPlateau) (epoch : Z)
    (logs : Dict.t Callbacks.pyval) (v : Callbacks.pyval) :
  List.NoDup (Dict.keys logs) ->
  Dict.get logs "step" = Some (Callbacks.PStr "training") ->
  Dict.get logs (CallbacksMore.monitored self) = Some v ->
  (Callbacks.loss_step self = "valid" -> Callbacks.truthy v = true) ->
  Callbacks.ReduceLROnPlateau_on_epoch_end epoch logs self =
    Returned tt {| Callbacks.loss_step := Callbacks.loss_step self;
                   Callbacks.lr_sch := Callbacks.lr_sch self ++ [(v, epoch)] |}.
Proof.
  intros Hnd Hstep Hget Hv.
  rewrite (on_epoch_end_training self epoch logs Hstep).
  apply plateau_loop_steps; try assumption.
  intros H. apply Hv. now apply String.eqb_eq.
Qed.

Lemma scheduler_steps_once_on_the_monitored_loss_witness :
  let self := @Callbacks.mkRLROP Toy.torch "train" [] in
  Callbacks.ReduceLROnPlateau_on_epoch_end 2
    [("step", Callbacks.PStr "training"); ("train_loss", Callbacks.PFloat (1 # 4))]
    self =
    Returned tt (@Callbacks.mkRLROP Toy.torch "train" [(Callbacks.PFloat (1 # 4), 2%Z)]).
Proof.
  cbv zeta.
  apply (@scheduler_steps_once_on_the_monitored_loss Toy.torch
           (@Callbacks.mkRLROP Toy.torch "train" []) 2
           [("step", Callbacks.PStr "training");
            ("train_loss", Callbacks.PFloat (1 # 4))]
           (Callbacks.PFloat (1 # 4))).
  - apply List.NoDup_cons; [intros [H|[]]; discriminate|].
    apply List.NoDup_cons; [intros []|apply List.NoDup_nil].
  - reflexivity.
  - reflexivity.
  - discriminate.
Defined.

(** X8: the callback needs the [step] key and acts on training epochs
    only: without the key it raises [KeyError], and for any other step
    it returns without touching the scheduler, whatever the logs hold. *)
Theorem plateau_callback_acts_on_training_epochs_only
    (T : Callbacks.Torch) (self : Callbacks.ReduceLROnPlateau) (epoch : Z)
    (logs : Dict.t Callbacks.pyval) :
  (Dict.get logs "step" = None ->
   Callbacks.ReduceLROnPlateau_on_epoch_end epoch logs self =
     Raised (KeyError "step") self)
  /\
  (forall step, Dict.get logs "step" = Some step ->
     Callbacks.eq_str step "training" = false ->
     Callbacks.ReduceLROnPlateau_on_epoch_end epoch logs self = Returned tt self).
Proof.
  split.
  - intros H. unfold Callbacks.ReduceLROnPlateau_on_epoch_end, Py.bind, Py.lift,
      Dict.lookup. now rewrite H.
  - intros step H Hs. unfold Callbacks.ReduceLROnPlateau_on_epoch_end, Py.bind,
      Py.lift, Dict.lookup. now rewrite H, Hs.
Qed.

Lemma plateau_callback_acts_on_training_epochs_only_witness :
  let self := @Callbacks.mkRLROP Toy.torch "valid" [] in
  Callbacks.ReduceLROnPlateau_on_epoch_end 1
    [("step", Callbacks.PStr "validation"); ("val_loss", Callbacks.PNone)] self =
    Returned tt self.
Proof.
  cbv zeta.
  apply (proj2 (@plateau_callback_acts_on_training_epochs_only Toy.torch
                  (@Callbacks.mkRLROP Toy.torch "valid" []) 1
                  [("step", Callbacks.PStr "validation");
                   ("val_loss", Callbacks.PNone)])
               (Callbacks.PStr "validation")); reflexivity.
Defined.

(** ** [ModelSaverCallback]: when nothing is written, and failures *)

Section SaverMoreFacts.

Import Callbacks CallbacksMore.
Context {T : Torch}.

(** Files written where no directory stands leave directories alone. *)
Lemma write_all_keeps_dir (files : list (string * state_dict)) :
  forall (f : gmap string node) q,
  Forall (fun p => f !! fst p <> Some Dir) files ->
  f !! q = Some Dir -> write_all files f !! q = Some Dir.
Proof.
  induction files as [|[p sd] files IH]; intros f q Hok Hq; [exact Hq|].
  inversion Hok as [|? ? Hp Hrest]; subst. cbn [fst] in Hp.
  unfold write_all. cbn [fold_left fst snd]. apply IH.
  - eapply Forall_impl; [exact Hrest|].
    intros x Hx Hdir. apply Hx. eapply insert_file_keeps_dirs, Hdir.
  - rewrite lookup_insert_ne; [exact Hq|]. intros ->. contradiction.
Qed.

(** The loop of [torchlight]'s [on_epoch_end] stops at the first target
    that is a directory; what was written before stays written. *)
Lemma torchlight_loop_stops (self : ModelSaverCallback)
    (before after : list (string * module)) k m (w : world) :
  let target := Os.join (to_dir self) (k +:+ ".pth") in
  Forall (fun p => writable w (fst p)) (torchlight_files self before) ->
  fs w !! target = Some Dir ->
  Py.for_each (torchlight_files self (before ++ (k, m) :: after))
    (fun p => torch_save (snd p) (fst p)) w =
  Raised (IsADirectoryError target)
    {| fs := write_all (torchlight_files self before) (fs w);
       stdout := stdout w;
       saved := saved w ++ torchlight_files self before |}.
Proof.
  intros target Hok Hdir.
  unfold torchlight_files. rewrite map_app.
  fold (torchlight_files self before). rewrite for_each_app.
  rewrite (@bind_returned _ _ _ _ _ _ _ _ (@save_all T _ w Hok)).
  cbn [map Py.for_each fst snd]. fold target.
  unfold Py.bind, torch_save. cbn [fs].
  assert (Hnd : Forall (fun p => fs w !! fst p <> Some Dir)
                  (torchlight_files self before)).
  { eapply Forall_impl; [exact Hok|]. intros p [Hp _]. exact Hp. }
  rewrite (@write_all_keeps_dir _ _ _ Hnd Hdir). reflexivity.
Qed.

Lemma torch_load_raises p (w w' : world) e :
  torch_load p w = Raised e w' -> w' = w.
Proof.
  unfold torch_load. destruct (fs w !! p) as [[c|]|]; try congruence.
  destruct (parent w p) as [[c|]|]; congruence.
Qed.

Lemma restore_models_loop_raises from_dir b models : forall i (w w' : world) e,
  restore_models_loop from_dir b models i w = Raised e w' -> w' = w.
Proof.
  induction models as [|m models IH]; intros i w w' e H.
  - discriminate.
  - cbn [restore_models_loop] in H. unfold Py.bind, Py.get, Py.lift, Py.ret in H.
    destruct (isfile w _).
    + destruct (torch_load _ w) as [sd w1|e1 w1] eqn:Hl.
      * apply torch_load_world in Hl. subst w1.
        destruct (load_state_dict m sd); [|congruence].
        destruct (restore_models_loop from_dir b models (S i) w)
          as [[j ms] w1|e1 w1] eqn:Hr; [discriminate|].
        inversion H; subst. eapply IH, Hr.
      * apply torch_load_raises in Hl. congruence.
    + destruct (restore_models_loop from_dir b models i w)
        as [[j ms] w1|e1 w1] eqn:Hr; [discriminate|].
      inversion H; subst. eapply IH, Hr.
Qed.

(** With [from_dir] not a regular file, the loop of [torchlight]'s
    [restore_model] gets past no model whose file exists. *)
Lemma restore_model_loop_found_none from_dir models : forall i (w w' : world) j ms,
  (forall sd, fs w !! from_dir <> Some (File sd)) ->
  restore_model_loop from_dir models i w = Returned (j, ms) w' ->
  found w from_dir models = [].
Proof.
  induction models as [|m models IH]; intros i w w' j ms Hdir H; [reflexivity|].
  cbn [restore_model_loop] in H. unfold Py.bind, Py.get, Py.lift, Py.ret in H.
  unfold found. cbn [List.filter]. fold (file_of from_dir m) in H.
  destruct (isfile w (file_of from_dir m)).
  - exfalso. unfold torch_load in H.
    destruct (fs w !! from_dir) as [[c|]|] eqn:E; try discriminate.
    + now apply (Hdir c).
    + destruct (parent w from_dir) as [[c|]|]; discriminate.
  - destruct (restore_model_loop from_dir models i w)
      as [[j1 ms1] w1|e1 w1] eqn:Hr; [|discriminate].
    eapply IH; eassumption.
Qed.

End SaverMoreFacts.

(** X9: with [every_n_epoch = 0], the end of every training epoch
    raises [ZeroDivisionError] in both packages, also at the last epoch,
    and nothing is written or printed. *)
Theorem every_n_epoch_zero_divides_by_zero
    (T : Callbacks.Torch) (self : Callbacks.ModelSaverCallback) (epoch : Z)
    (logs : Dict.t Callbacks.pyval) (w : Callbacks.world) :
  Callbacks.every_n_epoch self = 0%Z ->
  Dict.get logs "step" = Some (Callbacks.PStr "training") ->
  Callbacks.torchlight_on_epoch_end self epoch logs w = Raised ZeroDivisionError w /\
  Callbacks.torchlite_on_epoch_end self epoch logs w = Raised ZeroDivisionError w.
Proof.
  intros Hn Hstep.
  unfold Callbacks.torchlight_on_epoch_end, Callbacks.torchlite_on_epoch_end,
    Py.bind, Py.lift, Dict.lookup, Callbacks.divides.
  rewrite Hstep, Hn. split; reflexivity.
Qed.

Lemma every_n_epoch_zero_divides_by_zero_witness :
  Callbacks.torchlite_on_epoch_end (Callbacks.mkSaver "out" 5 0) 5
    [("step", Callbacks.PStr "training");
     ("models", Callbacks.models_entry [("Net", Toy.net "Net" 1)])]
    Toy.empty_world = Raised ZeroDivisionError Toy.empty_world.
Proof.
  apply (proj2 (@every_n_epoch_zero_divides_by_zero Toy.torch
                  (Callbacks.mkSaver "out" 5 0) 5
                  [("step", Callbacks.PStr "training");
                   ("models", Callbacks.models_entry [("Net", Toy.net "Net" 1)])]
                  Toy.empty_world eq_refl eq_refl)).
Defined.

(** X10: an epoch end whose step is not ["training"], or whose epoch is
    neither a multiple of [every_n_epoch] nor the last epoch, writes and
    prints nothing in either package; [logs['models']] is not even
    looked up. *)
Theorem no_checkpoint_unless_due
    (T : Callbacks.Torch) (self : Callbacks.ModelSaverCallback) (epoch : Z)
    (logs : Dict.t Callbacks.pyval) (step : Callbacks.pyval)
    (w : Callbacks.world) :
  Dict.get logs "step" = Some step ->
  Callbacks.eq_str step "training" = false \/
  (Callbacks.every_n_epoch self <> 0 /\
   epoch mod Callbacks.every_n_epoch self <> 0 /\
   epoch <> Callbacks.epochs self)%Z ->
  Callbacks.torchlight_on_epoch_end self epoch logs w = Returned tt w /\
  Callbacks.torchlite_on_epoch_end self epoch logs w = Returned tt w.
Proof.
  intros Hstep Hcase.
  unfold Callbacks.torchlight_on_epoch_end, Callbacks.torchlite_on_epoch_end,
    Py.bind, Py.lift, Dict.lookup, Callbacks.divides.
  rewrite Hstep.
  destruct (Callbacks.eq_str step "training"); [|split; reflexivity].
  destruct Hcase as [H|[Hn [Hmod Hlast]]]; [discriminate|].
  destruct (Z.eqb_spec (Callbacks.every_n_epoch self) 0); [contradiction|].
  destruct (Z.eqb_spec (epoch mod Callbacks.every_n_epoch self) 0); [contradiction|].
  destruct (Z.eqb_spec epoch (Callbacks.epochs self)); [contradiction|].
  split; reflexivity.
Qed.

Lemma no_checkpoint_unless_due_witness :
  Callbacks.torchlight_on_epoch_end (Callbacks.mkSaver "out" 10 5) 3
    [("step", Callbacks.PStr "training")] Toy.empty_world =
    Returned tt Toy.empty_world.
Proof.
  refine (proj1 (@no_checkpoint_unless_due Toy.torch
                   (Callbacks.mkSaver "out" 10 5) 3
                   [("step", Callbacks.PStr "training")]
                   (Callbacks.PStr "training") Toy.empty_world eq_refl _)).
  right. cbn [Callbacks.every_n_epoch Callbacks.epochs].
  repeat split; intros H; vm_compute in H; discriminate.
Defined.

(** X11: a save is not atomic.  When the target of one model is a
    directory, and the files of the models before it in
    [logs['models']] can be written, [torchlight]'s epoch end raises
    [IsADirectoryError] for it; the files of the models before it have
    been written, those after it have not, and the success line is not
    printed. *)
Theorem failed_save_keeps_earlier_files
    (T : Callbacks.Torch) (self : Callbacks.ModelSaverCallback) (epoch : Z)
    (logs : Dict.t Callbacks.pyval)
    (before after : list (string * Callbacks.module))
    (k : string) (m : Callbacks.module) (w : Callbacks.world) :
  let target := Os.join (Callbacks.to_dir self) (k +:+ ".pth") in
  Dict.get logs "step" = Some (Callbacks.PStr "training") ->
  Callbacks.every_n_epoch self <> 0%Z ->
  (epoch mod Callbacks.every_n_epoch self = 0 \/ epoch = Callbacks.epochs self)%Z ->
  Dict.get logs "models" =
    Some (Callbacks.models_entry (before ++ (k, m) :: after)) ->
  Forall (fun p => Callbacks.writable w (fst p))
    (Callbacks.torchlight_files self before) ->
  Callbacks.fs w !! target = Some Callbacks.Dir ->
  Callbacks.torchlight_on_epoch_end self epoch logs w =
    Raised (IsADirectoryError target)
      {| Callbacks.fs :=
           Callbacks.write_all (Callbacks.torchlight_files self before)
             (Callbacks.fs w);
         Callbacks.stdout := Callbacks.stdout w;
         Callbacks.saved :=
           Callbacks.saved w ++ Callbacks.torchlight_files self before |}.
Proof.
  intros target Hstep Hn Hdue Hm Hok Hdir.
  destruct (@save_is_due T self epoch logs Hstep Hn Hdue) as [Hl [due [Hd Hor]]].
  unfold Callbacks.torchlight_on_epoch_end.
  unfold Py.bind at 1. rewrite Hl. cbn [Py.lift Callbacks.eq_str].
  change (String.eqb "training" "training") with true. cbv iota.
  unfold Py.bind at 1. rewrite Hd. cbn [Py.lift]. rewrite Hor.
  unfold Py.bind at 1. rewrite (@models_items_entry _ logs _ Hm). cbn [Py.lift].
  unfold Py.bind at 1. rewrite torchlight_loop.
  rewrite (@torchlight_loop_stops T self before after k m w Hok Hdir).
  reflexivity.
Qed.

Lemma failed_save_keeps_earlier_files_witness :
  let w : @Callbacks.world Toy.torch :=
    {| Callbacks.fs :=
         <["out/D.pth" := @Callbacks.Dir Toy.torch]> (Callbacks.fs Toy.out_world);
       Callbacks.stdout := []; Callbacks.saved := [] |} in
  exists w',
    Callbacks.torchlight_on_epoch_end (Callbacks.mkSaver "out" 10 1) 2
      [("step", Callbacks.PStr "training");
       ("models", Callbacks.models_entry
          [("G", Toy.net "G" 1); ("D", Toy.net "D" 2); ("E", Toy.net "E" 3)])]
      w = Raised (IsADirectoryError "out/D.pth") w' /\
    Callbacks.saved w' = [("out/G.pth", 1%Z)].
Proof.
  cbv zeta. eexists. split.
  - apply (@failed_save_keeps_earlier_files Toy.torch
             (Callbacks.mkSaver "out" 10 1) 2
             [("step", Callbacks.PStr "training");
              ("models", Callbacks.models_entry
                 [("G", Toy.net "G" 1); ("D", Toy.net "D" 2); ("E", Toy.net "E" 3)])]
             [("G", Toy.net "G" 1)] [("E", Toy.net "E" 3)] "D" (Toy.net "D" 2)).
    + reflexivity.
    + discriminate.
    + left. reflexivity.
    + reflexivity.
    + repeat constructor; vm_compute; discriminate.
    + vm_compute. reflexivity.
  - reflexivity.
Defined.

Section RoundTripFacts.

Import Callbacks CallbacksMore.
Context {T : Torch}.

(** [restore_models] on a single model whose file is on disk. *)
Lemma restore_models_single model from_dir b (w : world) sd model' :
  fs w !! file_of from_dir model = Some (File sd) ->
  load_state_dict model sd = Ok model' ->
  restore_models [model] from_dir b w =
    Returned [model']
      {| fs := fs w; stdout := stdout w ++ [restored_message from_dir];
         saved := saved w |}.
Proof.
  intros Hf Hl. unfold restore_models. cbn [restore_models_loop].
  unfold Py.bind, Py.get, Py.lift, Py.ret, isfile, torch_load.
  fold (file_of from_dir model). rewrite Hf. cbv beta iota.
  try rewrite Hf. cbv beta iota. rewrite Hl. reflexivity.
Qed.

Lemma restore_models_outcome models from_dir b (w : world) :
  match restore_models models from_dir b w with
  | Returned restored w' =>
      w' = {| fs := fs w; stdout := stdout w ++ [restored_message from_dir];
              saved := saved w |} /\
      length restored = length models
  | Raised _ w' => w' = w
  end.
Proof.
  unfold restore_models, Py.bind.
  destruct (restore_models_loop from_dir b models 0 w)
    as [[j ms] w1|e w1] eqn:Hr.
  - apply restore_models_loop_counts in Hr. destruct Hr as [-> [-> Hlen]].
    cbn [fst snd]. destruct (Nat.eqb _ _).
    + unfold print, Py.modify, Py.ret. split; [reflexivity|exact Hlen].
    + reflexivity.
  - eapply restore_models_loop_raises, Hr.
Qed.

(** What [torch.save] leaves behind when it returns. *)
Lemma torch_save_result (w w' : world) p sd :
  torch_save sd p w = Returned tt w' ->
  w' = {| fs := <[p := File sd]> (fs w); stdout := stdout w;
          saved := saved w ++ [(p, sd)] |}.
Proof.
  intros H. pose proof (torch_save_returns _ _ _ H) as Hw.
  rewrite (torch_save_writable sd Hw) in H. congruence.
Qed.

(** An epoch end of [torchlite] that saved the model a classifier core
    publishes left the model's state in the model's default file. *)
Lemma torchlite_saved_default_file (self : ModelSaverCallback) epoch
    (logs : Dict.t pyval) model (w w1 : world) :
  Dict.get logs "step" = Some (PStr "training") ->
  every_n_epoch self <> 0%Z ->
  (epoch mod every_n_epoch self = 0 \/ epoch = epochs self)%Z ->
  Dict.get logs "models" = Some (models_entry (get_models model)) ->
  torchlite_on_epoch_end self epoch logs w = Returned tt w1 ->
  fs w1 !! file_of (to_dir self) model = Some (File (get_state_dict model)).
Proof.
  intros Hstep Hn Hdue Hm.
  destruct (@save_is_due T self epoch logs Hstep Hn Hdue) as [Hl [due [Hd Hor]]].
  unfold torchlite_on_epoch_end.
  unfold Py.bind at 1. rewrite Hl. cbn [Py.lift eq_str].
  change (String.eqb "training" "training") with true. cbv iota.
  unfold Py.bind at 1. rewrite Hd. cbn [Py.lift]. rewrite Hor.
  unfold Py.bind at 1. rewrite (@models_items_entry _ logs _ Hm). cbn [Py.lift].
  unfold Py.bind at 1. rewrite torchlite_loop.
  unfold get_models, torchlite_files. cbn [flat_map app Py.for_each fst snd].
  unfold Py.bind at 1.
  destruct (torch_save _ _ w) as [[] wa|e wa] eqn:E1; [|discriminate].
  unfold Py.bind at 1.
  destruct (torch_save _ _ wa) as [[] wb|e wb] eqn:E2; [|discriminate].
  apply torch_save_result in E2. subst wb.
  unfold Py.ret, print, Py.modify. intros H. inversion H; subst. clear H.
  cbn [fs]. unfold file_of. apply lookup_insert_eq.
Qed.

End RoundTripFacts.

(** X12: checkpoint round trip in [torchlite].  Whenever an epoch end
    that is due returns, having saved the model a classifier core
    publishes, [restore_models] from the same directory hands a model of
    the same class the saved state: it returns that model loaded with
    [state_dict()] of the saved one, and writes nothing.  The epoch end
    does return when its two files can be written (their directory
    exists and no directory stands at their paths). *)
Theorem saved_checkpoint_is_restored
    (T : Callbacks.Torch) (self : Callbacks.ModelSaverCallback) (epoch : Z)
    (logs : Dict.t Callbacks.pyval) (model fresh loaded : Callbacks.module)
    (load_with_cpu : bool) (w : Callbacks.world) :
  Dict.get logs "step" = Some (Callbacks.PStr "training") ->
  Callbacks.every_n_epoch self <> 0%Z ->
  (epoch mod Callbacks.every_n_epoch self = 0 \/ epoch = Callbacks.epochs self)%Z ->
  Dict.get logs "models" =
    Some (Callbacks.models_entry (Callbacks.get_models model)) ->
  Callbacks.class_name fresh = Callbacks.class_name model ->
  Callbacks.load_state_dict fresh (Callbacks.get_state_dict model) = Ok loaded ->
  (forall w1,
     Callbacks.torchlite_on_epoch_end self epoch logs w = Returned tt w1 ->
     exists w2,
       Callbacks.restore_models [fresh] (Callbacks.to_dir self) load_with_cpu w1 =
         Returned [loaded] w2 /\
       Callbacks.fs w2 = Callbacks.fs w1)
  /\
  (Forall (fun p => Callbacks.writable w (fst p))
     (Callbacks.torchlite_files self epoch (Callbacks.get_models model)) ->
   exists w1,
     Callbacks.torchlite_on_epoch_end self epoch logs w = Returned tt w1).
Proof.
  intros Hstep Hn Hdue Hm Hcls Hload. split.
  - intros w1 Hsave.
    pose proof (@torchlite_saved_default_file T self epoch logs model w w1
                  Hstep Hn Hdue Hm Hsave) as Hfile.
    assert (Hfresh : Callbacks.fs w1 !! Callbacks.file_of (Callbacks.to_dir self) fresh
                     = Some (Callbacks.File (Callbacks.get_state_dict model))).
    { unfold Callbacks.file_of in *. now rewrite Hcls. }
    eexists.
    rewrite (@restore_models_single T fresh (Callbacks.to_dir self) load_with_cpu
               w1 _ loaded Hfresh Hload).
    split; reflexivity.
  - intros Hok.
    destruct (@torchlite_on_epoch_end_saves T self epoch logs
                (Callbacks.get_models model) w Hstep Hn Hdue Hm Hok)
      as [w1 [Hsave _]].
    now exists w1.
Qed.

Lemma saved_checkpoint_is_restored_witness :
  exists w1 w2,
    Callbacks.torchlite_on_epoch_end (Callbacks.mkSaver "out" 10 1) 4
      [("step", Callbacks.PStr "training");
       ("models", Callbacks.models_entry
                    (Callbacks.get_models (Toy.net "Net" 42)))]
      Toy.out_world = Returned tt w1 /\
    Callbacks.restore_models [Toy.net "Net" 0] "out" false w1 =
      Returned [Toy.net "Net" 42] w2 /\
    Callbacks.fs w2 = Callbacks.fs w1.
Proof.
  destruct (@saved_checkpoint_is_restored Toy.torch
              (Callbacks.mkSaver "out" 10 1) 4
              [("step", Callbacks.PStr "training");
               ("models", Callbacks.models_entry
                            (Callbacks.get_models (Toy.net "Net" 42)))]
              (Toy.net "Net" 42) (Toy.net "Net" 0) (Toy.net "Net" 42)
              false Toy.out_world)
    as [Hrestore Hsave].
  - reflexivity.
  - discriminate.
  - left. reflexivity.
  - reflexivity.
  - reflexivity.
  - reflexivity.
  - destruct Hsave as [w1 Hw1].
    + repeat constructor; vm_compute; discriminate.
    + destruct (Hrestore w1 Hw1) as [w2 [H2 Hfs]].
      exists w1, w2. repeat split; assumption.
Defined.

(** X13: [torchlight]'s [restore_model] restores nothing.  Unless
    [from_dir] names a regular file, the call returns exactly when it is
    given a single model whose file is missing; in every other case it
    raises. *)
Theorem torchlight_restore_returns_only_for_one_missing_file
    (T : Callbacks.Torch) (models : list Callbacks.module) (from_dir : string)
    (w : Callbacks.world) :
  (forall sd, Callbacks.fs w !! from_dir <> Some (Callbacks.File sd)) ->
  (Py.returns (Callbacks.restore_model models from_dir w) = true <->
   exists model, models = [model] /\
                 Callbacks.isfile w (Callbacks.file_of from_dir model) = false).
Proof.
  intros Hdir. split.
  - intros Hret.
    pose proof (@restore_model_off_by_one T models from_dir w Hret) as Hcount.
    unfold Callbacks.restore_model, Py.bind in Hret.
    destruct (Callbacks.restore_model_loop from_dir models 0 w)
      as [[j ms] w1|e w1] eqn:Hr; [|discriminate].
    pose proof (@restore_model_loop_found_none T from_dir models 0 w w1 j ms Hdir Hr)
      as Hnone.
    rewrite Hnone in Hcount. cbn in Hcount.
    destruct models as [|model [|model2 rest]]; cbn in Hcount; try lia.
    exists model. split; [reflexivity|].
    unfold Callbacks.found in Hnone. cbn [List.filter] in Hnone.
    destruct (Callbacks.isfile w (Callbacks.file_of from_dir model));
      [discriminate|reflexivity].
  - intros [model [-> Hf]].
    destruct (@restore_model_single_missing T model from_dir w Hf) as [w' [H _]].
    now rewrite H.
Qed.

Lemma torchlight_restore_returns_only_for_one_missing_file_witness :
  Py.returns (Callbacks.restore_model
                [Toy.net "Generator" 0; Toy.net "Discriminator" 0]
                "checkpoint" Toy.generator_on_disk) = true <->
  exists model,
    [Toy.net "Generator" 0; Toy.net "Discriminator" 0] = [model] /\
    Callbacks.isfile Toy.generator_on_disk
      (Callbacks.file_of "checkpoint" model) = false.
Proof.
  apply (@torchlight_restore_returns_only_for_one_missing_file Toy.torch
           [Toy.net "Generator" 0; Toy.net "Discriminator" 0]
           "checkpoint" Toy.generator_on_disk).
  intros sd H. vm_compute in H. discriminate.
Defined.

(** X14: [restore_models] never writes.  When it raises, the disk and
    the console are as before; when it returns, it returns as many
    models as it was given, the disk is unchanged and the console has
    exactly one more line, the success message. *)
Theorem restore_models_only_prints_on_success
    (T : Callbacks.Torch) (models : list Callbacks.module) (from_dir : string)
    (load_with_cpu : bool) (w : Callbacks.world) :
  match Callbacks.restore_models models from_dir load_with_cpu w with
  | Returned restored w' =>
      Callbacks.fs w' = Callbacks.fs w /\
      Callbacks.saved w' = Callbacks.saved w /\
      Callbacks.stdout w' =
        Callbacks.stdout w ++ [CallbacksMore.restored_message from_dir] /\
      length restored = length models
  | Raised _ w' => w' = w
  end.
Proof.
  pose proof (@restore_models_outcome T models from_dir load_with_cpu w) as H.
  destruct (Callbacks.restore_models models from_dir load_with_cpu w)
    as [restored w'|e w'].
  - destruct H as [-> Hlen]. repeat split. exact Hlen.
  - exact H.
Qed.



(** ** [TrainCallbackList]: appending, and the dictionary handed on *)


(** X17: [logs = logs or {}].  A caller who passes [None] or an empty
    dictionary does not share it with the callbacks: they are handed a
    newly created empty dictionary at a location no existing dictionary
    has, and all existing dictionaries are left as they were.  A
    non-empty dictionary is handed on as it is, and nothing is
    created. *)
Theorem empty_logs_are_not_shared
    (T : Callbacks.Torch) (U : Type) (logs : option TrainCallbackList.loc)
    (st : TrainCallbackList.store U) :
  (logs = None \/
   (exists l0, logs = Some l0 /\
               TrainCallbackList.deref st l0 = Dict.empty) ->
   exists st1,
     TrainCallbackList.logs_or_empty logs st =
       Returned (length (TrainCallbackList.heap st)) st1 /\
     TrainCallbackList.deref st1 (length (TrainCallbackList.heap st)) = Dict.empty /\
     TrainCallbackList.user st1 = TrainCallbackList.user st /\
     forall l0, (l0 < length (TrainCallbackList.heap st))%nat ->
       l0 <> length (TrainCallbackList.heap st) /\
       TrainCallbackList.deref st1 l0 = TrainCallbackList.deref st l0)
  /\
  (forall l0, logs = Some l0 ->
     TrainCallbackList.deref st l0 <> Dict.empty ->
     TrainCallbackList.logs_or_empty logs st = Returned l0 st).
Proof.
  split.
  - intros Hcase.
    assert (E : TrainCallbackList.logs_or_empty logs st =
                Returned (length (TrainCallbackList.heap st))
                  {| TrainCallbackList.heap := TrainCallbackList.heap st ++ [Dict.empty];
                     TrainCallbackList.user := TrainCallbackList.user st |}).
    { unfold TrainCallbackList.logs_or_empty.
      destruct Hcase as [->|[l0 [-> Hd]]]; [reflexivity|]. now rewrite Hd. }
    eexists. split; [exact E|].
    unfold TrainCallbackList.deref. cbn [TrainCallbackList.heap TrainCallbackList.user].
    split; [|split; [reflexivity|]].
    + rewrite lookup_app_r by lia. now rewrite Nat.sub_diag.
    + intros l0 Hlt. split; [lia|]. now rewrite lookup_app_l by lia.
  - intros l0 -> Hne. unfold TrainCallbackList.logs_or_empty.
    destruct (TrainCallbackList.deref st l0); [contradiction|reflexivity].
Qed.

Lemma empty_logs_are_not_shared_witness :
  let st : TrainCallbackList.store unit :=
    {| TrainCallbackList.heap := [@Dict.empty (@Callbacks.pyval Toy.torch)];
       TrainCallbackList.user := tt |} in
  exists st1,
    TrainCallbackList.logs_or_empty (Some 0%nat) st = Returned 1%nat st1 /\
    TrainCallbackList.deref st1 0 = TrainCallbackList.deref st 0.
Proof.
  cbv zeta.
  destruct (proj1 (@empty_logs_are_not_shared Toy.torch unit (Some 0%nat)
                     {| TrainCallbackList.heap := [@Dict.empty (@Callbacks.pyval Toy.torch)];
                        TrainCallbackList.user := tt |}))
    as [st1 [H1 [_ [_ H2]]]].
  - right. exists 0%nat. split; reflexivity.
  - exists st1. split; [exact H1|]. apply H2. simpl. lia.
Defined.

(** ** [TQDM] *)

Section TqdmFacts.

Import Callbacks Tqdm.
Context {T : Torch} {Fmt : Formatter}.


End TqdmFacts.




(** X19: the end of a training epoch needs both [epoch_logs] and
    [metrics_logs]: when either is missing, [on_epoch_end] raises
    [KeyError] for it, after the training bar has been closed and before
    anything is printed.  The end of a validation epoch tolerates both
    being absent: it closes the validation bar and prints nothing. *)
Theorem training_epoch_end_needs_both_logs
    (T : Callbacks.Torch) (Fmt : Tqdm.Formatter) (epoch : Z)
    (logs : Dict.t Callbacks.pyval) (self : Tqdm.TQDM) (b : Tqdm.bar) :
  (Dict.get logs "step" = Some (Callbacks.PStr "training") ->
   Tqdm.train_pbar self = Some b ->
   Dict.get logs "epoch_logs" = None \/ Dict.get logs "metrics_logs" = None ->
   exists key,
     (key = "epoch_logs" \/ key = "metrics_logs") /\
     Dict.get logs key = None /\
     Tqdm.on_epoch_end epoch logs self =
       Raised (KeyError key)
         {| Tqdm.train_pbar := Some (Tqdm.call_bar Tqdm.Close b);
            Tqdm.val_pbar := Tqdm.val_pbar self;
            Tqdm.total_epochs := Tqdm.total_epochs self;
            Tqdm.train_loader_len := Tqdm.train_loader_len self;
            Tqdm.val_loader_len := Tqdm.val_loader_len self;
            Tqdm.console := Tqdm.console self |})
  /\
  (Dict.get logs "step" = Some (Callbacks.PStr "validation") ->
   Tqdm.val_pbar self = Some b ->
   Dict.get logs "epoch_logs" = None -> Dict.get logs "metrics_logs" = None ->
   Tqdm.on_epoch_end epoch logs self =
     Returned tt
       {| Tqdm.train_pbar := Tqdm.train_pbar self;
          Tqdm.val_pbar := Some (Tqdm.call_bar Tqdm.Close b);
          Tqdm.total_epochs := Tqdm.total_epochs self;
          Tqdm.train_loader_len := Tqdm.train_loader_len self;
          Tqdm.val_loader_len := Tqdm.val_loader_len self;
          Tqdm.console := Tqdm.console self |}).
Proof.
  split.
  - intros Hstep Hb Hmiss.
    unfold Tqdm.on_epoch_end, Py.bind, Py.lift, Dict.lookup, Tqdm.on_train_pbar.
    rewrite Hstep. cbn [Callbacks.eq_str].
    change (String.eqb "training" "training") with true. cbv beta iota.
    rewrite Hb.
    destruct (Dict.get logs "epoch_logs") as [el|] eqn:He.
    + destruct Hmiss as [H|H]; [discriminate|].
      exists "metrics_logs". rewrite H. repeat split; auto.
    + exists "epoch_logs". rewrite He. repeat split; auto.
  - intros Hstep Hb He Hm.
    unfold Tqdm.on_epoch_end, Py.bind, Py.lift, Dict.lookup, Tqdm.on_val_pbar.
    rewrite Hstep. cbn [Callbacks.eq_str].
    change (String.eqb "validation" "training") with false.
    change (String.eqb "validation" "validation") with true. cbv beta iota.
    rewrite Hb, He, Hm. reflexivity.
Qed.

Lemma training_epoch_end_needs_both_logs_witness :
  exists self',
    Tqdm.on_epoch_end (Fmt := ToyMore.fmt) 1
      [("step", Callbacks.PStr "training");
       ("epoch_logs", Callbacks.PDict [("train loss", Callbacks.PFloat 1)])]
      ToyMore.running = Raised (KeyError "metrics_logs") self' /\
    Tqdm.console self' = [].
Proof.
  destruct (proj1 (@training_epoch_end_needs_both_logs Toy.torch ToyMore.fmt 1
                     [("step", Callbacks.PStr "training");
                      ("epoch_logs",
                       Callbacks.PDict [("train loss", Callbacks.PFloat 1)])]
                     ToyMore.running (Tqdm.mkBar (Some 8%Z) "Epochs 1/2" []))
                  eq_refl eq_refl (or_intror eq_refl))
    as [key [Hkey [Hnone H]]].
  destruct Hkey as [Hk|Hk]; subst key; [discriminate Hnone|].
  eexists. split; [exact H|reflexivity].
Defined.

(** ** The tabular encoder: integrity check, column order, NaN guard *)

Section EncoderMoreFacts.

Import TabularEncoder.
Context {E : Encoder}.

Lemma sym_diff_In (a b : list string) (x : string) :
  In x (sym_diff a b) <-> (In x a /\ ~ In x b) \/ (In x b /\ ~ In x a).
Proof.
  unfold sym_diff. rewrite List.nodup_In, in_app_iff, !List.filter_In.
  rewrite !negb_true_iff, !mem_false. reflexivity.
Qed.

Lemma sym_diff_same (a : list string) : sym_diff a a = [].
Proof.
  destruct (sym_diff a a) as [|x l] eqn:Hd; [reflexivity|].
  assert (Hin : In x (sym_diff a a)) by (rewrite Hd; now left).
  apply sym_diff_In in Hin. tauto.
Qed.

Lemma list_eqb_eq (a b : list string) : list_eqb a b = true <-> a = b.
Proof.
  unfold list_eqb. split.
  - intros H. now apply bool_decide_eq_true in H.
  - intros H. now apply bool_decide_eq_true.
Qed.

End EncoderMoreFacts.

(** X20: [_check_integrity] accepts a frame exactly when its columns are
    the fitted columns in the fitted order.  Otherwise it raises:
    [KeyError] when the encoder was never fitted; when some label is on
    one side only, the exception "Columns in fitted and transformed
    DataFrame do not match", carrying exactly those labels, each once;
    and when both sides have the same labels, the exception "Columns in
    EncoderBlueprint and DataFrame do not have the same order". *)
Theorem check_integrity_accepts_only_the_fitted_columns
    (E : TabularEncoder.Encoder) (self : TabularEncoder.BaseEncoder)
    (df : TabularEncoder.DataFrame) :
  let fitted := TabularEncoder.cols (TabularEncoder.tfs_list self) in
  let found := TabularEncoder.columns df in
  (TabularEncoder._check_integrity self df = Ok true <-> fitted = Some found)
  /\
  (fitted = None ->
   TabularEncoder._check_integrity self df = Err (KeyError "cols"))
  /\
  (forall ls, fitted = Some ls -> ls <> found ->
     exists msg diff,
       TabularEncoder._check_integrity self df = Err (Exception msg diff) /\
       (forall x, In x diff <->
                  (In x ls /\ ~ In x found) \/ (In x found /\ ~ In x ls)) /\
       List.NoDup diff /\
       (diff <> [] ->
        msg = "Columns in fitted and transformed DataFrame do not match: {}") /\
       (diff = [] ->
        msg = "Columns in EncoderBlueprint and DataFrame do not have the same order")).
Proof.
  cbv zeta. unfold TabularEncoder._check_integrity, Py.and_then, TabularEncoder.tfs_get.
  destruct (TabularEncoder.cols (TabularEncoder.tfs_list self)) as [ls|].
  - split; [|split; [discriminate|]].
    + split.
      * destruct (0 <? _)%nat; [discriminate|].
        destruct (TabularEncoder.list_eqb ls (TabularEncoder.columns df)) eqn:El;
          [|discriminate].
        intros _. apply list_eqb_eq in El. now subst.
      * intros H. inversion H; subst. rewrite sym_diff_same. cbn.
        now rewrite (proj2 (list_eqb_eq _ _) eq_refl).
    + intros ls0 H Hne. inversion H; subst ls0.
      destruct (TabularEncoder.sym_diff ls (TabularEncoder.columns df))
        as [|x l] eqn:Hd.
      * cbn. destruct (TabularEncoder.list_eqb ls (TabularEncoder.columns df)) eqn:El.
        { apply list_eqb_eq in El. contradiction. }
        eexists. exists []. split; [reflexivity|].
        split; [intros y; rewrite <- sym_diff_In, Hd; reflexivity|].
        split; [apply List.NoDup_nil|]. split; [congruence|reflexivity].
      * cbn. eexists. exists (x :: l). split; [reflexivity|].
        split; [intros y; rewrite <- sym_diff_In, Hd; reflexivity|].
        split; [rewrite <- Hd; apply List.NoDup_nodup|].
        split; [reflexivity|discriminate].
  - split; [|split; [reflexivity|discriminate]].
    split; discriminate.
Qed.

Lemma check_integrity_accepts_only_the_fitted_columns_witness :
  exists msg diff,
    TabularEncoder._check_integrity Toy.fitted_ab
      {| TabularEncoder.nrows := 1;
         TabularEncoder.series := [Toy.float_column "c" 1; Toy.float_column "a" 2] |}
      = Err (Exception msg diff) /\
    (forall x, In x diff <-> x = "b" \/ x = "c") /\
    msg = "Columns in fitted and transformed DataFrame do not match: {}".
Proof.
  destruct (proj2 (proj2 (@check_integrity_accepts_only_the_fitted_columns
                            Toy.tree Toy.fitted_ab
                            {| TabularEncoder.nrows := 1;
                               TabularEncoder.series :=
                                 [Toy.float_column "c" 1; Toy.float_column "a" 2] |}))
                  ["a"; "b"] eq_refl)
    as [msg [diff [H1 [H2 [_ [H3 _]]]]]].
  - discriminate.
  - exists msg, diff. split; [exact H1|].
    assert (Hd : forall x, In x diff <-> x = "b" \/ x = "c").
    { intros x. rewrite H2. cbn. split.
      - intros [[Hx Hn]|[Hx Hn]].
        + destruct Hx as [Hx|[Hx|[]]]; subst x;
            [exfalso; apply Hn; auto|now left].
        + destruct Hx as [Hx|[Hx|[]]]; subst x;
            [now right|exfalso; apply Hn; auto].
      - intros [Hx|Hx]; subst x; [left|right]; (split; [auto|]);
          intros [H|[H|[]]]; discriminate. }
    split; [exact Hd|]. apply H3. intros Hnil. subst diff.
    apply (Hd "b"). now left.
Defined.

Lemma nan_guard_checked
    (E : TabularEncoder.Encoder) (self : TabularEncoder.BaseEncoder)
    (df : TabularEncoder.DataFrame) :
  TabularEncoder.fix_missing self = true ->
  TabularEncoder._get_all_non_numeric df = [] ->
  (TabularEncoder.checked self df = Err (Exception "NaN has been found!" []) <->
   TabularEncoder.nrows df = 0%nat \/
   forall c, In c (TabularEncoder.series df) ->
             exists v, In v (TabularEncoder.cells c) /\ TabularEncoder.isnull v = true).
Proof.
  intros Hfix Hnum. unfold TabularEncoder.checked. rewrite Hnum, Hfix.
  cbn [length Nat.ltb Nat.leb andb].
  assert (Hall : TabularEncoder.nan_ratio_all df = true <->
                 TabularEncoder.nrows df = 0%nat \/
                 forall c, In c (TabularEncoder.series df) ->
                   exists v, In v (TabularEncoder.cells c) /\
                             TabularEncoder.isnull v = true).
  { unfold TabularEncoder.nan_ratio_all. rewrite forallb_forall.
    destruct (Nat.eqb_spec (TabularEncoder.nrows df) 0) as [H0|H0].
    - split; [now left|]. intros _ c _. reflexivity.
    - split.
      + intros H. right. intros c Hc. specialize (H c Hc). cbn [orb] in H.
        apply Nat.ltb_lt in H. unfold TabularEncoder.null_count in H.
        destruct (List.filter TabularEncoder.isnull (TabularEncoder.cells c))
          as [|v l] eqn:Hf; [cbn in H; lia|].
        exists v. apply List.filter_In. rewrite Hf. now left.
      + intros [H|H] c Hc; [contradiction|]. cbn [orb].
        destruct (H c Hc) as [v [Hv Hn]]. apply Nat.ltb_lt.
        unfold TabularEncoder.null_count.
        assert (Hin : In v (List.filter TabularEncoder.isnull (TabularEncoder.cells c)))
          by (apply List.filter_In; split; assumption).
        destruct (List.filter _ _); [contradiction|cbn; lia]. }
  destruct (TabularEncoder.nan_ratio_all df).
  - split; [intros _; now apply Hall|reflexivity].
  - split.
    + unfold Py.and_then, TabularEncoder._check_integrity, Py.and_then,
        TabularEncoder.tfs_get.
      destruct (TabularEncoder.cols _); [|discriminate].
      destruct (0 <? _)%nat; [discriminate|].
      destruct (TabularEncoder.list_eqb _ _); discriminate.
    + intros H. apply Hall in H. discriminate.
Qed.

(** X21: with [fix_missing] set and every encoded column numeric, the
    NaN guard of [transform] raises "NaN has been found!" exactly when
    the encoded frame has no rows or every one of its columns holds a
    NaN: a frame with one clean column passes the guard whatever the
    other columns hold. *)
Theorem nan_guard_needs_nan_in_every_column
    (E : TabularEncoder.Encoder) (self : TabularEncoder.BaseEncoder)
    (X df : TabularEncoder.DataFrame) :
  TabularEncoder.encoded self X = Ok df ->
  TabularEncoder.fix_missing self = true ->
  TabularEncoder._get_all_non_numeric df = [] ->
  (TabularEncoder.transform self X = Err (Exception "NaN has been found!" []) <->
   TabularEncoder.nrows df = 0%nat \/
   forall c, In c (TabularEncoder.series df) ->
             exists v, In v (TabularEncoder.cells c) /\ TabularEncoder.isnull v = true).
Proof.
  intros Henc Hfix Hnum.
  rewrite transform_encoded_checked, Henc. cbn [Py.and_then].
  now apply nan_guard_checked.
Qed.

Lemma nan_guard_needs_nan_in_every_column_witness :
  let self : @TabularEncoder.BaseEncoder Toy.tree :=
    {| TabularEncoder.categorical_vars := [];
       TabularEncoder.numeric_vars := ["a"];
       TabularEncoder.tfs_list :=
         {| TabularEncoder.missing := Some [];
            TabularEncoder.categ_cols := Some [];
            TabularEncoder.num_cols := Some ["a"];
            TabularEncoder.cols := Some ["a"] |};
       TabularEncoder.numeric_scaler := None;
       TabularEncoder.fix_missing := true |} in
  let X := {| TabularEncoder.nrows := 0;
              TabularEncoder.series :=
                [TabularEncoder.mkColumn "a" TabularEncoder.Float64 []] |} in
  TabularEncoder.transform self X = Err (Exception "NaN has been found!" []).
Proof.
  cbv zeta.
  apply (@nan_guard_needs_nan_in_every_column Toy.tree _
           {| TabularEncoder.nrows := 0;
              TabularEncoder.series :=
                [TabularEncoder.mkColumn "a" TabularEncoder.Float64 []] |}
           {| TabularEncoder.nrows := 0;
              TabularEncoder.series :=
                [TabularEncoder.mkColumn "a" TabularEncoder.Float64 []] |}).
  - reflexivity.
  - reflexivity.
  - reflexivity.
  - left. reflexivity.
Defined.

(** ** Data frames: selection and item assignment *)

Section FrameFacts.

Import TabularEncoder.

Lemma select_columns (df : DataFrame) (labels : list string) :
  List.NoDup (columns df) ->
  (forall l, In l labels -> In l (columns df)) ->
  columns (select df labels) = labels.
Proof.
  intros Hnd. unfold columns, select. cbn [series].
  induction labels as [|l labels IH]; intros Hall; [reflexivity|].
  cbn [flat_map]. rewrite map_app.
  destruct (@filter_label_unique (series df) l Hnd (Hall l (or_introl eq_refl)))
    as [c Hc].
  rewrite Hc. cbn [map app].
  assert (Hl : label c = l).
  { assert (Hin : In c (List.filter (fun c => String.eqb (label c) l) (series df)))
      by (rewrite Hc; now left).
    apply List.filter_In in Hin. now apply String.eqb_eq. }
  rewrite Hl. f_equal. apply IH. intros l' Hl'. apply Hall. now right.
Qed.

End FrameFacts.



(** ** [TreeEncoder]: category codes and missing values *)

Section TreeFacts.

Import TabularEncoder.

Lemma index_of_spec (v : cell) (vals : list cell) :
  match index_of v vals with
  | Some i =>
      (i < length vals)%nat /\
      (exists x, nth_error vals i = Some x /\ cell_eqb x v = true) /\
      (forall j x, (j < i)%nat -> nth_error vals j = Some x -> cell_eqb x v = false)
  | None => forall x, In x vals -> cell_eqb x v = false
  end.
Proof.
  induction vals as [|v' vals IH]; cbn [index_of].
  - intros x [].
  - destruct (cell_eqb v' v) eqn:E.
    + split; [cbn; lia|]. split; [exists v'; split; [reflexivity|assumption]|].
      intros j x Hj. lia.
    + destruct (index_of v vals) as [i|]; cbn [option_map].
      * destruct IH as [Hlt [[x [Hx Hxe]] Hbefore]].
        split; [cbn; lia|]. split; [exists x; split; assumption|].
        intros j y Hj Hy. destruct j as [|j]; cbn in Hy.
        { inversion Hy; subst. exact E. }
        eapply Hbefore; [|exact Hy]. lia.
      * intros x [Hx|Hx]; [now subst|now apply IH].
Qed.

End TreeFacts.

(** X23: category codes of [TreeEncoder].  A value is encoded by its
    1-based position among the fitted categories, so the code leads back
    to the category; a value that is no fitted category, and a missing
    value in particular, is encoded 0. *)
Theorem category_codes_are_one_based_positions
    (vals : list TabularEncoder.cell) (v : TabularEncoder.cell) :
  exists k : nat,
    TabularEncoder.categ_code vals v = TabularEncoder.Num (inject_Z (Z.of_nat k)) /\
    (k <= length vals)%nat /\
    (k = 0%nat <->
     forall x, In x vals -> TabularEncoder.cell_eqb x v = false) /\
    (forall i, k = S i ->
       exists x, nth_error vals i = Some x /\ TabularEncoder.cell_eqb x v = true) /\
    (v = TabularEncoder.NaN -> k = 0%nat).
Proof.
  unfold TabularEncoder.categ_code.
  pose proof (index_of_spec v vals) as H.
  destruct (TabularEncoder.index_of v vals) as [i|].
  - destruct H as [Hlt [[x [Hx Hxe]] Hbefore]].
    exists (S i). split; [reflexivity|]. split; [lia|]. split; [|split].
    + split; [discriminate|]. intros Hall. exfalso.
      apply nth_error_In in Hx. rewrite (Hall x Hx) in Hxe. discriminate.
    + intros j Hj. inversion Hj; subst. eauto.
    + intros ->. destruct x; discriminate.
  - exists 0%nat. split; [reflexivity|]. split; [lia|]. split; [|split].
    + split; auto.
    + discriminate.
    + reflexivity.
Qed.

(** ** Item assignment *)

Section SetitemFacts.

Import TabularEncoder.




Lemma filter_replaced (cs : list column) (c : column) :
  List.filter (fun x => String.eqb (label x) (label c))
    (map (fun c' => if String.eqb (label c') (label c) then c else c') cs) =
  map (fun _ => c) (List.filter (fun x => String.eqb (label x) (label c)) cs).
Proof.
  induction cs as [|c' cs IH]; [reflexivity|]. cbn [map List.filter].
  destruct (String.eqb (label c') (label c)) eqn:E.
  - rewrite String.eqb_refl. cbn [map]. now rewrite IH.
  - rewrite E. exact IH.
Qed.

Lemma filter_not_replaced (cs : list column) (c : column) (l : string) :
  l <> label c ->
  List.filter (fun x => String.eqb (label x) l)
    (map (fun c' => if String.eqb (label c') (label c) then c else c') cs) =
  List.filter (fun x => String.eqb (label x) l) cs.
Proof.
  intros Hne. induction cs as [|c' cs IH]; [reflexivity|]. cbn [map List.filter].
  destruct (String.eqb_spec (label c') (label c)) as [E|E].
  - destruct (String.eqb_spec (label c) l) as [E1|E1]; [congruence|].
    destruct (String.eqb_spec (label c') l) as [E2|E2]; [congruence|]. exact IH.
  - destruct (String.eqb (label c') l); now rewrite IH.
Qed.

Lemma carriers_setitem_other (df : DataFrame) (c : column) (l : string) :
  l <> label c -> carriers (setitem df c) l = carriers df l.
Proof.
  intros Hne. unfold carriers, setitem. cbn [series].
  destruct (mem (label c) (columns df)).
  - now apply filter_not_replaced.
  - rewrite List.filter_app. cbn [List.filter].
    destruct (String.eqb_spec (label c) l) as [E|E]; [congruence|].
    apply app_nil_r.
Qed.

Lemma carriers_setitem_present (df : DataFrame) (c c0 : column) :
  carriers df (label c) = [c0] -> carriers (setitem df c) (label c) = [c].
Proof.
  intros Hc. unfold carriers, setitem in *. cbn [series].
  assert (Hin : In (label c) (columns df)).
  { destruct (in_dec string_dec (label c) (columns df)) as [H|H]; [exact H|].
    apply carriers_nil in H. unfold carriers in H. congruence. }
  rewrite (proj2 (mem_In _ _) Hin), filter_replaced, Hc. reflexivity.
Qed.


Lemma getitem_setitem_other (df : DataFrame) (c : column) (l : string) :
  l <> label c -> getitem (setitem df c) l = getitem df l.
Proof.
  intros Hne. unfold getitem. now rewrite carriers_setitem_other.
Qed.

Lemma getitem_setitem_present (df : DataFrame) (c c0 : column) :
  getitem df (label c) = Ok (Series c0) ->
  getitem (setitem df c) (label c) = Ok (Series c).
Proof.
  intros H. apply getitem_series in H. apply getitem_series.
  eapply carriers_setitem_present, H.
Qed.


Lemma columns_setitem_present (df : DataFrame) (c : column) :
  In (label c) (columns df) -> columns (setitem df c) = columns df.
Proof.
  intros Hin. unfold columns, setitem. cbn [series].
  fold (columns df). rewrite (proj2 (mem_In _ _) Hin).
  rewrite map_map. apply map_ext_in. intros c' _.
  destruct (String.eqb_spec (label c') (label c)); congruence.
Qed.




Lemma well_formed_setitem (df : DataFrame) (c : column) :
  well_formed df -> length (cells c) = nrows df -> well_formed (setitem df c).
Proof.
  unfold well_formed, setitem. cbn [series nrows]. intros Hwf Hc.
  destruct (mem (label c) (columns df)).
  - rewrite List.Forall_forall in *. intros x Hx.
    apply in_map_iff in Hx. destruct Hx as [c' [Hx Hin]].
    destruct (String.eqb (label c') (label c)); subst x; auto.
  - apply List.Forall_app. split; [exact Hwf|]. now constructor.
Qed.

End SetitemFacts.

(** ** [TreeEncoder._perform_categ_transform] *)

Section CategFacts.

Import TabularEncoder.

Lemma categorical_dtype_result (vals : list cell) :
  match categorical_dtype vals with
  | Ok _ => True
  | Err e => exists msg, e = ValueError msg
  end.
Proof.
  unfold categorical_dtype. destruct (existsb isnull vals); [eauto|].
  destruct (unique_cells vals); [exact I|eauto].
Qed.

(** When the loop returns, every fitted column was carried by exactly
    one column of the frame, which now holds the codes of its cells. *)
Lemma tree_categ_transform_ok (cc : list (string * list cell)) :
  forall df df',
  List.NoDup (map fst cc) ->
  tree_categ_transform cc df = Ok df' ->
  columns df' = columns df /\ nrows df' = nrows df /\
  (well_formed df -> well_formed df') /\
  (forall col vals, In (col, vals) cc ->
     categorical_dtype vals = Ok tt /\
     exists c, getitem df col = Ok (Series c) /\
       getitem df' col =
         Ok (Series {| label := col; col_dtype := Int64;
                       cells := map (categ_code vals) (cells c) |})) /\
  (forall l, ~ In l (map fst cc) -> getitem df' l = getitem df l).
Proof.
  induction cc as [|[col vals] cc IH]; intros df df' Hnd H.
  - cbn in H. inversion H; subst.
    split; [reflexivity|]. split; [reflexivity|]. split; [auto|].
    split; [intros l vs []|reflexivity].
  - cbn [tree_categ_transform Py.and_then] in H.
    destruct (getitem df col) as [[c|cs]|e] eqn:Hg; cbn [Py.and_then] in H;
      [| |discriminate].
    2:{ destruct (categorical_dtype vals); discriminate. }
    destruct (categorical_dtype vals) as [[]|e] eqn:Hv; [|discriminate].
    cbn [Py.and_then] in H.
    set (c1 := {| label := col; col_dtype := Int64;
                  cells := map (categ_code vals) (cells c) |}) in *.
    cbn [map fst] in Hnd. inversion Hnd as [|? ? Hnotin Hnd']; subst.
    destruct (IH _ _ Hnd' H) as [Hcols [Hrows [Hwf [Hkeys Hrest]]]].
    destruct (@getitem_series_In _ _ _ Hg) as [Hcin [_ Hin]].
    assert (Hc1 : columns (setitem df c1) = columns df)
      by (apply columns_setitem_present; exact Hin).
    split; [congruence|]. split; [exact Hrows|]. split; [|split].
    + intros Hdf. apply Hwf. apply well_formed_setitem; [exact Hdf|].
      cbn [cells c1]. rewrite length_map.
      unfold well_formed in Hdf. rewrite List.Forall_forall in Hdf. now apply Hdf.
    + intros l vs [Hl|Hl].
      * inversion Hl; subst l vs. split; [exact Hv|]. exists c.
        split; [exact Hg|]. rewrite (Hrest col Hnotin).
        apply (@getitem_setitem_present df c1 c). exact Hg.
      * destruct (Hkeys l vs Hl) as [Hvs [c2 [Hc2 Hc2']]].
        split; [exact Hvs|]. exists c2. split; [|exact Hc2'].
        rewrite <- Hc2. symmetry. apply getitem_setitem_other.
        cbn [label c1]. intros Heq. subst l. apply Hnotin.
        apply in_map_iff. now exists (col, vs).
    + intros l Hl. rewrite (Hrest l); [|intros Hin'; apply Hl; now right].
      apply getitem_setitem_other. cbn [label c1].
      intros Heq. apply Hl. left. now rewrite Heq.
Qed.

(** When the loop raises, one fitted column is to blame: it is not in
    the frame, or its categories are refused, or several columns carry
    its label. *)
Lemma tree_categ_transform_err (cc : list (string * list cell)) :
  forall df e,
  tree_categ_transform cc df = Err e ->
  exists col vals, In (col, vals) cc /\
    ((e = KeyError col /\ ~ In col (columns df)) \/
     categorical_dtype vals = Err e \/
     (e = AttributeError "'DataFrame' object has no attribute 'cat'" /\
      exists cs, getitem df col = Ok (Frame cs))).
Proof.
  induction cc as [|[col vals] cc IH]; intros df e H; [discriminate|].
  cbn [tree_categ_transform Py.and_then] in H.
  destruct (getitem df col) as [[c|cs]|e0] eqn:Hg; cbn [Py.and_then] in H.
  - destruct (categorical_dtype vals) as [[]|e1] eqn:Hv; cbn [Py.and_then] in H.
    + set (c1 := {| label := col; col_dtype := Int64;
                    cells := map (categ_code vals) (cells c) |}) in *.
      destruct (@getitem_series_In _ _ _ Hg) as [_ [_ Hin]].
      destruct (IH _ _ H) as [l [vs [Hl Hcase]]].
      exists l, vs. split; [now right|].
      destruct Hcase as [[He Hn]|[Hc|[He [cs Hcs]]]].
      * left. split; [exact He|].
        now rewrite (@columns_setitem_present df c1 Hin) in Hn.
      * right. now left.
      * right. right. split; [exact He|]. exists cs.
        destruct (string_dec l col) as [Heq|Hne].
        { subst l.
          pose proof (@getitem_setitem_present df c1 c Hg) as Hs.
          cbn [label c1] in Hs. rewrite Hs in Hcs. discriminate. }
        rewrite <- Hcs. symmetry. now apply getitem_setitem_other.
    + inversion H; subst e1. exists col, vals. split; [now left|]. right. now left.
  - destruct (categorical_dtype vals) as [[]|e1] eqn:Hv; cbn [Py.and_then] in H.
    + inversion H; subst e. exists col, vals. split; [now left|].
      right. right. split; [reflexivity|]. now exists cs.
    + inversion H; subst e1. exists col, vals. split; [now left|]. right. now left.
  - inversion H; subst e0. apply getitem_err in Hg. destruct Hg as [He Hn].
    exists col, vals. split; [now left|]. left. now split.
Qed.

End CategFacts.

(** X24: [TreeEncoder._perform_categ_transform] succeeds exactly when
    every fitted categorical column is carried by exactly one column of
    the frame and its categories are accepted (no missing value, no
    repetition).  When it succeeds the frame keeps its labels, their
    order and its rows; every fitted column has become an integer
    column holding, cell by cell, the code of the cell it held; and the
    other columns are as they were.  Otherwise it raises for one fitted
    column: [KeyError] when the frame lacks it, the error of the
    categories, or [AttributeError] when several columns carry its
    label. *)
Theorem categorical_transform_needs_every_fitted_column
    (categ_cols : list (string * list TabularEncoder.cell))
    (df : TabularEncoder.DataFrame) :
  List.NoDup (map fst categ_cols) ->
  match TabularEncoder.tree_categ_transform categ_cols df with
  | Ok df' =>
      TabularEncoder.columns df' = TabularEncoder.columns df /\
      TabularEncoder.nrows df' = TabularEncoder.nrows df /\
      (TabularEncoder.well_formed df -> TabularEncoder.well_formed df') /\
      (forall col vals, In (col, vals) categ_cols ->
         TabularEncoder.categorical_dtype vals = Ok tt /\
         exists c,
           TabularEncoder.getitem df col = Ok (TabularEncoder.Series c) /\
           TabularEncoder.getitem df' col =
             Ok (TabularEncoder.Series
                   {| TabularEncoder.label := col;
                      TabularEncoder.col_dtype := TabularEncoder.Int64;
                      TabularEncoder.cells :=
                        map (TabularEncoder.categ_code vals)
                          (TabularEncoder.cells c) |})) /\
      (forall l, ~ In l (map fst categ_cols) ->
         TabularEncoder.getitem df' l = TabularEncoder.getitem df l)
  | Err e =>
      exists col vals, In (col, vals) categ_cols /\
        ((e = KeyError col /\ ~ In col (TabularEncoder.columns df)) \/
         TabularEncoder.categorical_dtype vals = Err e \/
         (e = AttributeError "'DataFrame' object has no attribute 'cat'" /\
          exists cs, TabularEncoder.getitem df col = Ok (TabularEncoder.Frame cs)))
  end.
Proof.
  intros Hnd.
  destruct (TabularEncoder.tree_categ_transform categ_cols df) as [df'|e] eqn:H.
  - now apply tree_categ_transform_ok.
  - now apply tree_categ_transform_err.
Qed.

Lemma categorical_transform_needs_every_fitted_column_witness :
  let df := {| TabularEncoder.nrows := 3;
               TabularEncoder.series :=
                 [TabularEncoder.mkColumn "a" TabularEncoder.Object
                    [TabularEncoder.Str "y"; TabularEncoder.NaN;
                     TabularEncoder.Str "x"];
                  TabularEncoder.mkColumn "b" TabularEncoder.Float64
                    [TabularEncoder.Num 1; TabularEncoder.Num 2;
                     TabularEncoder.Num 3]] |} in
  exists df',
    TabularEncoder.tree_categ_transform
      [("a", [TabularEncoder.Str "x"; TabularEncoder.Str "y"])] df = Ok df' /\
    TabularEncoder.getitem df' "a" =
      Ok (TabularEncoder.Series
            (TabularEncoder.mkColumn "a" TabularEncoder.Int64
               [TabularEncoder.Num 2; TabularEncoder.Num 0; TabularEncoder.Num 1])).
Proof.
  cbv zeta.
  pose proof (@categorical_transform_needs_every_fitted_column
                [("a", [TabularEncoder.Str "x"; TabularEncoder.Str "y"])]
                {| TabularEncoder.nrows := 3;
                   TabularEncoder.series :=
                     [TabularEncoder.mkColumn "a" TabularEncoder.Object
                        [TabularEncoder.Str "y"; TabularEncoder.NaN;
                         TabularEncoder.Str "x"];
                      TabularEncoder.mkColumn "b" TabularEncoder.Float64
                        [TabularEncoder.Num 1; TabularEncoder.Num 2;
                         TabularEncoder.Num 3]] |}
                (List.NoDup_cons "a" (fun H : In "a" [] => H) (List.NoDup_nil _)))
    as H.
  destruct (TabularEncoder.tree_categ_transform _ _) as [df'|e] eqn:E.
  - exists df'. split; [reflexivity|].
    destruct H as [_ [_ [_ [Hk _]]]].
    destruct (Hk "a" [TabularEncoder.Str "x"; TabularEncoder.Str "y"]
                (or_introl eq_refl)) as [_ [c [Hc Hc']]].
    rewrite Hc'. vm_compute in Hc. injection Hc as <-. reflexivity.
  - exfalso. vm_compute in E. discriminate.
Defined.

(** ** [TreeEncoder._perform_na_transform] *)

Section NaFacts.

Import TabularEncoder.




End NaFacts.



(** ** [fit] and [transform] of a [TreeEncoder] *)

Section FitFacts.

Import TabularEncoder TabularEncoderMore.

Lemma dict_set_In {V} (d : Dict.t V) k v k' v' :
  In (k', v') (Dict.set d k v) -> (k' = k /\ v' = v) \/ In (k', v') d.
Proof.
  induction d as [|[k0 v0] d IH]; cbn.
  - intros [H|[]]. inversion H. now left.
  - destruct (String.eqb_spec k0 k) as [E|E]; cbn; intros [H|H]; auto.
    + inversion H; subst. now left.
    + destruct (IH H); auto.
Qed.

Lemma dict_set_keys {V} (d : Dict.t V) k v :
  map fst (Dict.set d k v) =
  if in_dec string_dec k (map fst d) then map fst d else map fst d ++ [k].
Proof.
  induction d as [|[k0 v0] d IH]; [reflexivity|]. cbn [Dict.set].
  destruct (String.eqb_spec k0 k) as [E|E]; cbn [map fst].
  - subst k0. destruct (in_dec string_dec k (k :: map fst d)) as [H|H];
      [reflexivity|]. exfalso. apply H. now left.
  - rewrite IH.
    destruct (in_dec string_dec k (map fst d)) as [H|H];
      destruct (in_dec string_dec k (k0 :: map fst d)) as [H'|H'];
      try reflexivity.
    + exfalso. apply H'. now right.
    + exfalso. destruct H' as [H'|H']; contradiction.
Qed.

Lemma dict_set_NoDup {V} (d : Dict.t V) k v :
  List.NoDup (map fst d) -> List.NoDup (map fst (Dict.set d k v)).
Proof.
  intros Hnd. rewrite dict_set_keys.
  destruct (in_dec string_dec k (map fst d)) as [H|H]; [exact Hnd|].
  apply List.NoDup_app; [exact Hnd|apply List.NoDup_cons; [intros []|apply List.NoDup_nil]|].
  intros x Hx [Hx'|[]]. subst x. contradiction.
Qed.

Lemma unique_cells_snoc (seen : list cell) (v : cell) :
  unique_cells seen = true ->
  existsb (fun x => cell_eqb x v) seen = false ->
  unique_cells (seen ++ [v]) = true.
Proof.
  induction seen as [|x seen IH]; intros Hu Hv; [reflexivity|].
  cbn [app unique_cells existsb] in *.
  apply andb_true_iff in Hu. destruct Hu as [Hx Hu].
  apply orb_false_iff in Hv. destruct Hv as [Hxv Hv].
  rewrite existsb_app. cbn [existsb]. rewrite Hxv.
  apply negb_true_iff in Hx. rewrite Hx. cbn. now apply IH.
Qed.

(** The categories [pd.factorize] finds are accepted as categories. *)
Lemma uniques_into_accepted (values : list cell) : forall seen,
  existsb isnull seen = false -> unique_cells seen = true ->
  existsb isnull (uniques_into seen values) = false /\
  unique_cells (uniques_into seen values) = true.
Proof.
  induction values as [|v values IH]; intros seen Hn Hu; [now split|].
  cbn [uniques_into].
  destruct (isnull v) eqn:Ev; cbn [orb]; [now apply IH|].
  destruct (existsb (fun x => cell_eqb x v) seen) eqn:Es; [now apply IH|].
  apply IH.
  - rewrite existsb_app. cbn [existsb]. now rewrite Hn, Ev.
  - now apply unique_cells_snoc.
Qed.

Lemma uniques_accepted (values : list cell) :
  categorical_dtype (uniques values) = Ok tt.
Proof.
  unfold categorical_dtype, uniques.
  destruct (@uniques_into_accepted values [] eq_refl eq_refl) as [Hn Hu].
  now rewrite Hn, Hu.
Qed.

(** On a frame with distinct labels the fitting loop never fails. *)
Lemma tree_categ_fit_ok (vars : list string) (df : DataFrame) :
  List.NoDup (columns df) ->
  forall acc : Dict.t (list cell),
  fitted_for df acc ->
  exists cc, tree_categ_fit vars df acc = Ok cc /\ fitted_for df cc.
Proof.
  intros Hdf. induction vars as [|col vars IH]; intros acc Hacc.
  - exists acc. split; [reflexivity|assumption].
  - cbn [tree_categ_fit]. destruct (mem col (columns df)) eqn:Hm; [|now apply IH].
    apply mem_In in Hm.
    destruct (carriers_unique df col Hdf Hm) as [c Hc].
    apply getitem_series in Hc. rewrite Hc. cbn [Py.and_then].
    apply IH. destruct Hacc as [Hnd Hall]. split.
    + now apply dict_set_NoDup.
    + intros k vals Hin. apply dict_set_In in Hin.
      destruct Hin as [[Hk Hv]|Hin]; [|now apply Hall].
      subst k vals. split; [apply uniques_accepted|exact Hm].
Qed.

Lemma tree_categ_transform_present (cc : list (string * list cell)) (df : DataFrame) :
  List.NoDup (columns df) -> fitted_for df cc ->
  exists df', tree_categ_transform cc df = Ok df'.
Proof.
  intros Hdf [_ Hall].
  destruct (tree_categ_transform cc df) as [df'|e] eqn:H; [eauto|].
  apply tree_categ_transform_err in H.
  destruct H as [col [vals [Hin Hcase]]]. exfalso.
  destruct (Hall col vals Hin) as [Hv Hc].
  destruct Hcase as [[_ Hn]|[Hd|[_ [cs Hcs]]]].
  - contradiction.
  - congruence.
  - destruct (carriers_unique df col Hdf Hc) as [c Hcar].
    apply getitem_series in Hcar. congruence.
Qed.

End FitFacts.

(** X26: on a frame with distinct labels and for feature lists that
    name no feature twice, fitting a [TreeEncoder] without
    [fix_missing] and without scaler never fails, and the fitted
    encoder accepts the frame it was fitted on: [transform] on that
    frame passes the column-integrity check, and returns the encoded
    frame exactly when all its columns are numeric.  A target column
    name that is not in the frame makes [fit] raise [KeyError] before
    anything is fitted. *)
Theorem fitted_tree_encoder_accepts_its_training_frame
    (S : Type)
    (scale : S -> list string -> TabularEncoder.DataFrame
             -> result TabularEncoder.DataFrame)
    (na_fit : @TabularEncoder.BaseEncoder (TabularEncoder.TreeEncoder scale)
              -> TabularEncoder.DataFrame -> option string
              -> result (TabularEncoder.tfs * TabularEncoder.DataFrame))
    (scaler_fit : S -> list string -> TabularEncoder.DataFrame -> result S)
    (self : @TabularEncoder.BaseEncoder (TabularEncoder.TreeEncoder scale))
    (X : TabularEncoder.DataFrame) :
  let EF := TabularEncoderMore.TreeEncoderFit na_fit scaler_fit in
  TabularEncoder.fix_missing self = false ->
  TabularEncoder.numeric_scaler self = None ->
  (List.NoDup (TabularEncoder.columns X) ->
   List.NoDup (TabularEncoder.categorical_vars self ++
               TabularEncoder.numeric_vars self) ->
   exists fitted df,
     TabularEncoderMore.fit (EF := EF) self X None = Ok (fitted, None) /\
     TabularEncoder.encoded fitted X = Ok df /\
     TabularEncoder.cols (TabularEncoder.tfs_list fitted)
       = Some (TabularEncoder.columns df) /\
     TabularEncoder._check_integrity fitted df = Ok true /\
     (TabularEncoder.transform fitted X = Ok df <->
      TabularEncoder._get_all_non_numeric df = []))
  /\
  (forall name, ~ In name (TabularEncoder.columns X) ->
     TabularEncoderMore.fit (EF := EF) self X (Some name) = Err (KeyError name)).
Proof.
  intros EF Hfix Hsc. split.
  - intros HX Hfeat.
    set (present := List.filter
                      (fun feat => TabularEncoder.mem feat (TabularEncoder.columns X))
                      (TabularEncoder.categorical_vars self ++
                       TabularEncoder.numeric_vars self)).
    set (df0 := TabularEncoder.select X present).
    assert (Hdf0 : List.NoDup (TabularEncoder.columns df0)).
    { unfold df0. rewrite select_columns.
      - unfold present. now apply List.NoDup_filter.
      - exact HX.
      - intros l Hl. apply List.filter_In in Hl. now apply mem_In. }
    destruct (@tree_categ_fit_ok (TabularEncoder.categorical_vars self) df0 Hdf0
                Dict.empty)
      as [cc [Hcc Hfor]].
    { split; [apply List.NoDup_nil|intros k vals []]. }
    destruct (@tree_categ_transform_present cc df0 Hdf0 Hfor) as [df1 Hdf1].
    eexists. exists df1.
    assert (Hfit : TabularEncoderMore.fit (EF := EF) self X None =
      Ok ({| TabularEncoder.categorical_vars := TabularEncoder.categorical_vars self;
             TabularEncoder.numeric_vars := TabularEncoder.numeric_vars self;
             TabularEncoder.tfs_list :=
               TabularEncoderMore.set_cols
                 (TabularEncoderMore.set_num_cols
                    {| TabularEncoder.missing :=
                         TabularEncoder.missing (TabularEncoder.tfs_list self);
                       TabularEncoder.categ_cols := Some cc;
                       TabularEncoder.num_cols :=
                         TabularEncoder.num_cols (TabularEncoder.tfs_list self);
                       TabularEncoder.cols :=
                         TabularEncoder.cols (TabularEncoder.tfs_list self) |}
                    (List.filter
                       (fun n => TabularEncoder.is_numeric (TabularEncoder.getitem df1 n)
                                 && TabularEncoder.mem n
                                      (TabularEncoder.numeric_vars self))
                       (TabularEncoder.columns df1)))
                 (TabularEncoder.columns df1);
             TabularEncoder.numeric_scaler := None;
             TabularEncoder.fix_missing := false |}, None)).
    { unfold TabularEncoderMore.fit. rewrite Hfix, Hsc. fold present. fold df0.
      cbn [Py.and_then fst snd TabularEncoderMore._perform_categ_fit EF
           TabularEncoderMore.TreeEncoderFit TabularEncoderMore.with_tfs
           TabularEncoder.categorical_vars TabularEncoder.tfs_list].
      rewrite Hcc.
      cbn [Py.and_then fst snd TabularEncoder._perform_categ_transform
           TabularEncoder.TreeEncoder TabularEncoder.categ_cols
           TabularEncoder.tfs_get]. unfold Dict.items.
      rewrite Hdf1. reflexivity. }
    split; [exact Hfit|].
    assert (Henc : forall t,
      TabularEncoder.categ_cols t = Some cc ->
      TabularEncoder.encoded (E := TabularEncoder.TreeEncoder scale)
        {| TabularEncoder.categorical_vars := TabularEncoder.categorical_vars self;
           TabularEncoder.numeric_vars := TabularEncoder.numeric_vars self;
           TabularEncoder.tfs_list := t;
           TabularEncoder.numeric_scaler := None;
           TabularEncoder.fix_missing := false |} X = Ok df1).
    { intros t Ht. unfold TabularEncoder.encoded.
      cbn [TabularEncoder.fix_missing TabularEncoder.categorical_vars
           TabularEncoder.numeric_vars TabularEncoder.tfs_list
           TabularEncoder.numeric_scaler]. fold present. fold df0.
      cbn [Py.and_then TabularEncoder._perform_categ_transform
           TabularEncoder.TreeEncoder]. rewrite Ht.
      cbn [TabularEncoder.tfs_get Py.and_then]. unfold Dict.items. rewrite Hdf1.
      reflexivity. }
    split; [apply Henc; reflexivity|]. split; [reflexivity|].
    assert (Hint : TabularEncoder._check_integrity
              (E := TabularEncoder.TreeEncoder scale)
              {| TabularEncoder.categorical_vars := TabularEncoder.categorical_vars self;
                 TabularEncoder.numeric_vars := TabularEncoder.numeric_vars self;
                 TabularEncoder.tfs_list :=
                   TabularEncoderMore.set_cols
                     (TabularEncoderMore.set_num_cols
                        {| TabularEncoder.missing :=
                             TabularEncoder.missing (TabularEncoder.tfs_list self);
                           TabularEncoder.categ_cols := Some cc;
                           TabularEncoder.num_cols :=
                             TabularEncoder.num_cols (TabularEncoder.tfs_list self);
                           TabularEncoder.cols :=
                             TabularEncoder.cols (TabularEncoder.tfs_list self) |}
                        (List.filter
                           (fun n => TabularEncoder.is_numeric
                                       (TabularEncoder.getitem df1 n)
                                     && TabularEncoder.mem n
                                          (TabularEncoder.numeric_vars self))
                           (TabularEncoder.columns df1)))
                     (TabularEncoder.columns df1);
                 TabularEncoder.numeric_scaler := None;
                 TabularEncoder.fix_missing := false |} df1 = Ok true).
    { unfold TabularEncoder._check_integrity.
      cbn [TabularEncoder.tfs_list TabularEncoder.cols TabularEncoderMore.set_cols
           TabularEncoder.tfs_get Py.and_then].
      rewrite sym_diff_same. cbn [length Nat.ltb Nat.leb].
      now rewrite (proj2 (list_eqb_eq _ _) eq_refl). }
    split; [exact Hint|].
    rewrite transform_encoded_checked. erewrite Henc by reflexivity.
    cbn [Py.and_then].
    unfold TabularEncoder.checked. cbn [TabularEncoder.fix_missing andb].
    rewrite Hint. cbn [Py.and_then].
    destruct (TabularEncoder._get_all_non_numeric df1) as [|c l].
    + cbn. split; reflexivity.
    + cbn. split; discriminate.
  - intros name Hn. unfold TabularEncoderMore.fit.
    rewrite (getitem_missing X name Hn). reflexivity.
Qed.

Lemma fitted_tree_encoder_accepts_its_training_frame_witness :
  let X := {| TabularEncoder.nrows := 1;
              TabularEncoder.series :=
                [Toy.float_column "b" 1; Toy.object_column "a" "x"] |} in
  let self : @TabularEncoder.BaseEncoder Toy.tree :=
    {| TabularEncoder.categorical_vars := ["a"];
       TabularEncoder.numeric_vars := ["b"];
       TabularEncoder.tfs_list :=
         {| TabularEncoder.missing := None; TabularEncoder.categ_cols := None;
            TabularEncoder.num_cols := None; TabularEncoder.cols := None |};
       TabularEncoder.numeric_scaler := None;
       TabularEncoder.fix_missing := false |} in
  exists fitted df,
    TabularEncoderMore.fit
      (EF := TabularEncoderMore.TreeEncoderFit
               (fun _ _ _ => Err (KeyError "unused"))
               (fun (s : Empty_set) _ _ => match s with end))
      self X None = Ok (fitted, None) /\
    TabularEncoder.transform fitted X = Ok df /\
    TabularEncoder.columns df = ["a"; "b"].
Proof.
  cbv zeta.
  destruct (proj1 (@fitted_tree_encoder_accepts_its_training_frame Empty_set
                     (fun s _ _ => match s with end)
                     (fun _ _ _ => Err (KeyError "unused"))
                     (fun (s : Empty_set) _ _ => match s with end)
                     {| TabularEncoder.categorical_vars := ["a"];
                        TabularEncoder.numeric_vars := ["b"];
                        TabularEncoder.tfs_list :=
                          {| TabularEncoder.missing := None;
                             TabularEncoder.categ_cols := None;
                             TabularEncoder.num_cols := None;
                             TabularEncoder.cols := None |};
                        TabularEncoder.numeric_scaler := None;
                        TabularEncoder.fix_missing := false |}
                     {| TabularEncoder.nrows := 1;
                        TabularEncoder.series :=
                          [Toy.float_column "b" 1; Toy.object_column "a" "x"] |}
                     eq_refl eq_refl))
    as [fitted [df [Hfit [Henc [Hcols [Hint Htr]]]]]].
  - repeat (apply List.NoDup_cons; [simpl; intuition discriminate|]).
    apply List.NoDup_nil.
  - repeat (apply List.NoDup_cons; [simpl; intuition discriminate|]).
    apply List.NoDup_nil.
  - exists fitted, df. split; [exact Hfit|].
    assert (Hfitted := Hfit). vm_compute in Hfitted.
    injection Hfitted as Hf. subst fitted.
    vm_compute in Henc. injection Henc as Hdf. subst df.
    split; [apply (proj2 Htr); reflexivity|reflexivity].
Defined.
